(** * A shallow embedding of the PIO ATA driver (src/disk/ata/ata.c, ata.h)

    The driver talks to the disk controller through the x86 port
    instructions, blocks on [kernel_wait], takes a per-device spinlock and
    allocates its device records from an object pool.  None of these
    collaborators is part of the driver sources, so the embedding is
    parametric in a [Platform]: a state type with the answers of the port
    instructions, of the scheduler and of the allocator.  Driver functions
    become functions of a small state monad whose state holds the device
    records, the two globals of ata.c, the platform state and a log of
    every action the driver performs. *)

From stdpp Require Import gmap strings list fin_maps.
From Stdlib Require Import NArith ZArith Lia.

Local Open Scope N_scope.

(** ** Constants of ata.h *)

Definition ATA_PRIMARY_BUS : N := 0x1f0.
Definition ATA_PRIMARY_CTRL : N := 0x3f6.

Definition ATA_REG_DATA : N := 0x0.
Definition ATA_REG_SECTOR_COUNT : N := 0x2.
Definition ATA_REG_SECTOR_NUMBER : N := 0x3.
Definition ATA_REG_CYLINDER_LOW : N := 0x4.
Definition ATA_REG_CYLINDER_HIGH : N := 0x5.
Definition ATA_REG_DRIVE : N := 0x6.
Definition ATA_REG_STATUS : N := 0x7.
Definition ATA_REG_COMMAND : N := 0x7.

Definition ATA_CTRL_DEVICE_CONTROL : N := 0x0.

Definition ATA_STATUS_ERR : N := 0x01.
Definition ATA_STATUS_DRQ : N := 0x08.
Definition ATA_STATUS_RDY : N := 0x40.
Definition ATA_STATUS_BSY : N := 0x80.

Definition ATA_CMD_IDENTIFY : N := 0xec.
Definition ATA_CMD_READ_SECTORS : N := 0x20.
Definition ATA_CMD_WRITE_SECTORS : N := 0x30.
Definition ATA_CMD_CACHE_FLUSH : N := 0xe7.

Definition ATA_SECTOR_SIZE : N := 0x200.

Definition ATA_TYPE_UNKNOWN : Z := 0.
Definition ATA_TYPE_PATA : Z := 1.
Definition ATA_TYPE_PATAPI : Z := 2.
Definition ATA_TYPE_SATA : Z := 3.
Definition ATA_TYPE_SATAPI : Z := 4.

(** ** Data model *)

(** Addresses of device records; a pointer is [None] (NULL) or an address.
    Values of type [size_t] ([lba], [sectors], loop counters) are natural
    numbers: none of the driver's operations on them can overflow, whatever
    the width of the type.  Values of type [int] are integers. *)
Definition loc := nat.
Definition ptr := option loc.
Abbreviation NULL := (@None loc).

(** [struct ata_device].  [bus] and [ctrl] are [uint16_t]; [spinlock] and
    [wait_irq] are integers used as truth values. *)
Record ata_device := mk_device {
  next : ptr;
  bus : N;
  ctrl : N;
  spinlock : Z;
  wait_irq : Z
}.

(** What [bzero], the constructor given to [cache_create], leaves behind. *)
Definition zero_device : ata_device :=
  {| next := NULL; bus := 0; ctrl := 0; spinlock := 0%Z; wait_irq := 0%Z |}.

Definition set_wait_irq (v : Z) (d : ata_device) : ata_device :=
  {| next := next d; bus := bus d; ctrl := ctrl d;
     spinlock := spinlock d; wait_irq := v |}.

Definition set_spinlock (v : Z) (d : ata_device) : ata_device :=
  {| next := next d; bus := bus d; ctrl := ctrl d;
     spinlock := v; wait_irq := wait_irq d |}.

Definition set_bus (v : N) (d : ata_device) : ata_device :=
  {| next := next d; bus := v; ctrl := ctrl d;
     spinlock := spinlock d; wait_irq := wait_irq d |}.

Definition set_ctrl (v : N) (d : ata_device) : ata_device :=
  {| next := next d; bus := bus d; ctrl := v;
     spinlock := spinlock d; wait_irq := wait_irq d |}.

(** The two entry points the kernel calls into the driver asynchronously. *)
Inductive hook := IrqHook | ErrCheckHook.

(** Everything the driver does that is visible outside its own locals:
    port accesses with the value moved, taking and releasing a guard, a
    store [EvFlag a v] of [v] to the [wait_irq] field of the record at [a],
    a call of [kernel_wait], pool traffic and messages. *)
Inductive event :=
| EvInb (port v : N)
| EvOutb (port v : N)
| EvInw (port v : N)
| EvOutw (port v : N)
| EvLock (a : loc)
| EvUnlock (a : loc)
| EvFlag (a : loc) (v : Z)
| EvYield
| EvAlloc (a : loc)
| EvFree (a : loc)
| EvPrintf (fmt : string) (args : list N).

(** The collaborators of the driver.  Port numbers are 16 bits wide, byte
    ports carry 8 bits and word ports 16; the embedding truncates what it
    passes and what it receives accordingly.  [plat_wait] is one call of
    [kernel_wait]: time passes on the hardware and the kernel may have
    dispatched driver hooks in the meantime.  [plat_cache_create] is the
    allocator's answer to [cache_create]: no pool, or the free slots. *)
Class Platform (HW : Type) := {
  plat_inb : N -> HW -> N * HW;
  plat_outb : N -> N -> HW -> HW;
  plat_inw : N -> HW -> N * HW;
  plat_outw : N -> N -> HW -> HW;
  plat_wait : HW -> list hook * HW;
  plat_cache_create : HW -> option (list loc)
}.

Definition u8 (x : N) : N := x mod 256.
Definition u16 (x : N) : N := x mod 65536.
Definition u32 (x : N) : N := x mod 4294967296.

(** Truth value of a C integer. *)
Definition truthy (x : Z) : bool := negb (x =? 0)%Z.

(** ** Outcomes

    A call returns, runs into undefined behaviour ([Fault]: a load or store
    through a null or dangling pointer, an access past the end of a
    buffer), or is still inside one of its wait loops when the fuel is
    used up ([Spin]).  The state reached is kept in all three cases. *)
Inductive outcome (A : Type) :=
| Ret (a : A)
| Fault
| Spin.
Arguments Ret {A} a.
Arguments Fault {A}.
Arguments Spin {A}.

Section Driver.

Context {HW : Type} `{Platform HW}.

Record state := mk_state {
  heap : gmap loc ata_device;
  devices : ptr;
  devices_cache : option (list loc);
  hw : HW;
  trace : list event
}.

Definition set_heap (h : gmap loc ata_device) (s : state) : state :=
  mk_state h (devices s) (devices_cache s) (hw s) (trace s).
Definition set_devices (p : ptr) (s : state) : state :=
  mk_state (heap s) p (devices_cache s) (hw s) (trace s).
Definition set_devices_cache (c : option (list loc)) (s : state) : state :=
  mk_state (heap s) (devices s) c (hw s) (trace s).
Definition set_hw (h : HW) (s : state) : state :=
  mk_state (heap s) (devices s) (devices_cache s) h (trace s).
Definition log (e : event) (s : state) : state :=
  mk_state (heap s) (devices s) (devices_cache s) (hw s) (trace s ++ [e]).

(** ** The monad *)

Definition M (A : Type) := state -> outcome A * state.

Definition ret {A} (a : A) : M A := fun s => (Ret a, s).
Definition fault {A} : M A := fun s => (Fault, s).
Definition spin {A} : M A := fun s => (Spin, s).

Definition bind {A B} (m : M A) (f : A -> M B) : M B := fun s =>
  match m s with
  | (Ret a, s') => f a s'
  | (Fault, s') => (Fault, s')
  | (Spin, s') => (Spin, s')
  end.

Notation "x <- m ;; k" := (bind m (fun x => k))
  (at level 62, m at next level, k at level 200, right associativity).
Notation "m ;;; k" := (bind m (fun _ => k))
  (at level 62, k at level 200, right associativity).

Definition get_devices : M ptr := fun s => (Ret (devices s), s).
Definition put_devices (p : ptr) : M unit := fun s => (Ret tt, set_devices p s).

Definition emit (e : event) : M unit := fun s => (Ret tt, log e s).

(** ** Port instructions *)

Definition inb (port : N) : M N := fun s =>
  let '(v, h) := plat_inb (u16 port) (hw s) in
  (Ret (u8 v), log (EvInb (u16 port) (u8 v)) (set_hw h s)).

Definition outb (port v : N) : M unit := fun s =>
  (Ret tt, log (EvOutb (u16 port) (u8 v))
               (set_hw (plat_outb (u16 port) (u8 v) (hw s)) s)).

Definition inw (port : N) : M N := fun s =>
  let '(v, h) := plat_inw (u16 port) (hw s) in
  (Ret (u16 v), log (EvInw (u16 port) (u16 v)) (set_hw h s)).

Definition outw (port v : N) : M unit := fun s =>
  (Ret tt, log (EvOutw (u16 port) (u16 v))
               (set_hw (plat_outw (u16 port) (u16 v) (hw s)) s)).

(** ** Device records in memory *)

(** [*dev]: undefined for a null pointer and for one that points to no
    live record. *)
Definition load (dev : ptr) : M ata_device := fun s =>
  match dev with
  | None => (Fault, s)
  | Some a =>
      match heap s !! a with
      | Some d => (Ret d, s)
      | None => (Fault, s)
      end
  end.

(** [dev->wait_irq = v] *)
Definition store_wait_irq (dev : ptr) (v : Z) : M unit := fun s =>
  match dev with
  | None => (Fault, s)
  | Some a =>
      match heap s !! a with
      | Some d => (Ret tt, log (EvFlag a v)
                             (set_heap (<[a := set_wait_irq v d]> (heap s)) s))
      | None => (Fault, s)
      end
  end.

(** Modelled from the spec: [spin_lock] of kernel.h, the per-device
    mutual-exclusion guard, is not among the sources.  It loops until the
    lock word is found free, then takes it.  Nothing else runs while it
    loops, so a held lock stays held. *)
Fixpoint spin_lock (fuel : nat) (dev : ptr) : M unit := fun s =>
  match dev with
  | None => (Fault, s)
  | Some a =>
      match heap s !! a with
      | Some d =>
          if truthy (spinlock d) then
            match fuel with
            | O => (Spin, s)
            | S f => spin_lock f dev s
            end
          else (Ret tt, log (EvLock a)
                          (set_heap (<[a := set_spinlock 1 d]> (heap s)) s))
      | None => (Fault, s)
      end
  end.

(** Modelled from the spec: [spin_unlock] of kernel.h releases the
    guard. *)
Definition spin_unlock (dev : ptr) : M unit := fun s =>
  match dev with
  | None => (Fault, s)
  | Some a =>
      match heap s !! a with
      | Some d => (Ret tt, log (EvUnlock a)
                             (set_heap (<[a := set_spinlock 0 d]> (heap s)) s))
      | None => (Fault, s)
      end
  end.

(** ** The object pool of memory/memory.h *)

(** Modelled from the spec: [cache_alloc] of the fixed-size object
    allocator is not among the sources.  It hands out a free slot whose
    record the pool's constructor ([bzero]) has cleared, or NULL when the
    pool is exhausted; there is no pool to allocate from before
    [cache_create] has succeeded. *)
Definition cache_alloc : M ptr := fun s =>
  match devices_cache s with
  | None => (Fault, s)
  | Some [] => (Ret NULL, s)
  | Some (a :: rest) =>
      (Ret (Some a),
       log (EvAlloc a)
           (set_devices_cache (Some rest)
              (set_heap (<[a := zero_device]> (heap s)) s)))
  end.

(** Modelled from the spec: [cache_free] of the same allocator returns the
    record to the pool; the record is dead afterwards. *)
Definition cache_free (dev : ptr) : M unit := fun s =>
  match devices_cache s, dev with
  | Some slots, Some a =>
      (Ret tt,
       log (EvFree a)
           (set_devices_cache (Some (a :: slots))
              (set_heap (delete a (heap s)) s)))
  | _, _ => (Fault, s)
  end.

(** [printf]: only what is printed matters. *)
Definition printf (fmt : string) (args : list N) : M unit :=
  emit (EvPrintf fmt args).

(** A store to a field of [*dev]. *)
Definition modify (dev : ptr) (f : ata_device -> ata_device) : M unit :=
  fun s =>
  match dev with
  | None => (Fault, s)
  | Some a =>
      match heap s !! a with
      | Some d => (Ret tt, set_heap (<[a := f d]> (heap s)) s)
      | None => (Fault, s)
      end
  end.

(** ** The functions of ata.c *)

Definition nl : string := String (Ascii.ascii_of_nat 10) EmptyString.

Definition ata_has_err (dev : ptr) : M N :=
  d <- load dev ;;
  v <- inb (bus d + ATA_REG_STATUS) ;;
  ret (N.land v ATA_STATUS_ERR).

Definition ata_irq : M unit :=
  dev <- get_devices ;;
  store_wait_irq dev 0.

Fixpoint err_check_loop (fuel : nat) (d : ptr) : M unit :=
  match d with
  | None => ret tt
  | Some _ =>
      match fuel with
      | O => spin
      | S f =>
          dv <- load d ;;
          (if truthy (wait_irq dv) then
             e <- ata_has_err d ;;
             if negb (e =? 0) then store_wait_irq d 0 else ret tt
           else ret tt) ;;;
          dv' <- load d ;;
          err_check_loop f (next dv')
      end
  end.

Definition ata_err_check (fuel : nat) : M unit :=
  d <- get_devices ;;
  err_check_loop fuel d.

Definition ata_wait (port : N) : M unit :=
  inb port ;;; inb port ;;; inb port ;;; inb port ;;; ret tt.

Definition ata_check_floating_bus (bus : N) : M bool :=
  v <- inb (bus + ATA_REG_STATUS) ;;
  ret (v =? 0xff).

Definition ata_is_ready (bus : N) : M N :=
  v <- inb (bus + ATA_REG_STATUS) ;;
  ret (N.land v ATA_STATUS_RDY).

Definition ata_is_busy (bus : N) : M N :=
  v <- inb (bus + ATA_REG_STATUS) ;;
  ret (N.land v ATA_STATUS_BSY).

(** The kernel calls a hook: [ata_irq] on an interrupt, [ata_err_check]
    on a timer tick. *)
Definition run_hook (fuel : nat) (h : hook) : M unit :=
  match h with
  | IrqHook => ata_irq
  | ErrCheckHook => ata_err_check fuel
  end.

Fixpoint run_hooks (fuel : nat) (hs : list hook) : M unit :=
  match hs with
  | [] => ret tt
  | h :: rest => run_hook fuel h ;;; run_hooks fuel rest
  end.

(** Modelled from the spec: [kernel_wait] of kernel.h, the cooperative
    wait, is not among the sources.  The caller sleeps; the hooks the
    kernel dispatched meanwhile run before it resumes. *)
Definition kernel_wait (fuel : nat) : M unit := fun s =>
  let '(hs, h) := plat_wait (hw s) in
  run_hooks fuel hs (log EvYield (set_hw h s)).

Fixpoint wait_ready_loop (fuel : nat) (dev : ptr) : M unit :=
  d <- load dev ;;
  again <- (if truthy (wait_irq d) then
              r <- ata_is_ready (bus d) ;; ret (r =? 0)
            else ret false) ;;
  if again : bool then
    match fuel with
    | O => spin
    | S f => kernel_wait f ;;; wait_ready_loop f dev
    end
  else ret tt.

Definition ata_wait_ready (fuel : nat) (dev : ptr) : M unit :=
  store_wait_irq dev 1 ;;;
  wait_ready_loop fuel dev ;;;
  store_wait_irq dev 0.

Definition ata_command (bus cmd : N) : M unit :=
  outb (bus + ATA_REG_COMMAND) cmd.

Definition ata_select_drive (bus : N) (slave : Z) : M unit :=
  outb (bus + ATA_REG_DRIVE) (if truthy slave then 0xa0 else 0xb0).

Fixpoint identify_busy_loop (fuel : nat) (bus : N) : M unit :=
  b <- ata_is_busy bus ;;
  if negb (b =? 0) then
    match fuel with
    | O => spin
    | S f => identify_busy_loop f bus
    end
  else ret tt.

Fixpoint identify_status_loop (fuel : nat) (bus : N) : M N :=
  status <- inb (bus + ATA_REG_STATUS) ;;
  if (N.land status ATA_STATUS_ERR =? 0) && (N.land status ATA_STATUS_DRQ =? 0)
  then
    match fuel with
    | O => spin
    | S f => identify_status_loop f bus
    end
  else ret status.

Fixpoint identify_words (n : nat) (bus : N) : M (list N) :=
  match n with
  | O => ret []
  | S k =>
      w <- inw (bus + ATA_REG_DATA) ;;
      ws <- identify_words k bus ;;
      ret (w :: ws)
  end.

(** Returns the result and the contents of [init_data] (meaningful on
    success only). *)
Definition ata_identify (fuel : nat) (bus : N) (slave : Z) : M (Z * list N) :=
  ata_select_drive bus slave ;;;
  outb (bus + ATA_REG_SECTOR_COUNT) 0x0 ;;;
  outb (bus + ATA_REG_SECTOR_NUMBER) 0x0 ;;;
  outb (bus + ATA_REG_CYLINDER_LOW) 0x0 ;;;
  outb (bus + ATA_REG_CYLINDER_HIGH) 0x0 ;;;
  ata_command bus ATA_CMD_IDENTIFY ;;;
  status <- inb (bus + ATA_REG_STATUS) ;;
  if status =? 0 then ret (0%Z, [])
  else
    identify_busy_loop fuel bus ;;;
    cl <- inb (bus + ATA_REG_CYLINDER_LOW) ;;
    nonzero <- (if negb (cl =? 0) then ret true
                else ch <- inb (bus + ATA_REG_CYLINDER_HIGH) ;;
                     ret (negb (ch =? 0))) ;;
    if nonzero : bool then ret (0%Z, [])
    else
      status <- identify_status_loop fuel bus ;;
      if negb (N.land status ATA_STATUS_ERR =? 0) then ret (0%Z, [])
      else
        data <- identify_words 256 bus ;;
        ret (1%Z, data).

(** The 32-bit value stored in words 60 and 61 of the identify payload,
    as a little-endian machine reads it. *)
Definition ata_lba28_sectors (data : list N) : N :=
  nth 60 data 0 + 65536 * nth 61 data 0.

Definition ata_supports_lba48 (data : list N) : N :=
  N.land (nth 83 data 0) 0x400.

Definition ata_init_device (fuel : nat) (bus ctrl : N) : M ptr :=
  let bus := u16 bus in
  let ctrl := u16 ctrl in
  dev <- cache_alloc ;;
  match dev with
  | None => ret NULL
  | Some _ =>
      modify dev (set_bus bus) ;;;
      modify dev (set_ctrl ctrl) ;;;
      floating <- ata_check_floating_bus bus ;;
      if floating : bool then
        printf ("ATA floating bus detected" +:+ nl) [] ;;;
        cache_free dev ;;;
        ret NULL
      else
        r <- ata_identify fuel bus 0 ;;
        if (fst r =? 0)%Z then
          printf ("ATA identify failed" +:+ nl) [] ;;;
          cache_free dev ;;;
          ret NULL
        else
          let sectors := ata_lba28_sectors (snd r) in
          (if negb (sectors =? 0)
           then printf ("ATA LBA28 sectors: %u" +:+ nl) [sectors]
           else ret tt) ;;;
          (if negb (ata_supports_lba48 (snd r) =? 0)
           then printf ("ATA LBA48 supported" +:+ nl) []
           else ret tt) ;;;
          printf ("ATA disk size: %u bytes" +:+ nl)
                 [u32 (sectors * ATA_SECTOR_SIZE)] ;;;
          printf ("ATA initialized!" +:+ nl) [] ;;;
          ret dev
  end.

Definition ata_init (fuel : nat) : M unit := fun s =>
  let c := plat_cache_create (hw s) in
  let s1 := set_devices_cache c s in
  match c with
  | None => (Ret tt, s1)
  | Some _ =>
      (dev <- ata_init_device fuel ATA_PRIMARY_BUS ATA_PRIMARY_CTRL ;;
       put_devices dev) s1
  end.

(** [reg] is declared [uint8_t], so the port number loses its high byte. *)
Definition ata_reset (dev : ptr) : M unit :=
  match dev with
  | None => ret tt
  | Some _ =>
      d <- load dev ;;
      let reg := u8 (ctrl d + ATA_CTRL_DEVICE_CONTROL) in
      v <- inb reg ;;
      outb reg (N.lor v 4) ;;;
      v' <- inb reg ;;
      outb reg (N.ldiff v' 4)
  end.

Definition ata_get_type (dev : ptr) (slave : Z) : M Z :=
  match dev with
  | None => ret ATA_TYPE_UNKNOWN
  | Some _ =>
      ata_reset dev ;;;
      d <- load dev ;;
      ata_select_drive (bus d) slave ;;;
      d <- load dev ;;
      ata_wait (ctrl d) ;;;
      d <- load dev ;;
      cl <- inb (bus d + ATA_REG_CYLINDER_LOW) ;;
      d <- load dev ;;
      ch <- inb (bus d + ATA_REG_CYLINDER_HIGH) ;;
      if (cl =? 0) && (ch =? 0) then ret ATA_TYPE_PATA
      else if (cl =? 0x14) && (ch =? 0xeb) then ret ATA_TYPE_PATAPI
      else if (cl =? 0x3c) && (ch =? 0xc3) then ret ATA_TYPE_SATA
      else if (cl =? 0x69) && (ch =? 0x96) then ret ATA_TYPE_SATAPI
      else ret ATA_TYPE_UNKNOWN
  end.

Definition is_null {A} (p : option A) : bool :=
  match p with
  | None => true
  | Some _ => false
  end.

(** [dev->bus] and [dev->ctrl] *)
Definition dev_bus (dev : ptr) : M N := d <- load dev ;; ret (bus d).
Definition dev_ctrl (dev : ptr) : M N := d <- load dev ;; ret (ctrl d).

(** The caller's buffer is an array of 16-bit words; [pos] is how far
    [buff] has been advanced.  Going past the end is undefined. *)
Fixpoint read_words (n : nat) (dev : ptr) (buf : list N) (pos : nat)
  : M (list N * nat) :=
  match n with
  | O => ret (buf, pos)
  | S k =>
      b <- dev_bus dev ;;
      w <- inw (b + ATA_REG_DATA) ;;
      if decide (pos < length buf)%nat
      then read_words k dev (<[pos := w]> buf) (S pos)
      else fault
  end.

(** The sector loop of [ata_read].  [n] bounds the number of iterations;
    the loop test is the source's.  The result is [Some r] when the body
    executed [return r].  [settle] is what the branch under
    [i >= sectors] calls. *)
Fixpoint read_sectors (settle : N -> M unit) (fuel n : nat) (i sectors : N)
    (dev : ptr) (buf : list N) (pos : nat) : M (option Z * list N) :=
  if i <? sectors then
    match n with
    | O => spin
    | S k =>
        ata_wait_ready fuel dev ;;;
        e <- ata_has_err dev ;;
        if negb (e =? 0) then
          spin_unlock dev ;;;
          ret (Some (-1)%Z, buf)
        else
          r <- read_words 256 dev buf pos ;;
          (if sectors <=? i then c <- dev_ctrl dev ;; settle c else ret tt) ;;;
          read_sectors settle fuel k (N.succ i) sectors dev (fst r) (snd r)
    end
  else ret (None, buf).

Definition ata_read_with (settle : N -> M unit) (fuel : nat) (dev : ptr)
    (slave : Z) (lba : N) (buff : option (list N)) (sectors : N)
  : M (Z * option (list N)) :=
  if is_null dev || is_null buff || (0xff <? sectors) then ret ((-1)%Z, buff)
  else
    spin_lock fuel dev ;;;
    b <- dev_bus dev ;;
    outb (b + ATA_REG_DRIVE)
         (N.lor (if truthy slave then 0xe0 else 0xf0)
                (N.land (N.shiftr lba 24) 0xf)) ;;;
    b <- dev_bus dev ;;
    outb (b + ATA_REG_SECTOR_COUNT) (u8 sectors) ;;;
    b <- dev_bus dev ;;
    outb (b + ATA_REG_SECTOR_NUMBER) (u8 lba) ;;;
    b <- dev_bus dev ;;
    outb (b + ATA_REG_CYLINDER_LOW) (u8 (N.shiftr lba 8)) ;;;
    b <- dev_bus dev ;;
    outb (b + ATA_REG_CYLINDER_HIGH) (u8 (N.shiftr lba 16)) ;;;
    b <- dev_bus dev ;;
    ata_command b ATA_CMD_READ_SECTORS ;;;
    r <- read_sectors settle fuel (N.to_nat sectors) 0 sectors dev
                      (default [] buff) 0 ;;
    match fst r with
    | Some v => ret (v, Some (snd r))
    | None =>
        spin_unlock dev ;;;
        ret (0%Z, Some (snd r))
    end.

Definition ata_read := ata_read_with ata_wait.

Fixpoint write_words (n : nat) (dev : ptr) (buf : list N) (pos : nat)
  : M nat :=
  match n with
  | O => ret pos
  | S k =>
      b <- dev_bus dev ;;
      match buf !! pos with
      | Some w =>
          outw (b + ATA_REG_DATA) w ;;;
          write_words k dev buf (S pos)
      | None => fault
      end
  end.

Fixpoint write_sectors (fuel n : nat) (i sectors : N) (dev : ptr)
    (buf : list N) (pos : nat) : M (option Z) :=
  if i <? sectors then
    match n with
    | O => spin
    | S k =>
        ata_wait_ready fuel dev ;;;
        e <- ata_has_err dev ;;
        if negb (e =? 0) then
          spin_unlock dev ;;;
          ret (Some (-1)%Z)
        else
          pos' <- write_words 256 dev buf pos ;;
          write_sectors fuel k (N.succ i) sectors dev buf pos'
    end
  else ret None.

Definition ata_write (fuel : nat) (dev : ptr) (slave : Z) (lba : N)
    (buff : option (list N)) (sectors : N) : M Z :=
  if is_null dev || is_null buff || (0xff <? sectors) then ret (-1)%Z
  else
    spin_lock fuel dev ;;;
    b <- dev_bus dev ;;
    outb (b + ATA_REG_DRIVE)
         (N.lor (if truthy slave then 0xe0 else 0xf0)
                (N.land (N.shiftr lba 24) 0xf)) ;;;
    b <- dev_bus dev ;;
    outb (b + ATA_REG_SECTOR_COUNT) (u8 sectors) ;;;
    b <- dev_bus dev ;;
    outb (b + ATA_REG_SECTOR_NUMBER) (u8 lba) ;;;
    b <- dev_bus dev ;;
    outb (b + ATA_REG_CYLINDER_LOW) (u8 (N.shiftr lba 8)) ;;;
    b <- dev_bus dev ;;
    outb (b + ATA_REG_CYLINDER_HIGH) (u8 (N.shiftr lba 16)) ;;;
    b <- dev_bus dev ;;
    ata_command b ATA_CMD_WRITE_SECTORS ;;;
    r <- write_sectors fuel (N.to_nat sectors) 0 sectors dev
                       (default [] buff) 0 ;;
    match r with
    | Some v => ret v
    | None =>
        b <- dev_bus dev ;;
        ata_command b ATA_CMD_CACHE_FLUSH ;;;
        spin_unlock dev ;;;
        ret 0%Z
    end.

End Driver.

Arguments state HW : clear implicits.
Arguments M HW A : clear implicits.

Notation "x <- m ;; k" := (bind m (fun x => k))
  (at level 62, m at next level, k at level 200, right associativity).
Notation "m ;;; k" := (bind m (fun _ => k))
  (at level 62, k at level 200, right associativity).

(** ** A simulated controller

    One disk controller at the primary port range with a master and a
    slave drive behind it, a scripted scheduler and a scripted allocator.
    It keeps the task-file registers, decodes the four commands the driver
    issues and moves one word per access of the data port.  After a read
    or write command, and again after each sector while more are to come,
    the controller is busy for [sim_latency] ticks: the status register
    shows only the busy bit and the data port is dead.  A tick passes with
    each [kernel_wait]; when the last tick of a busy phase passes the
    controller raises its interrupt, if [sim_irq] is set, and the kernel
    calls [ata_irq].  A sector can be marked bad: while a transfer stands
    at it the status register shows the error bit.  A packet device
    answers the identify command with its signature in the cylinder
    registers instead of data. *)

Inductive sim_mode := SimIdle | SimReading | SimWriting | SimIdentify.

Record sim := mk_sim {
  sim_present : bool;
  sim_drive : N;
  sim_count : N;
  sim_secnum : N;
  sim_cyl_lo : N;
  sim_cyl_hi : N;
  sim_op : sim_mode;
  sim_addr : N;
  sim_left : N;
  sim_disk : gmap (bool * N) N;
  sim_busy : N;
  sim_bad : option N;
  sim_ident : list N;
  sim_sched : list (list hook);
  sim_slots : option (list loc);
  sim_packet : bool;
  sim_latency : N;
  sim_irq : bool
}.

Definition sim_lba (s : sim) : N :=
  N.lor (N.shiftl (N.land (sim_drive s) 0xf) 24)
    (N.lor (N.shiftl (sim_cyl_hi s) 16)
       (N.lor (N.shiftl (sim_cyl_lo s) 8) (sim_secnum s))).

Definition sim_unit (s : sim) : bool := N.testbit (sim_drive s) 4.

Definition sim_words (count : N) : N :=
  256 * (if count =? 0 then 256 else count).

Definition sim_in_transfer (s : sim) : bool :=
  match sim_op s with
  | SimReading | SimWriting => true
  | _ => false
  end.

Definition sim_at_bad (s : sim) : bool :=
  match sim_bad s with
  | Some b => sim_in_transfer s && (sim_addr s / 256 =? b)
  | None => false
  end.

Definition sim_status (s : sim) : N :=
  if sim_present s then
    if 0 <? sim_busy s then ATA_STATUS_BSY
    else
      ATA_STATUS_RDY
      + (if 0 <? sim_left s then ATA_STATUS_DRQ else 0)
      + (if sim_at_bad s then ATA_STATUS_ERR else 0)
  else 0xff.

Definition sim_set_regs (drive count secnum lo hi : N) (s : sim) : sim :=
  mk_sim (sim_present s) drive count secnum lo hi (sim_op s) (sim_addr s)
    (sim_left s) (sim_disk s) (sim_busy s) (sim_bad s) (sim_ident s)
    (sim_sched s) (sim_slots s) (sim_packet s) (sim_latency s) (sim_irq s).

Definition sim_set_xfer (op : sim_mode) (addr left : N)
    (disk : gmap (bool * N) N) (busy : N) (s : sim) : sim :=
  mk_sim (sim_present s) (sim_drive s) (sim_count s) (sim_secnum s)
    (sim_cyl_lo s) (sim_cyl_hi s) op addr left disk busy (sim_bad s)
    (sim_ident s) (sim_sched s) (sim_slots s) (sim_packet s) (sim_latency s)
    (sim_irq s).

Definition sim_set_time (busy : N) (sched : list (list hook)) (s : sim)
  : sim :=
  mk_sim (sim_present s) (sim_drive s) (sim_count s) (sim_secnum s)
    (sim_cyl_lo s) (sim_cyl_hi s) (sim_op s) (sim_addr s) (sim_left s)
    (sim_disk s) busy (sim_bad s) (sim_ident s) sched (sim_slots s)
    (sim_packet s) (sim_latency s) (sim_irq s).

Definition sim_command (cmd : N) (s : sim) : sim :=
  if cmd =? ATA_CMD_READ_SECTORS then
    sim_set_xfer SimReading (256 * sim_lba s) (sim_words (sim_count s))
      (sim_disk s) (sim_latency s) s
  else if cmd =? ATA_CMD_WRITE_SECTORS then
    sim_set_xfer SimWriting (256 * sim_lba s) (sim_words (sim_count s))
      (sim_disk s) (sim_latency s) s
  else if cmd =? ATA_CMD_CACHE_FLUSH then
    sim_set_xfer SimIdle (sim_addr s) 0 (sim_disk s) (sim_latency s) s
  else if cmd =? ATA_CMD_IDENTIFY then
    if sim_packet s then
      sim_set_regs (sim_drive s) (sim_count s) (sim_secnum s) 0x14 0xeb s
    else sim_set_xfer SimIdentify 0 256 (sim_disk s) 0 s
  else s.

Definition sim_inb (port : N) (s : sim) : N * sim :=
  if negb (sim_present s) then (0xff, s)
  else if port =? ATA_PRIMARY_BUS + ATA_REG_STATUS then (sim_status s, s)
  else if port =? ATA_PRIMARY_CTRL then (sim_status s, s)
  else if port =? ATA_PRIMARY_BUS + ATA_REG_DRIVE then (sim_drive s, s)
  else if port =? ATA_PRIMARY_BUS + ATA_REG_SECTOR_COUNT then (sim_count s, s)
  else if port =? ATA_PRIMARY_BUS + ATA_REG_SECTOR_NUMBER then (sim_secnum s, s)
  else if port =? ATA_PRIMARY_BUS + ATA_REG_CYLINDER_LOW then (sim_cyl_lo s, s)
  else if port =? ATA_PRIMARY_BUS + ATA_REG_CYLINDER_HIGH then (sim_cyl_hi s, s)
  else (0xff, s).

Definition sim_outb (port v : N) (s : sim) : sim :=
  if negb (sim_present s) then s
  else if port =? ATA_PRIMARY_BUS + ATA_REG_COMMAND then sim_command v s
  else if port =? ATA_PRIMARY_BUS + ATA_REG_DRIVE then
    sim_set_regs v (sim_count s) (sim_secnum s) (sim_cyl_lo s) (sim_cyl_hi s) s
  else if port =? ATA_PRIMARY_BUS + ATA_REG_SECTOR_COUNT then
    sim_set_regs (sim_drive s) v (sim_secnum s) (sim_cyl_lo s) (sim_cyl_hi s) s
  else if port =? ATA_PRIMARY_BUS + ATA_REG_SECTOR_NUMBER then
    sim_set_regs (sim_drive s) (sim_count s) v (sim_cyl_lo s) (sim_cyl_hi s) s
  else if port =? ATA_PRIMARY_BUS + ATA_REG_CYLINDER_LOW then
    sim_set_regs (sim_drive s) (sim_count s) (sim_secnum s) v (sim_cyl_hi s) s
  else if port =? ATA_PRIMARY_BUS + ATA_REG_CYLINDER_HIGH then
    sim_set_regs (sim_drive s) (sim_count s) (sim_secnum s) (sim_cyl_lo s) v s
  else s.

(** The busy time that starts when a word has been moved and [left] words
    remain: one latency at each sector boundary inside a transfer. *)
Definition sim_pause (latency left : N) : N :=
  if (0 <? left) && (left mod 256 =? 0) then latency else 0.

(** The data port answers while a transfer is open and the controller is
    not busy. *)
Definition sim_data_open (port : N) (s : sim) : bool :=
  sim_present s && (port =? ATA_PRIMARY_BUS + ATA_REG_DATA)
  && (0 <? sim_left s) && (sim_busy s =? 0).

Definition sim_inw (port : N) (s : sim) : N * sim :=
  if sim_data_open port s then
    match sim_op s with
    | SimReading =>
        (default 0 (sim_disk s !! (sim_unit s, sim_addr s)),
         sim_set_xfer SimReading (sim_addr s + 1) (sim_left s - 1)
           (sim_disk s) (sim_pause (sim_latency s) (sim_left s - 1)) s)
    | SimIdentify =>
        (nth (N.to_nat (sim_addr s)) (sim_ident s) 0,
         sim_set_xfer SimIdentify (sim_addr s + 1) (sim_left s - 1)
           (sim_disk s) 0 s)
    | _ => (0xffff, s)
    end
  else (0xffff, s).

Definition sim_outw (port v : N) (s : sim) : sim :=
  if sim_data_open port s then
    match sim_op s with
    | SimWriting =>
        sim_set_xfer SimWriting (sim_addr s + 1) (sim_left s - 1)
          (<[(sim_unit s, sim_addr s) := v]> (sim_disk s))
          (sim_pause (sim_latency s) (sim_left s - 1)) s
    | _ => s
    end
  else s.

(** One [kernel_wait]: a tick passes; the hooks to run are the interrupt,
    when this tick ends a busy phase, followed by what the schedule says. *)
Definition sim_wait (s : sim) : list hook * sim :=
  ((if sim_irq s && (sim_busy s =? 1) then [IrqHook] else [])
   ++ hd [] (sim_sched s),
   sim_set_time (N.pred (sim_busy s)) (tl (sim_sched s)) s).

#[export] Instance sim_platform : Platform sim := {
  plat_inb := sim_inb;
  plat_outb := sim_outb;
  plat_inw := sim_inw;
  plat_outw := sim_outw;
  plat_wait := sim_wait;
  plat_cache_create := sim_slots
}.

(** A powered-up controller with empty disks that is never busy. *)
Definition sim_boot : sim :=
  mk_sim true 0 0 0 0 0 SimIdle 0 0 ∅ 0 None (repeat 0 256) []
    (Some [1; 2; 3]%nat) false 0 false.

(** The same controller, busy for three ticks where a disk would be, and
    raising its interrupt. *)
Definition sim_slow : sim :=
  mk_sim true 0 0 0 0 0 SimIdle 0 0 ∅ 0 None (repeat 0 256) []
    (Some [1; 2; 3]%nat) false 3 true.

(** The driver state after a successful [ata_init] on it: one device at
    address 1. *)
Definition primary_device : ata_device :=
  {| next := NULL; bus := ATA_PRIMARY_BUS; ctrl := ATA_PRIMARY_CTRL;
     spinlock := 0%Z; wait_irq := 0%Z |}.

Definition sim_state (h : sim) : state sim :=
  mk_state {[ 1%nat := primary_device ]} (Some 1%nat) (Some [2; 3]%nat) h [].

Definition boot_state (h : sim) : state sim := mk_state ∅ NULL None h [].

(** No controller at the primary port range: every read floats high. *)
Definition sim_absent : sim :=
  mk_sim false 0 0 0 0 0 SimIdle 0 0 ∅ 0 None (repeat 0 256) []
    (Some [1; 2; 3]%nat) false 0 false.

(** A packet device at the primary port range. *)
Definition sim_packet_dev : sim :=
  mk_sim true 0 0 0 0 0 SimIdle 0 0 ∅ 0 None (repeat 0 256) []
    (Some [1; 2; 3]%nat) true 0 false.

(** A disk whose sector 1 is bad. *)
Definition sim_bad_sector : sim :=
  mk_sim true 0 0 0 0 0 SimIdle 0 0 ∅ 0 (Some 1) (repeat 0 256) []
    (Some [1; 2; 3]%nat) false 0 false.

(** A packet device that is busy and stays busy: nothing ends its busy
    phase while the driver polls without sleeping. *)
Definition sim_hung : sim :=
  mk_sim true 0 0 0 0 0 SimIdle 0 0 ∅ 5 None (repeat 0 256) []
    (Some [1; 2; 3]%nat) true 0 false.

(** A disk in the busy phase of a read, on a line where an interrupt of
    some other origin is about to be delivered. *)
Definition sim_spurious : sim :=
  mk_sim true 0 0 0 0 0 SimReading 0 256 ∅ 3 None (repeat 0 256)
    [[IrqHook]] (Some [1; 2; 3]%nat) false 3 false.

(** A disk of [2^23 + 5] sectors with the LBA48 feature bit. *)
Definition sim_large : sim :=
  mk_sim true 0 0 0 0 0 SimIdle 0 0 ∅ 0 None
    (repeat 0 60 ++ [5; 128] ++ repeat 0 21 ++ [1024] ++ repeat 0 172) []
    (Some [1; 2; 3]%nat) false 0 false.

(** A second double: a port range on which every read gives 0, writes
    are lost, no interrupt ever comes and there is no pool. *)
Definition silent_platform : Platform unit := {|
  plat_inb := fun _ h => (0, h);
  plat_outb := fun _ _ h => h;
  plat_inw := fun _ h => (0, h);
  plat_outw := fun _ _ h => h;
  plat_wait := fun h => ([], h);
  plat_cache_create := fun _ => None
|}.

(** A device record on the silent port range. *)
Definition silent_state : @state unit :=
  mk_state {[ 1%nat := primary_device ]} (Some 1%nat) None tt [].

(** The driver state right after [cache_create]: a pool, no device yet. *)
Definition pool_state (h : sim) : state sim :=
  mk_state ∅ NULL (Some [1; 2; 3]%nat) h [].

(** * Vocabulary of the properties *)

Section Vocabulary.

Context {HW : Type} `{Platform HW}.

Local Abbreviation st := (state HW).

Definition emits {A} (P : event -> Prop) (m : M HW A) : Prop :=
  forall (s : st) o s', m s = (o, s') ->
    exists evs, trace s' = trace s ++ evs /\ Forall P evs.

Definition select_byte (slave : Z) (lba : N) : N :=
  N.lor (if truthy slave then 0xe0 else 0xf0) (N.land (N.shiftr lba 24) 0xf).

Definition setup_events (a : loc) (b : N) (slave : Z) (lba sectors cmd : N)
  : list event :=
  [ EvLock a;
    EvOutb (u16 (b + ATA_REG_DRIVE)) (select_byte slave lba);
    EvOutb (u16 (b + ATA_REG_SECTOR_COUNT)) (u8 sectors);
    EvOutb (u16 (b + ATA_REG_SECTOR_NUMBER)) (u8 lba);
    EvOutb (u16 (b + ATA_REG_CYLINDER_LOW)) (u8 (N.shiftr lba 8));
    EvOutb (u16 (b + ATA_REG_CYLINDER_HIGH)) (u8 (N.shiftr lba 16));
    EvOutb (u16 (b + ATA_REG_COMMAND)) (u8 cmd) ].

Definition setup_hw (b : N) (slave : Z) (lba sectors cmd : N) (h : HW) : HW :=
  plat_outb (u16 (b + ATA_REG_COMMAND)) (u8 cmd)
   (plat_outb (u16 (b + ATA_REG_CYLINDER_HIGH)) (u8 (N.shiftr lba 16))
    (plat_outb (u16 (b + ATA_REG_CYLINDER_LOW)) (u8 (N.shiftr lba 8))
     (plat_outb (u16 (b + ATA_REG_SECTOR_NUMBER)) (u8 lba)
      (plat_outb (u16 (b + ATA_REG_SECTOR_COUNT)) (u8 sectors)
       (plat_outb (u16 (b + ATA_REG_DRIVE)) (select_byte slave lba) h))))).

Definition after_setup (a : loc) (d : ata_device) (slave : Z)
    (lba sectors cmd : N) (s : st) : st :=
  mk_state (<[a := set_spinlock 1 d]> (heap s)) (devices s) (devices_cache s)
    (setup_hw (bus d) slave lba sectors cmd (hw s))
    (trace s ++ setup_events a (bus d) slave lba sectors cmd).

Definition any_event (e : event) : Prop := True.

Definition frame (s : st) (h : HW) (evs : list event) : st :=
  mk_state (heap s) (devices s) (devices_cache s) h (trace s ++ evs).

Definition port_only {A} (m : M HW A) : Prop :=
  forall s1 s2 : st, hw s1 = hw s2 ->
    exists o h evs, m s1 = (o, frame s1 h evs) /\ m s2 = (o, frame s2 h evs).

Definition is_data (e : event) : bool :=
  match e with
  | EvInw _ _ | EvOutw _ _ => true
  | _ => false
  end.

(** Number of 16-bit transfers in a log; the data register is the only
    port the driver accesses 16 bits at a time. *)
Fixpoint data_transfers (t : list event) : nat :=
  match t with
  | [] => 0
  | e :: rest => (if is_data e then 1 else 0) + data_transfers rest
  end.

Definition no_data (e : event) : Prop := is_data e = false.

(** Every store to a flag in the event is a store of 0. *)
Definition clears_only (e : event) : Prop :=
  match e with
  | EvFlag _ v => v = 0%Z
  | _ => True
  end.

(** The event is not a store to a flag. *)
Definition no_flag (e : event) : Prop :=
  match e with
  | EvFlag _ _ => False
  | _ => True
  end.

(** What can happen while a call holds the guard of the device at [a]:
    no guard is taken or released, and a store to a flag is a store of 0
    or the store of 1 to the flag of [a]. *)
Definition under_guard (a : loc) (e : event) : Prop :=
  match e with
  | EvFlag a' v => v = 0%Z \/ (v = 1%Z /\ a' = a)
  | EvLock _ | EvUnlock _ => False
  | _ => True
  end.

(** The log of a call working on the device at [a] went from [t] to [t']:
    nothing was added, or the guard of [a] was taken, then only events
    allowed under the guard followed, and the release of the guard, if
    reached, came last. *)
Definition guard_shape (a : loc) (t t' : list event) : Prop :=
  t' = t
  \/ exists quiet,
       Forall (under_guard a) quiet
       /\ (t' = t ++ EvLock a :: quiet
           \/ t' = t ++ EvLock a :: quiet ++ [EvUnlock a]).

Definition guarded_loop {A} (a : loc) (early : A -> bool) (m : M HW A)
  : Prop :=
  forall (s : st) o s', m s = (o, s') ->
    exists quiet,
      Forall (under_guard a) quiet
      /\ trace s' = trace s ++ quiet ++
           match o with
           | Ret x => if early x then [EvUnlock a] else []
           | _ => []
           end.

Definition guarded_call {A} (a : loc) (m : M HW A) : Prop :=
  forall (s : st) o s', m s = (o, s') ->
    exists quiet,
      Forall (under_guard a) quiet
      /\ (trace s' = trace s ++ quiet
          \/ trace s' = trace s ++ quiet ++ [EvUnlock a]).

Definition returned {A} (r : option Z * A) : bool :=
  match fst r with
  | Some _ => true
  | None => false
  end.

Definition returned' (r : option Z) : bool :=
  match r with
  | Some _ => true
  | None => false
  end.

(** The words a log shows coming in from a word port and going out to
    one, in the order of the accesses. *)
Fixpoint words_in (t : list event) : list N :=
  match t with
  | [] => []
  | EvInw _ v :: rest => v :: words_in rest
  | _ :: rest => words_in rest
  end.

Fixpoint words_out (t : list event) : list N :=
  match t with
  | [] => []
  | EvOutw _ v :: rest => v :: words_out rest
  | _ :: rest => words_out rest
  end.

(** The platform after the six register writes that open
    [ata_identify]. *)
Definition setup_identify_hw (b : N) (slave : Z) (h : HW) : HW :=
  plat_outb (u16 (b + ATA_REG_COMMAND)) (u8 ATA_CMD_IDENTIFY)
   (plat_outb (u16 (b + ATA_REG_CYLINDER_HIGH)) (u8 0)
    (plat_outb (u16 (b + ATA_REG_CYLINDER_LOW)) (u8 0)
     (plat_outb (u16 (b + ATA_REG_SECTOR_NUMBER)) (u8 0)
      (plat_outb (u16 (b + ATA_REG_SECTOR_COUNT)) (u8 0)
       (plat_outb (u16 (b + ATA_REG_DRIVE))
          (u8 (if truthy slave then 0xa0 else 0xb0)) h))))).

(** Two records that differ at most in flag and guard. *)
Definition same_wiring (d d' : ata_device) : Prop :=
  next d' = next d /\ bus d' = bus d /\ ctrl d' = ctrl d.

(** From [s] to [s'] the list head and the pool are the same, the same
    records are live, and each record has kept its [next], [bus] and
    [ctrl] and, unless it is the record at [g], its guard: only flags,
    and the guard of [g], may differ. *)
Definition same_records (g : ptr) (s s' : st) : Prop :=
  devices s' = devices s /\ devices_cache s' = devices_cache s
  /\ forall b,
       match heap s !! b, heap s' !! b with
       | Some d, Some d' =>
           same_wiring d d' /\ (g <> Some b -> spinlock d' = spinlock d)
       | None, None => True
       | _, _ => False
       end.

Definition keeps {A} (g : ptr) (m : M HW A) : Prop :=
  forall (s : st) o s', m s = (o, s') -> same_records g s s'.

(** What [ata_init_device] prints after a successful identify. *)
Definition bringup_messages (data : list N) : list event :=
  (if ata_lba28_sectors data =? 0 then []
   else [EvPrintf ("ATA LBA28 sectors: %u" +:+ nl) [ata_lba28_sectors data]])
  ++ (if N.testbit (nth 83 data 0) 10
      then [EvPrintf ("ATA LBA48 supported" +:+ nl) []]
      else [])
  ++ [ EvPrintf ("ATA disk size: %u bytes" +:+ nl)
         [(ata_lba28_sectors data * 512) mod 2 ^ 32];
       EvPrintf ("ATA initialized!" +:+ nl) [] ].

(** [l] lists the addresses of the device list that starts at [p]: live
    records linked through [next], up to the terminating NULL. *)
Fixpoint linked (hp : gmap loc ata_device) (p : ptr) (l : list loc) : Prop :=
  match l with
  | [] => p = NULL
  | a :: rest =>
      p = Some a /\ exists d, hp !! a = Some d /\ linked hp (next d) rest
  end.

End Vocabulary.

(** The device record at [a] is live and sits at the primary port range;
    with a controller that raises interrupts ([irq]) it is also the head
    of the device list, the one record [ata_irq] looks at. *)
Definition attached (irq : bool) (a : loc) (s : state sim) : Prop :=
  (exists d, heap s !! a = Some d /\ bus d = ATA_PRIMARY_BUS)
  /\ (irq = true -> devices s = Some a).

(** The first [upto] words of [buf] are on the disk of drive [u], in
    order, from word address [base] on. *)
Definition stored (u : bool) (base : N) (buf : list N) (upto : nat)
    (disk : gmap (bool * N) N) : Prop :=
  forall j w, (j < upto)%nat -> buf !! j = Some w ->
    disk !! (u, base + N.of_nat j) = Some w.

(** Two buffers agree on their first [upto] words. *)
Definition agree (out buf : list N) (upto : nat) : Prop :=
  forall j, (j < upto)%nat -> out !! j = buf !! j.

(** The task file after the register set-up of a transfer. *)
Definition sim_task_file (slave : Z) (lba n : N) (h : sim) : sim :=
  sim_set_regs (select_byte slave lba) (u8 n) (u8 lba)
    (u8 (N.shiftr lba 8)) (u8 (N.shiftr lba 16)) h.

(** The controller works, no sector is bad, nothing but the controller's
    own interrupt is scheduled; the device record at [a] is attached and
    its guard is free. *)
Definition ready_for_transfer (a : loc) (s : state sim) : Prop :=
  (exists d,
      heap s !! a = Some d /\ bus d = ATA_PRIMARY_BUS /\ spinlock d = 0%Z)
  /\ (sim_irq (hw s) = true -> devices s = Some a)
  /\ sim_present (hw s) = true
  /\ sim_bad (hw s) = None
  /\ sim_sched (hw s) = [].

(** * Properties *)

Section Facts.

Context {HW : Type} `{Platform HW}.

Local Abbreviation st := (state HW).
Local Abbreviation emits := (emits (HW := HW)).
Local Abbreviation port_only := (port_only (HW := HW)).
Local Abbreviation guarded_loop := (guarded_loop (HW := HW)).
Local Abbreviation guarded_call := (guarded_call (HW := HW)).

(** ** Running a sequence *)

Lemma bind_ret_run {A B} (m : M HW A) (f : A -> M HW B) (s s' : st) a :
  m s = (Ret a, s') -> bind m f s = f a s'.
Proof. intros E. unfold bind. rewrite E. reflexivity. Qed.

Lemma bind_fault_run {A B} (m : M HW A) (f : A -> M HW B) (s s' : st) :
  m s = (Fault, s') -> bind m f s = (Fault, s').
Proof. intros E. unfold bind. rewrite E. reflexivity. Qed.

Lemma bind_spin_run {A B} (m : M HW A) (f : A -> M HW B) (s s' : st) :
  m s = (Spin, s') -> bind m f s = (Spin, s').
Proof. intros E. unfold bind. rewrite E. reflexivity. Qed.

Lemma bind_inv {A B} (m : M HW A) (f : A -> M HW B) (s s' : st) o :
  bind m f s = (o, s') ->
  (exists a s1, m s = (Ret a, s1) /\ f a s1 = (o, s'))
  \/ (m s = (Fault, s') /\ o = Fault)
  \/ (m s = (Spin, s') /\ o = Spin).
Proof.
  unfold bind. destruct (m s) as [[a| |] s1]; intros E.
  - left. eauto.
  - right. left. inversion E. auto.
  - right. right. inversion E. auto.
Qed.

Lemma bind_ext {A B} (m : M HW A) (f g : A -> M HW B) (s : st) :
  (forall a s1, f a s1 = g a s1) -> bind m f s = bind m g s.
Proof.
  intros E. unfold bind. destruct (m s) as [[a| |] s1]; auto.
Qed.

Ltac step tac := erewrite bind_ret_run; [|tac].

Lemma load_live (s : st) a d :
  heap s !! a = Some d -> load (Some a) s = (Ret d, s).
Proof. intros E. unfold load. rewrite E. reflexivity. Qed.

Lemma dev_bus_live (s : st) a d :
  heap s !! a = Some d -> dev_bus (Some a) s = (Ret (bus d), s).
Proof.
  intros E. unfold dev_bus, bind. rewrite (load_live _ _ _ E). reflexivity.
Qed.

Lemma dev_ctrl_live (s : st) a d :
  heap s !! a = Some d -> dev_ctrl (Some a) s = (Ret (ctrl d), s).
Proof.
  intros E. unfold dev_ctrl, bind. rewrite (load_live _ _ _ E). reflexivity.
Qed.

Lemma u8_lt x : u8 x < 256.
Proof. unfold u8. apply N.mod_lt. discriminate. Qed.

Lemma u8_small x : x < 256 -> u8 x = x.
Proof. unfold u8. apply N.mod_small. Qed.

Lemma u8_idem x : u8 (u8 x) = u8 x.
Proof. apply u8_small, u8_lt. Qed.

Lemma u16_lt x : u16 x < 65536.
Proof. unfold u16. apply N.mod_lt. discriminate. Qed.

Lemma u16_small x : x < 65536 -> u16 x = x.
Proof. unfold u16. apply N.mod_small. Qed.

Lemma u16_idem x : u16 (u16 x) = u16 x.
Proof. apply u16_small, u16_lt. Qed.

(** ** Unfolding the sector loops *)

Lemma read_sectors_unfold (settle : N -> M HW unit) fuel n i sectors dev buf
    pos :
  read_sectors settle fuel n i sectors dev buf pos
  = if i <? sectors then
      match n with
      | O => spin
      | S k =>
          ata_wait_ready fuel dev ;;;
          e <- ata_has_err dev ;;
          if negb (e =? 0) then
            spin_unlock dev ;;;
            ret (Some (-1)%Z, buf)
          else
            r <- read_words 256 dev buf pos ;;
            (if sectors <=? i then c <- dev_ctrl dev ;; settle c
             else ret tt) ;;;
            read_sectors settle fuel k (N.succ i) sectors dev (fst r) (snd r)
      end
    else ret (None, buf).
Proof. destruct n; reflexivity. Qed.

Lemma write_sectors_unfold fuel n i sectors dev buf pos :
  @write_sectors HW _ fuel n i sectors dev buf pos
  = if i <? sectors then
      match n with
      | O => spin
      | S k =>
          ata_wait_ready fuel dev ;;;
          e <- ata_has_err dev ;;
          if negb (e =? 0) then
            spin_unlock dev ;;;
            ret (Some (-1)%Z)
          else
            pos' <- write_words 256 dev buf pos ;;
            write_sectors fuel k (N.succ i) sectors dev buf pos'
      end
    else ret None.
Proof. destruct n; reflexivity. Qed.

(** ** What a call adds to the log

    [emits P m]: whatever [m] does, the log only grows, and every event it
    adds satisfies [P]. *)

Section Emits.

Variable P : event -> Prop.
Variable waiter : ptr.
Hypothesis P_inb : forall p v, P (EvInb p v).
Hypothesis P_outb : forall p v, P (EvOutb p v).
Hypothesis P_inw : forall p v, P (EvInw p v).
Hypothesis P_outw : forall p v, P (EvOutw p v).
Hypothesis P_lock : forall a, P (EvLock a).
Hypothesis P_unlock : forall a, P (EvUnlock a).
Hypothesis P_clear : forall a, P (EvFlag a 0).
Hypothesis P_arm : forall a, waiter = Some a -> P (EvFlag a 1).
Hypothesis P_yield : P EvYield.
Hypothesis P_alloc : forall a, P (EvAlloc a).
Hypothesis P_free : forall a, P (EvFree a).
Hypothesis P_printf : forall f args, P (EvPrintf f args).

Lemma emits_ret {A} (a : A) : emits P (@ret HW A a).
Proof.
  intros s o s' E. inversion E; subst. exists []. rewrite app_nil_r. auto.
Qed.

Lemma emits_fault {A} : emits P (@fault HW A).
Proof.
  intros s o s' E. inversion E; subst. exists []. rewrite app_nil_r. auto.
Qed.

Lemma emits_spin {A} : emits P (@spin HW A).
Proof.
  intros s o s' E. inversion E; subst. exists []. rewrite app_nil_r. auto.
Qed.

Lemma emits_bind {A B} (m : M HW A) (f : A -> M HW B) :
  emits P m -> (forall a, emits P (f a)) -> emits P (bind m f).
Proof.
  intros Hm Hf s o s' E.
  destruct (bind_inv _ _ _ _ _ E) as [(a & s1 & E1 & E2) | [[E1 _] | [E1 _]]].
  - destruct (Hm _ _ _ E1) as (e1 & T1 & F1).
    destruct (Hf a _ _ _ E2) as (e2 & T2 & F2).
    exists (e1 ++ e2). rewrite T2, T1, app_assoc. split; [reflexivity|].
    apply Forall_app; auto.
  - apply (Hm _ _ _ E1).
  - apply (Hm _ _ _ E1).
Qed.

Lemma emits_one {A} (m : M HW A) :
  (forall s : st, exists a s1 e,
      m s = (Ret a, s1) /\ trace s1 = trace s ++ [e] /\ P e) ->
  emits P m.
Proof.
  intros Hm s o s' E. destruct (Hm s) as (a & s1 & e & E1 & T & Pe).
  rewrite E1 in E. inversion E; subst. exists [e]. auto.
Qed.

Lemma emits_inb port : emits P (inb port).
Proof.
  apply emits_one. intros s. unfold inb.
  destruct (plat_inb (u16 port) (hw s)) as [v h]. eauto 8.
Qed.

Lemma emits_outb port v : emits P (outb port v).
Proof. apply emits_one. intros s. unfold outb. eauto 8. Qed.

Lemma emits_inw port : emits P (inw port).
Proof.
  apply emits_one. intros s. unfold inw.
  destruct (plat_inw (u16 port) (hw s)) as [v h]. eauto 8.
Qed.

Lemma emits_outw port v : emits P (outw port v).
Proof. apply emits_one. intros s. unfold outw. eauto 8. Qed.

Lemma emits_printf f args : emits P (printf f args).
Proof. apply emits_one. intros s. unfold printf, emit. eauto 8. Qed.

Lemma emits_silent {A} (m : M HW A) :
  (forall (s : st) o s', m s = (o, s') -> trace s' = trace s) -> emits P m.
Proof.
  intros Hm s o s' E. exists []. rewrite app_nil_r. split; [eauto|auto].
Qed.

Lemma emits_load dev : emits P (load dev).
Proof.
  apply emits_silent. intros s o s' E. unfold load in E.
  destruct dev as [a|]; [destruct (heap s !! a)|]; inversion E; reflexivity.
Qed.

Lemma emits_modify dev f : emits P (modify dev f).
Proof.
  apply emits_silent. intros s o s' E. unfold modify in E.
  destruct dev as [a|]; [destruct (heap s !! a)|]; inversion E; reflexivity.
Qed.

Lemma emits_get_devices : emits P get_devices.
Proof. apply emits_silent. intros s o s' E. inversion E; reflexivity. Qed.

Lemma emits_put_devices p : emits P (put_devices p).
Proof. apply emits_silent. intros s o s' E. inversion E; reflexivity. Qed.

Lemma emits_partial {A} (m : M HW A) (e : event) :
  P e ->
  (forall (s : st) o s', m s = (o, s') ->
     trace s' = trace s \/ trace s' = trace s ++ [e]) ->
  emits P m.
Proof.
  intros Pe Hm s o s' E. destruct (Hm _ _ _ E) as [T | T].
  - exists []. rewrite app_nil_r. auto.
  - exists [e]. auto.
Qed.

Lemma emits_clear dev : emits P (store_wait_irq dev 0).
Proof.
  destruct dev as [a|]; [|apply emits_fault].
  apply (emits_partial _ (EvFlag a 0)); [apply P_clear|].
  intros s o s' E. unfold store_wait_irq in E.
  destruct (heap s !! a); inversion E; auto.
Qed.

Lemma emits_arm : emits P (store_wait_irq waiter 1).
Proof.
  destruct waiter as [a|] eqn:Hw; [|apply emits_fault].
  apply (emits_partial _ (EvFlag a 1)); [apply P_arm; reflexivity|].
  intros s o s' E. unfold store_wait_irq in E.
  destruct (heap s !! a); inversion E; auto.
Qed.

Lemma emits_spin_unlock dev : emits P (spin_unlock dev).
Proof.
  destruct dev as [a|]; [|apply emits_fault].
  apply (emits_partial _ (EvUnlock a)); [apply P_unlock|].
  intros s o s' E. unfold spin_unlock in E.
  destruct (heap s !! a); inversion E; auto.
Qed.

Lemma emits_spin_lock fuel dev : emits P (spin_lock fuel dev).
Proof.
  destruct dev as [a|]; [|destruct fuel; apply emits_fault].
  apply (emits_partial _ (EvLock a)); [apply P_lock|].
  induction fuel as [|f IH]; intros s o s' E; simpl in E;
    destruct (heap s !! a) as [d|]; try (inversion E; auto; fail);
    destruct (truthy (spinlock d)); try (inversion E; auto; fail).
  eapply IH; eauto.
Qed.

Lemma emits_cache_alloc : emits P cache_alloc.
Proof.
  intros s o s' E. unfold cache_alloc in E.
  destruct (devices_cache s) as [[|a rest]|]; inversion E; subst.
  - exists []. rewrite app_nil_r. auto.
  - exists [EvAlloc a]. auto.
  - exists []. rewrite app_nil_r. auto.
Qed.

Lemma emits_cache_free dev : emits P (cache_free dev).
Proof.
  intros s o s' E. unfold cache_free in E.
  destruct (devices_cache s) as [slots|], dev as [a|]; inversion E; subst;
    try (exists []; rewrite app_nil_r; auto; fail).
  exists [EvFree a]. auto.
Qed.

Ltac emits_tac :=
  repeat first
    [ apply emits_ret | apply emits_fault | apply emits_spin
    | apply emits_inb | apply emits_outb | apply emits_inw | apply emits_outw
    | apply emits_load | apply emits_modify | apply emits_printf
    | apply emits_get_devices | apply emits_put_devices
    | apply emits_clear | apply emits_arm
    | apply emits_spin_lock | apply emits_spin_unlock
    | apply emits_cache_alloc | apply emits_cache_free
    | assumption
    | apply emits_bind; [|intros ?]
    | match goal with
      | |- emits _ (if ?c then _ else _) => destruct c
      | |- emits _ (match ?x with _ => _ end) => destruct x
      end ].

Lemma emits_dev_bus dev : emits P (dev_bus dev).
Proof. unfold dev_bus. emits_tac. Qed.

Lemma emits_dev_ctrl dev : emits P (dev_ctrl dev).
Proof. unfold dev_ctrl. emits_tac. Qed.

Lemma emits_has_err dev : emits P (ata_has_err dev).
Proof. unfold ata_has_err. emits_tac. Qed.

Lemma emits_irq : emits P ata_irq.
Proof. unfold ata_irq. emits_tac. Qed.

Lemma emits_err_check_loop fuel d : emits P (err_check_loop fuel d).
Proof.
  revert d. induction fuel as [|f IH]; intros d; simpl.
  - destruct d; emits_tac.
  - destruct d; [|emits_tac].
    apply emits_bind; [emits_tac|intros dv].
    apply emits_bind; [|intros _].
    + destruct (truthy (wait_irq dv)); [|emits_tac].
      apply emits_bind; [apply emits_has_err|intros e]. emits_tac.
    + apply emits_bind; [emits_tac|intros dv']. apply IH.
Qed.

Lemma emits_err_check fuel : emits P (ata_err_check fuel).
Proof.
  unfold ata_err_check. apply emits_bind; [emits_tac|intros d].
  apply emits_err_check_loop.
Qed.

Lemma emits_run_hooks fuel hs : emits P (run_hooks fuel hs).
Proof.
  induction hs as [|h rest IH]; simpl; [emits_tac|].
  apply emits_bind; [|intros _; exact IH].
  destruct h; [apply emits_irq|apply emits_err_check].
Qed.

Lemma emits_kernel_wait fuel : emits P (kernel_wait fuel).
Proof.
  intros s o s' E. unfold kernel_wait in E.
  destruct (plat_wait (hw s)) as [hs h].
  destruct (emits_run_hooks _ _ _ _ _ E) as (evs & T & F).
  exists (EvYield :: evs). split.
  - rewrite T. cbn [trace log set_hw]. rewrite <- app_assoc. reflexivity.
  - constructor; auto.
Qed.

Lemma emits_is_ready b : emits P (ata_is_ready b).
Proof. unfold ata_is_ready. emits_tac. Qed.

Lemma emits_is_busy b : emits P (ata_is_busy b).
Proof. unfold ata_is_busy. emits_tac. Qed.

Lemma emits_wait_ready_loop fuel dev : emits P (wait_ready_loop fuel dev).
Proof.
  induction fuel as [|f IH]; simpl.
  - apply emits_bind; [emits_tac|intros d].
    apply emits_bind; [|intros again; destruct again; emits_tac].
    destruct (truthy (wait_irq d)); [|emits_tac].
    apply emits_bind; [apply emits_is_ready|intros r; emits_tac].
  - apply emits_bind; [emits_tac|intros d].
    apply emits_bind.
    + destruct (truthy (wait_irq d)); [|emits_tac].
      apply emits_bind; [apply emits_is_ready|intros r; emits_tac].
    + intros again. destruct again; [|emits_tac].
      apply emits_bind; [apply emits_kernel_wait|intros _; exact IH].
Qed.

Lemma emits_wait_ready fuel : emits P (ata_wait_ready fuel waiter).
Proof.
  unfold ata_wait_ready.
  apply emits_bind; [apply emits_arm|intros _].
  apply emits_bind; [apply emits_wait_ready_loop|intros _].
  apply emits_clear.
Qed.

Lemma emits_wait port : emits P (ata_wait port).
Proof. unfold ata_wait. emits_tac. Qed.

Lemma emits_command b c : emits P (ata_command b c).
Proof. unfold ata_command. emits_tac. Qed.

Lemma emits_select_drive b sl : emits P (ata_select_drive b sl).
Proof. unfold ata_select_drive. emits_tac. Qed.

Lemma emits_read_words n dev buf pos : emits P (read_words n dev buf pos).
Proof.
  revert buf pos. induction n as [|k IH]; intros buf pos; simpl; [emits_tac|].
  apply emits_bind; [apply emits_dev_bus|intros b].
  apply emits_bind; [emits_tac|intros w].
  destruct (decide (pos < length buf)%nat); [apply IH|emits_tac].
Qed.

Lemma emits_write_words n dev buf pos : emits P (write_words n dev buf pos).
Proof.
  revert pos. induction n as [|k IH]; intros pos; simpl; [emits_tac|].
  apply emits_bind; [apply emits_dev_bus|intros b].
  destruct (buf !! pos); [|emits_tac].
  apply emits_bind; [emits_tac|intros _; apply IH].
Qed.

Lemma emits_read_sectors settle fuel n i sectors buf pos :
  (forall c, emits P (settle c)) ->
  emits P (read_sectors settle fuel n i sectors waiter buf pos).
Proof.
  intros Hsettle. revert i buf pos.
  induction n as [|k IH]; intros i buf pos; rewrite read_sectors_unfold;
    (destruct (i <? sectors); [|emits_tac]); [emits_tac|].
  apply emits_bind; [apply emits_wait_ready|intros _].
  apply emits_bind; [apply emits_has_err|intros e].
  destruct (negb (e =? 0)); [emits_tac|].
  apply emits_bind; [apply emits_read_words|intros r].
  apply emits_bind; [|intros _; apply IH].
  destruct (sectors <=? i); [|emits_tac].
  apply emits_bind; [apply emits_dev_ctrl|intros c; apply Hsettle].
Qed.

Lemma emits_write_sectors fuel n i sectors buf pos :
  emits P (write_sectors fuel n i sectors waiter buf pos).
Proof.
  revert i pos.
  induction n as [|k IH]; intros i pos; rewrite write_sectors_unfold;
    (destruct (i <? sectors); [|emits_tac]); [emits_tac|].
  apply emits_bind; [apply emits_wait_ready|intros _].
  apply emits_bind; [apply emits_has_err|intros e].
  destruct (negb (e =? 0)); [emits_tac|].
  apply emits_bind; [apply emits_write_words|intros r; apply IH].
Qed.

Lemma emits_identify_busy_loop fuel b : emits P (identify_busy_loop fuel b).
Proof.
  induction fuel as [|f IH]; simpl;
    (apply emits_bind; [apply emits_is_busy|intros v]); emits_tac.
Qed.

Lemma emits_identify_status_loop fuel b :
  emits P (identify_status_loop fuel b).
Proof. induction fuel as [|f IH]; simpl; emits_tac. Qed.

Lemma emits_identify_words n b : emits P (identify_words n b).
Proof. induction n as [|k IH]; simpl; emits_tac. Qed.

Lemma emits_identify fuel b slave : emits P (ata_identify fuel b slave).
Proof.
  unfold ata_identify.
  apply emits_bind; [apply emits_select_drive|intros _].
  do 4 (apply emits_bind; [apply emits_outb|intros _]).
  apply emits_bind; [apply emits_command|intros _].
  apply emits_bind; [apply emits_inb|intros status].
  destruct (status =? 0); [apply emits_ret|].
  apply emits_bind; [apply emits_identify_busy_loop|intros _].
  apply emits_bind; [apply emits_inb|intros cl].
  apply emits_bind; [emits_tac|intros nz].
  destruct nz; [apply emits_ret|].
  apply emits_bind; [apply emits_identify_status_loop|intros st1].
  destruct (negb _); [apply emits_ret|].
  apply emits_bind; [apply emits_identify_words|intros data].
  apply emits_ret.
Qed.

Lemma emits_init_device fuel b c : emits P (ata_init_device fuel b c).
Proof.
  unfold ata_init_device. cbv zeta.
  apply emits_bind; [apply emits_cache_alloc|intros dev].
  destruct dev as [a|]; [|apply emits_ret].
  do 2 (apply emits_bind; [apply emits_modify|intros _]).
  apply emits_bind; [unfold ata_check_floating_bus; emits_tac|intros fl].
  destruct fl; [emits_tac|].
  apply emits_bind; [apply emits_identify|intros r].
  destruct (fst r =? 0)%Z; emits_tac.
Qed.

Lemma emits_init fuel : emits P (ata_init fuel).
Proof.
  intros s o s' E. unfold ata_init in E.
  destruct (plat_cache_create (hw s)) as [c|].
  - assert (G : emits P (dev <- ata_init_device fuel ATA_PRIMARY_BUS
                                  ATA_PRIMARY_CTRL ;; put_devices dev)).
    { apply emits_bind; [apply emits_init_device|intros dev].
      apply emits_put_devices. }
    apply G in E. exact E.
  - inversion E; subst. exists []. cbn. rewrite app_nil_r. auto.
Qed.

Lemma emits_reset dev : emits P (ata_reset dev).
Proof. unfold ata_reset. emits_tac. Qed.

Lemma emits_get_type dev slave : emits P (ata_get_type dev slave).
Proof.
  unfold ata_get_type. destruct dev as [a|]; [|apply emits_ret].
  apply emits_bind; [apply emits_reset|intros _].
  apply emits_bind; [apply emits_load|intros d].
  apply emits_bind; [apply emits_select_drive|intros _].
  apply emits_bind; [apply emits_load|intros d1].
  apply emits_bind; [apply emits_wait|intros _].
  emits_tac.
Qed.

End Emits.


(** ** The register set-up common to [ata_read] and [ata_write] *)

Lemma testbit_255_high i : 8 <= i -> N.testbit 255 i = false.
Proof. intros Hi. apply (N.ones_spec_high 8). exact Hi. Qed.

Lemma select_byte_u8 slave lba :
  u8 (select_byte slave lba) = select_byte slave lba.
Proof.
  unfold u8, select_byte. change 256 with (2 ^ 8).
  apply N.bits_inj. intros i.
  destruct (N.lt_ge_cases i 8) as [Hi | Hi].
  - rewrite N.mod_pow2_bits_low by exact Hi. reflexivity.
  - rewrite N.mod_pow2_bits_high by exact Hi.
    rewrite N.lor_spec, N.land_spec.
    assert (H15 : N.testbit 15 i = false).
    { apply (N.ones_spec_high 4). lia. }
    rewrite H15, andb_false_r, orb_false_r.
    destruct (truthy slave); symmetry; apply N.bits_above_log2;
      (eapply N.lt_le_trans; [|exact Hi]); reflexivity.
Qed.

Lemma spin_lock_free fuel (s : st) a d :
  heap s !! a = Some d -> truthy (spinlock d) = false ->
  spin_lock fuel (Some a) s
  = (Ret tt, log (EvLock a)
               (set_heap (<[a := set_spinlock 1 d]> (heap s)) s)).
Proof. intros Hd Hf. destruct fuel; simpl; rewrite Hd, Hf; reflexivity. Qed.

Lemma dev_bus_bind {B} (f : N -> M HW B) (s : st) a d :
  heap s !! a = Some d -> (b <- dev_bus (Some a) ;; f b) s = f (bus d) s.
Proof. intros Hd. apply bind_ret_run. apply dev_bus_live. exact Hd. Qed.

Lemma outb_bind {B} (k : M HW B) (s : st) port v :
  (outb port v ;;; k) s
  = k (log (EvOutb (u16 port) (u8 v))
         (set_hw (plat_outb (u16 port) (u8 v) (hw s)) s)).
Proof. reflexivity. Qed.

Ltac state_proj :=
  cbv [log set_heap set_hw set_devices set_devices_cache
       heap devices devices_cache hw trace];
  repeat match goal with
  | x : state _ |- _ =>
      progress (fold (heap x); fold (devices x); fold (devices_cache x);
                fold (hw x); fold (trace x))
  end.

Lemma setup_run {B} fuel a d slave lba sectors cmd (k : M HW B) (s : st) :
  heap s !! a = Some d -> truthy (spinlock d) = false ->
  (spin_lock fuel (Some a) ;;;
   b <- dev_bus (Some a) ;;
   outb (b + ATA_REG_DRIVE)
        (N.lor (if truthy slave then 0xe0 else 0xf0)
               (N.land (N.shiftr lba 24) 0xf)) ;;;
   b <- dev_bus (Some a) ;;
   outb (b + ATA_REG_SECTOR_COUNT) (u8 sectors) ;;;
   b <- dev_bus (Some a) ;;
   outb (b + ATA_REG_SECTOR_NUMBER) (u8 lba) ;;;
   b <- dev_bus (Some a) ;;
   outb (b + ATA_REG_CYLINDER_LOW) (u8 (N.shiftr lba 8)) ;;;
   b <- dev_bus (Some a) ;;
   outb (b + ATA_REG_CYLINDER_HIGH) (u8 (N.shiftr lba 16)) ;;;
   b <- dev_bus (Some a) ;;
   ata_command b cmd ;;;
   k) s
  = k (after_setup a d slave lba sectors cmd s).
Proof.
  intros Hd Hf.
  rewrite (bind_ret_run _ _ _ _ _ (spin_lock_free fuel s a d Hd Hf)).
  unfold ata_command.
  repeat (rewrite (dev_bus_bind _ _ a (set_spinlock 1 d))
            by (state_proj; apply lookup_insert_eq);
          rewrite outb_bind).
  f_equal. unfold after_setup, setup_hw, setup_events. state_proj.
  fold (select_byte slave lba).
  rewrite !u8_idem, select_byte_u8.
  cbn [bus set_spinlock]. rewrite <- !app_assoc. reflexivity.
Qed.

Lemma valid_args (a : loc) (buf : list N) sectors :
  sectors <= 255 ->
  is_null (Some a) || is_null (Some buf) || (255 <? sectors) = false.
Proof. intros Hs. cbn [is_null orb]. apply N.ltb_ge. exact Hs. Qed.

Lemma unlock_run (s : st) a d :
  heap s !! a = Some d ->
  spin_unlock (Some a) s
  = (Ret tt, log (EvUnlock a)
               (set_heap (<[a := set_spinlock 0 d]> (heap s)) s)).
Proof. intros E. unfold spin_unlock. rewrite E. reflexivity. Qed.

Lemma relock_heap (hp : gmap loc ata_device) a d :
  hp !! a = Some d -> spinlock d = 0%Z ->
  <[a := set_spinlock 0 (set_spinlock 1 d)]> (<[a := set_spinlock 1 d]> hp)
  = hp.
Proof.
  intros Hd Hl. rewrite insert_insert_eq.
  replace (set_spinlock 0 (set_spinlock 1 d)) with d
    by (destruct d; cbn in *; subst; reflexivity).
  apply insert_id. exact Hd.
Qed.

Lemma free_lock d : spinlock d = 0%Z -> truthy (spinlock d) = false.
Proof. intros ->. reflexivity. Qed.

(** C10: with a live device, a free guard, a non-null buffer and
    [sectors = 0], [ata_read] and [ata_write] return 0.  Both take the
    guard, write the six set-up registers with a sector-count byte of 0
    and release the guard; the log shows no access of the data register
    and the buffer comes back as it was.  [ata_write] issues the
    cache-flush command before it releases the guard. *)
Theorem ata_read_write_zero_sectors fuel a d slave lba buf (s : st) :
  heap s !! a = Some d -> spinlock d = 0%Z ->
  (exists s',
      ata_read fuel (Some a) slave lba (Some buf) 0 s
      = (Ret (0%Z, Some buf), s')
      /\ heap s' = heap s
      /\ trace s' = trace s ++
           [ EvLock a;
             EvOutb (u16 (bus d + ATA_REG_DRIVE))
               (N.lor (if truthy slave then 0xe0 else 0xf0)
                      (N.land (N.shiftr lba 24) 0xf));
             EvOutb (u16 (bus d + ATA_REG_SECTOR_COUNT)) 0;
             EvOutb (u16 (bus d + ATA_REG_SECTOR_NUMBER)) (u8 lba);
             EvOutb (u16 (bus d + ATA_REG_CYLINDER_LOW)) (u8 (N.shiftr lba 8));
             EvOutb (u16 (bus d + ATA_REG_CYLINDER_HIGH))
               (u8 (N.shiftr lba 16));
             EvOutb (u16 (bus d + ATA_REG_COMMAND)) ATA_CMD_READ_SECTORS;
             EvUnlock a ])
  /\ (exists s',
      ata_write fuel (Some a) slave lba (Some buf) 0 s = (Ret 0%Z, s')
      /\ heap s' = heap s
      /\ trace s' = trace s ++
           [ EvLock a;
             EvOutb (u16 (bus d + ATA_REG_DRIVE))
               (N.lor (if truthy slave then 0xe0 else 0xf0)
                      (N.land (N.shiftr lba 24) 0xf));
             EvOutb (u16 (bus d + ATA_REG_SECTOR_COUNT)) 0;
             EvOutb (u16 (bus d + ATA_REG_SECTOR_NUMBER)) (u8 lba);
             EvOutb (u16 (bus d + ATA_REG_CYLINDER_LOW)) (u8 (N.shiftr lba 8));
             EvOutb (u16 (bus d + ATA_REG_CYLINDER_HIGH))
               (u8 (N.shiftr lba 16));
             EvOutb (u16 (bus d + ATA_REG_COMMAND)) ATA_CMD_WRITE_SECTORS;
             EvOutb (u16 (bus d + ATA_REG_COMMAND)) ATA_CMD_CACHE_FLUSH;
             EvUnlock a ]).
Proof.
  intros Hd Hl. pose proof (free_lock d Hl) as Hf. split.
  - unfold ata_read, ata_read_with.
    rewrite valid_args by discriminate.
    rewrite (setup_run fuel a d) by assumption.
    rewrite read_sectors_unfold. change (0 <? 0) with false.
    step ltac:(reflexivity). cbn [fst snd default].
    step ltac:(apply (unlock_run _ a (set_spinlock 1 d));
               apply lookup_insert_eq).
    eexists. split; [reflexivity|]. unfold after_setup. state_proj.
    rewrite (relock_heap _ _ _ Hd Hl).
    split; [reflexivity|]. rewrite <- app_assoc. reflexivity.
  - unfold ata_write.
    rewrite valid_args by discriminate.
    rewrite (setup_run fuel a d) by assumption.
    rewrite write_sectors_unfold. change (0 <? 0) with false.
    step ltac:(reflexivity). cbv beta iota.
    rewrite (dev_bus_bind _ _ a (set_spinlock 1 d))
      by apply lookup_insert_eq.
    unfold ata_command. rewrite outb_bind.
    step ltac:(apply (unlock_run _ a (set_spinlock 1 d));
               apply lookup_insert_eq).
    eexists. split; [reflexivity|]. unfold after_setup. state_proj.
    rewrite (relock_heap _ _ _ Hd Hl).
    split; [reflexivity|]. rewrite <- !app_assoc. reflexivity.
Qed.

(** ** Order of the register set-up *)

Lemma grows_read_sectors settle fuel n i sectors dev buf pos :
  (forall c, emits any_event (settle c)) ->
  emits any_event (read_sectors settle fuel n i sectors dev buf pos).
Proof. intros Hs. apply emits_read_sectors; unfold any_event; auto. Qed.

Lemma grows_write_sectors fuel n i sectors dev buf pos :
  emits any_event (write_sectors fuel n i sectors dev buf pos).
Proof. apply emits_write_sectors; unfold any_event; auto. Qed.

Lemma grows_wait port : emits any_event (ata_wait port).
Proof. apply emits_wait; unfold any_event; auto. Qed.

(** C5: in every call of [ata_read] and [ata_write] that passes the
    argument check on a live device with a free guard, whatever the
    outcome, the log continues with the guard being taken and then exactly
    six byte writes in this order: drive-select register with the select
    pattern or'd with bits 24-27 of [lba], sector count with the low byte
    of [sectors], sector number with bits 0-7 of [lba], cylinder-low with
    bits 8-15, cylinder-high with bits 16-23, and the command register
    with 0x20 (read) or 0x30 (write).  All data-register accesses of the
    call are in the part of the log that follows. *)
Theorem ata_setup_sequence_order fuel a d slave lba buf sectors (s : st) :
  heap s !! a = Some d -> spinlock d = 0%Z -> sectors <= 255 ->
  (forall o s',
      ata_read fuel (Some a) slave lba (Some buf) sectors s = (o, s') ->
      exists rest,
        trace s' = trace s ++
          [ EvLock a;
            EvOutb (u16 (bus d + ATA_REG_DRIVE))
              (N.lor (if truthy slave then 0xe0 else 0xf0)
                     (N.land (N.shiftr lba 24) 0xf));
            EvOutb (u16 (bus d + ATA_REG_SECTOR_COUNT)) (sectors mod 256);
            EvOutb (u16 (bus d + ATA_REG_SECTOR_NUMBER)) (lba mod 256);
            EvOutb (u16 (bus d + ATA_REG_CYLINDER_LOW))
              (N.shiftr lba 8 mod 256);
            EvOutb (u16 (bus d + ATA_REG_CYLINDER_HIGH))
              (N.shiftr lba 16 mod 256);
            EvOutb (u16 (bus d + ATA_REG_COMMAND)) 0x20 ] ++ rest)
  /\ (forall o s',
      ata_write fuel (Some a) slave lba (Some buf) sectors s = (o, s') ->
      exists rest,
        trace s' = trace s ++
          [ EvLock a;
            EvOutb (u16 (bus d + ATA_REG_DRIVE))
              (N.lor (if truthy slave then 0xe0 else 0xf0)
                     (N.land (N.shiftr lba 24) 0xf));
            EvOutb (u16 (bus d + ATA_REG_SECTOR_COUNT)) (sectors mod 256);
            EvOutb (u16 (bus d + ATA_REG_SECTOR_NUMBER)) (lba mod 256);
            EvOutb (u16 (bus d + ATA_REG_CYLINDER_LOW))
              (N.shiftr lba 8 mod 256);
            EvOutb (u16 (bus d + ATA_REG_CYLINDER_HIGH))
              (N.shiftr lba 16 mod 256);
            EvOutb (u16 (bus d + ATA_REG_COMMAND)) 0x30 ] ++ rest).
Proof.
  intros Hd Hl Hs. pose proof (free_lock d Hl) as Hf. split; intros o s' E.
  - unfold ata_read, ata_read_with in E.
    rewrite valid_args in E by assumption.
    rewrite (setup_run fuel a d) in E by assumption.
    assert (G : emits any_event
                  (r <- read_sectors ata_wait fuel (N.to_nat sectors) 0
                          sectors (Some a) (default [] (Some buf)) 0 ;;
                   match fst r with
                   | Some v => ret (v, Some (snd r))
                   | None => spin_unlock (Some a) ;;; ret (0%Z, Some (snd r))
                   end)).
    { apply emits_bind; [apply grows_read_sectors, grows_wait|intros r].
      destruct (fst r); [apply emits_ret|].
      apply emits_bind; [|intros _; apply emits_ret].
      apply emits_spin_unlock. unfold any_event. auto. }
    destruct (G _ _ _ E) as (rest & T & _). exists rest.
    rewrite T. cbn [trace after_setup]. rewrite <- app_assoc. reflexivity.
  - unfold ata_write in E.
    rewrite valid_args in E by assumption.
    rewrite (setup_run fuel a d) in E by assumption.
    assert (G : emits any_event
                  (r <- write_sectors fuel (N.to_nat sectors) 0 sectors
                          (Some a) (default [] (Some buf)) 0 ;;
                   match r with
                   | Some v => ret v
                   | None =>
                       b <- dev_bus (Some a) ;;
                       ata_command b ATA_CMD_CACHE_FLUSH ;;;
                       spin_unlock (Some a) ;;;
                       ret 0%Z
                   end)).
    { apply emits_bind; [apply grows_write_sectors|intros r].
      destruct r; [apply emits_ret|].
      apply emits_bind; [apply emits_dev_bus|intros b].
      apply emits_bind; [apply emits_command; unfold any_event; auto|].
      intros _. apply emits_bind; [|intros _; apply emits_ret].
      apply emits_spin_unlock. unfold any_event. auto. }
    destruct (G _ _ _ E) as (rest & T & _). exists rest.
    rewrite T. cbn [trace after_setup]. rewrite <- app_assoc. reflexivity.
Qed.

(** ** Device-type probe *)

Ltac signature_facts :=
  repeat match goal with
  | H : (_ && _) = true |- _ => apply andb_true_iff in H; destruct H
  | H : (_ =? _) = true |- _ => apply N.eqb_eq in H
  end; subst.

(** C2: [ata_get_type] of a null device returns Unknown and touches
    nothing.  Of a live device it resets, selects the drive, reads the
    control port four times and then reads cylinder-low and cylinder-high;
    with [cl] and [ch] the two bytes read there it returns PATA for
    0x00/0x00, PATAPI for 0x14/0xEB, SATA for 0x3C/0xC3, SATAPI for
    0x69/0x96 and Unknown for every other pair. *)
Theorem ata_get_type_classifies :
  (forall slave (s : st),
      ata_get_type NULL slave s = (Ret ATA_TYPE_UNKNOWN, s))
  /\ forall a d slave (s : st),
      heap s !! a = Some d ->
      exists v1 v2 w1 w2 w3 w4 cl ch r s',
      ata_get_type (Some a) slave s = (Ret r, s')
      /\ trace s' = trace s ++
           [ EvInb (u16 (u8 (ctrl d + ATA_CTRL_DEVICE_CONTROL))) v1;
             EvOutb (u16 (u8 (ctrl d + ATA_CTRL_DEVICE_CONTROL)))
               (u8 (N.lor v1 4));
             EvInb (u16 (u8 (ctrl d + ATA_CTRL_DEVICE_CONTROL))) v2;
             EvOutb (u16 (u8 (ctrl d + ATA_CTRL_DEVICE_CONTROL)))
               (u8 (N.ldiff v2 4));
             EvOutb (u16 (bus d + ATA_REG_DRIVE))
               (if truthy slave then 0xa0 else 0xb0);
             EvInb (u16 (ctrl d)) w1; EvInb (u16 (ctrl d)) w2;
             EvInb (u16 (ctrl d)) w3; EvInb (u16 (ctrl d)) w4;
             EvInb (u16 (bus d + ATA_REG_CYLINDER_LOW)) cl;
             EvInb (u16 (bus d + ATA_REG_CYLINDER_HIGH)) ch ]
      /\ (cl = 0x00 /\ ch = 0x00 -> r = ATA_TYPE_PATA)
      /\ (cl = 0x14 /\ ch = 0xeb -> r = ATA_TYPE_PATAPI)
      /\ (cl = 0x3c /\ ch = 0xc3 -> r = ATA_TYPE_SATA)
      /\ (cl = 0x69 /\ ch = 0x96 -> r = ATA_TYPE_SATAPI)
      /\ (~ In (cl, ch) [(0x00, 0x00); (0x14, 0xeb); (0x3c, 0xc3); (0x69, 0x96)]
          -> r = ATA_TYPE_UNKNOWN).
Proof.
  split; [reflexivity|]. intros a d slave s Hd.
  unfold ata_get_type, ata_reset, ata_select_drive, ata_wait.
  unfold bind, load, inb, outb, ret.
  repeat (state_proj; rewrite ?Hd;
          match goal with
          | |- context [plat_inb ?p ?h] =>
              let v := fresh "v" in
              let h' := fresh "h" in
              destruct (plat_inb p h) as [v h']
          end).
  state_proj. rewrite ?Hd.
  match goal with
  | |- context [(u8 ?x =? 0) && (u8 ?y =? 0)] =>
      set (cl := u8 x); set (ch := u8 y)
  end.
  exists (u8 v), (u8 v0), (u8 v1), (u8 v2), (u8 v3), (u8 v4), cl, ch.
  rewrite <- !app_assoc. cbn [app].
  assert (Hsel : u8 (if truthy slave then 160 else 176)
                 = if truthy slave then 160 else 176)
    by (destruct (truthy slave); reflexivity).
  rewrite Hsel.
  destruct ((cl =? 0) && (ch =? 0)) eqn:E1;
    [|destruct ((cl =? 20) && (ch =? 235)) eqn:E2;
      [|destruct ((cl =? 60) && (ch =? 195)) eqn:E3;
        [|destruct ((cl =? 105) && (ch =? 150)) eqn:E4]]];
    eexists; eexists; (split; [reflexivity|]); (split; [reflexivity|]);
    clearbody cl ch; signature_facts;
    repeat split;
    try (intros [? ?]; subst; (reflexivity || discriminate));
    try (intros Hn; exfalso; apply Hn; simpl; auto 6; fail);
    try reflexivity.
Qed.

(** ** Computations that only talk to the ports

    Such a computation reads nothing but the platform state and changes
    nothing but that state and the log. *)

Lemma frame_id (s : st) : frame s (hw s) [] = s.
Proof. destruct s. unfold frame. cbn. rewrite app_nil_r. reflexivity. Qed.

Lemma frame_frame (s : st) h e h' e' :
  frame (frame s h e) h' e' = frame s h' (e ++ e').
Proof. unfold frame. cbn. rewrite app_assoc. reflexivity. Qed.

Lemma port_only_const {A} (o : outcome A) : port_only (fun s => (o, s)).
Proof.
  intros s1 s2 E. exists o, (hw s1), []. split.
  - rewrite frame_id. reflexivity.
  - rewrite E, frame_id. reflexivity.
Qed.

Lemma port_only_ret {A} (a : A) : port_only (@ret HW A a).
Proof. apply port_only_const. Qed.

Lemma port_only_spin {A} : port_only (@spin HW A).
Proof. apply port_only_const. Qed.

Lemma port_only_bind {A B} (m : M HW A) (f : A -> M HW B) :
  port_only m -> (forall a, port_only (f a)) -> port_only (bind m f).
Proof.
  intros Hm Hf s1 s2 E.
  destruct (Hm s1 s2 E) as (o & h & e & E1 & E2).
  unfold bind. rewrite E1, E2. destruct o as [a| |].
  - destruct (Hf a (frame s1 h e) (frame s2 h e) eq_refl)
      as (o' & h' & e' & E1' & E2').
    exists o', h', (e ++ e'). rewrite E1', E2', !frame_frame. auto.
  - exists Fault, h, e. auto.
  - exists Spin, h, e. auto.
Qed.

Lemma port_only_inb port : port_only (inb port).
Proof.
  intros s1 s2 E. unfold inb. rewrite <- E.
  destruct (plat_inb (u16 port) (hw s1)) as [v h]. eauto.
Qed.

Lemma port_only_outb port v : port_only (outb port v).
Proof. intros s1 s2 E. unfold outb. rewrite <- E. eauto. Qed.

Lemma port_only_inw port : port_only (inw port).
Proof.
  intros s1 s2 E. unfold inw. rewrite <- E.
  destruct (plat_inw (u16 port) (hw s1)) as [v h]. eauto.
Qed.

Ltac port_only_tac :=
  repeat first
    [ apply port_only_ret | apply port_only_spin
    | apply port_only_inb | apply port_only_outb | apply port_only_inw
    | assumption
    | apply port_only_bind; [|intros ?]
    | match goal with
      | |- port_only (if ?c then _ else _) => destruct c
      end ].

Lemma port_only_busy_loop fuel b : port_only (identify_busy_loop fuel b).
Proof.
  induction fuel as [|f IH]; simpl; unfold ata_is_busy; port_only_tac.
Qed.

Lemma port_only_status_loop fuel b : port_only (identify_status_loop fuel b).
Proof. induction fuel as [|f IH]; simpl; port_only_tac. Qed.

Lemma port_only_identify_words n b : port_only (identify_words n b).
Proof. induction n as [|k IH]; simpl; port_only_tac. Qed.

Lemma port_only_identify fuel b slave : port_only (ata_identify fuel b slave).
Proof.
  unfold ata_identify, ata_select_drive, ata_command.
  repeat (apply port_only_bind; [port_only_tac|intros ?]).
  destruct (_ =? 0); [port_only_tac|].
  apply port_only_bind; [apply port_only_busy_loop|intros _].
  apply port_only_bind; [port_only_tac|intros cl].
  apply port_only_bind; [port_only_tac|intros nz].
  destruct nz; [port_only_tac|].
  apply port_only_bind; [apply port_only_status_loop|intros status].
  destruct (negb _); [port_only_tac|].
  apply port_only_bind; [apply port_only_identify_words|intros data].
  port_only_tac.
Qed.

(** The outcome of a port-only computation depends on the platform state
    alone, and it leaves the driver's own data as they were. *)
Lemma port_only_transfer {A} (m : M HW A) (s1 s2 : st) o :
  port_only m -> hw s1 = hw s2 -> fst (m s1) = o ->
  exists h evs, m s2 = (o, frame s2 h evs).
Proof.
  intros Hm E Ho. destruct (Hm s1 s2 E) as (o' & h & e & E1 & E2).
  rewrite E1 in Ho. cbn in Ho. subst o'. eauto.
Qed.

(** ** Bring-up of a device *)

Lemma cache_alloc_run (s : st) a rest :
  devices_cache s = Some (a :: rest) ->
  cache_alloc s
  = (Ret (Some a),
     log (EvAlloc a)
       (set_devices_cache (Some rest)
          (set_heap (<[a := zero_device]> (heap s)) s))).
Proof. intros E. unfold cache_alloc. rewrite E. reflexivity. Qed.

Lemma cache_free_run (s : st) a slots :
  devices_cache s = Some slots ->
  cache_free (Some a) s
  = (Ret tt,
     log (EvFree a)
       (set_devices_cache (Some (a :: slots))
          (set_heap (delete a (heap s)) s))).
Proof. intros E. unfold cache_free. rewrite E. reflexivity. Qed.

Lemma modify_run (s : st) a d f :
  heap s !! a = Some d ->
  modify (Some a) f s = (Ret tt, set_heap (<[a := f d]> (heap s)) s).
Proof. intros E. unfold modify. rewrite E. reflexivity. Qed.

Lemma inb_run (s : st) port v h :
  plat_inb (u16 port) (hw s) = (v, h) ->
  inb port s = (Ret (u8 v), log (EvInb (u16 port) (u8 v)) (set_hw h s)).
Proof. intros E. unfold inb. rewrite E. reflexivity. Qed.

Lemma floating_check_run (s : st) b v h :
  plat_inb (u16 (b + ATA_REG_STATUS)) (hw s) = (v, h) ->
  ata_check_floating_bus b s
  = (Ret (u8 v =? 0xff),
     log (EvInb (u16 (b + ATA_REG_STATUS)) (u8 v)) (set_hw h s)).
Proof.
  intros E. unfold ata_check_floating_bus.
  rewrite (bind_ret_run _ _ _ _ _ (inb_run _ _ _ _ E)). reflexivity.
Qed.

(** The start of [ata_init_device] up to the floating-bus check. *)
Lemma init_device_prologue {B} b c a rest v h1 (s : st)
    (k : bool -> M HW B) :
  devices_cache s = Some (a :: rest) ->
  plat_inb (u16 (b + ATA_REG_STATUS)) (hw s) = (v, h1) ->
  (modify (Some a) (set_bus b) ;;;
   modify (Some a) (set_ctrl c) ;;;
   floating <- ata_check_floating_bus b ;;
   k floating)
    (log (EvAlloc a)
       (set_devices_cache (Some rest)
          (set_heap (<[a := zero_device]> (heap s)) s)))
  = k (u8 v =? 0xff)
      (mk_state (<[a := set_ctrl c (set_bus b zero_device)]> (heap s))
         (devices s) (Some rest) h1
         (trace s ++ [EvAlloc a; EvInb (u16 (b + ATA_REG_STATUS)) (u8 v)])).
Proof.
  intros Hc Hin.
  step ltac:(apply modify_run; state_proj; apply lookup_insert_eq).
  step ltac:(apply modify_run; state_proj; apply lookup_insert_eq).
  step ltac:(apply floating_check_run; state_proj; exact Hin).
  f_equal. state_proj. rewrite !insert_insert_eq, <- app_assoc. reflexivity.
Qed.

Lemma init_device_bail a rest m (h : HW) t msg (s : st) :
  heap s !! a = None ->
  (printf msg [] ;;; cache_free (Some a) ;;; ret NULL)
    (mk_state (<[a := m]> (heap s)) (devices s) (Some rest) h t)
  = (Ret NULL,
     mk_state (heap s) (devices s) (Some (a :: rest)) h
       (t ++ [EvPrintf msg []; EvFree a])).
Proof.
  intros Hn. unfold printf, emit.
  step ltac:(reflexivity).
  step ltac:(apply cache_free_run; reflexivity).
  unfold ret. f_equal. state_proj.
  rewrite (delete_insert_id _ _ _ Hn), <- app_assoc. reflexivity.
Qed.

(** C8 (as amended): when the status register reads as all-ones, or when
    the identify sequence returns 0, [ata_init_device] returns NULL, puts
    the record it allocated back into the pool and leaves the live
    records, the device list and the pool exactly as they were before the
    call.  The kind of failure is only printed: the log shows which of the
    two messages went out, the caller receives NULL in both cases. *)
Theorem ata_init_device_failure fuel busp ctrlp a rest v h1 (s : st) :
  devices_cache s = Some (a :: rest) ->
  heap s !! a = None ->
  plat_inb (u16 (u16 busp + ATA_REG_STATUS)) (hw s) = (v, h1) ->
  u8 v = 0xff
  \/ (exists data,
        fst (ata_identify fuel (u16 busp) 0 (set_hw h1 s))
        = Ret (0%Z, data)) ->
  exists s' evs,
    ata_init_device fuel busp ctrlp s = (Ret NULL, s')
    /\ heap s' = heap s
    /\ devices s' = devices s
    /\ devices_cache s' = devices_cache s
    /\ trace s' = trace s ++
         [EvAlloc a; EvInb (u16 (u16 busp + ATA_REG_STATUS)) (u8 v)]
         ++ evs ++ [EvFree a]
    /\ (u8 v = 0xff ->
        evs = [EvPrintf ("ATA floating bus detected" +:+ nl) []]
        /\ hw s' = h1)
    /\ (u8 v <> 0xff ->
        exists io, evs = io ++ [EvPrintf ("ATA identify failed" +:+ nl) []]).
Proof.
  intros Hc Hn Hin Hcase.
  unfold ata_init_device. cbv zeta.
  step ltac:(apply cache_alloc_run; exact Hc).
  cbv iota beta.
  rewrite (init_device_prologue _ _ _ _ _ _ _ _ Hc Hin).
  destruct (N.eq_dec (u8 v) 0xff) as [Hff | Hnf].
  - rewrite Hff. change (255 =? 255) with true. cbv iota.
    rewrite init_device_bail by exact Hn.
    eexists. exists [EvPrintf ("ATA floating bus detected" +:+ nl) []].
    split; [reflexivity|]. state_proj. rewrite Hc, <- !app_assoc.
    repeat split; try reflexivity. intros Hne. congruence.
  - destruct Hcase as [Hff | [data Hid]]; [congruence|].
    apply N.eqb_neq in Hnf. rewrite Hnf. cbv iota.
    match goal with
    | |- context [bind (ata_identify _ _ _) _ ?s3] =>
        destruct (port_only_transfer _ (set_hw h1 s) s3 _
                    (port_only_identify fuel (u16 busp) 0) eq_refl Hid)
          as (h2 & io & Erun)
    end.
    step ltac:(exact Erun).
    cbn [fst]. change (0 =? 0)%Z with true. cbv iota.
    unfold frame. state_proj.
    rewrite init_device_bail by exact Hn.
    eexists. exists (io ++ [EvPrintf ("ATA identify failed" +:+ nl) []]).
    split; [reflexivity|]. state_proj. rewrite Hc, <- !app_assoc.
    apply N.eqb_neq in Hnf.
    repeat split; try reflexivity; try congruence. eauto.
Qed.

(** ** An error in the middle of a transfer *)

Lemma data_transfers_app t1 t2 :
  data_transfers (t1 ++ t2) = (data_transfers t1 + data_transfers t2)%nat.
Proof. induction t1 as [|e t IH]; simpl; [reflexivity|]. rewrite IH. lia. Qed.

Lemma data_transfers_none t : Forall no_data t -> data_transfers t = 0%nat.
Proof.
  induction 1 as [|e t He _ IH]; simpl; [reflexivity|].
  unfold no_data in He. rewrite He, IH. reflexivity.
Qed.

Lemma emits_no_data_count {A} (m : M HW A) (s s' : st) o :
  emits no_data m -> m s = (o, s') ->
  data_transfers (trace s') = data_transfers (trace s).
Proof.
  intros Hm E. destruct (Hm _ _ _ E) as (evs & T & F).
  rewrite T, data_transfers_app, (data_transfers_none _ F). lia.
Qed.

Lemma bind_ret_inv {A B} (m : M HW A) (f : A -> M HW B) (s s' : st) b :
  bind m f s = (Ret b, s') ->
  exists a s1, m s = (Ret a, s1) /\ f a s1 = (Ret b, s').
Proof.
  intros E. destruct (bind_inv _ _ _ _ _ E) as [? | [[_ ?] | [_ ?]]];
    [assumption|discriminate|discriminate].
Qed.

Lemma wait_ready_no_data fuel dev : emits no_data (ata_wait_ready fuel dev).
Proof. apply emits_wait_ready; unfold no_data; reflexivity. Qed.

Lemma has_err_no_data dev : emits no_data (ata_has_err dev).
Proof. apply emits_has_err; unfold no_data; reflexivity. Qed.

Lemma dev_bus_inv dev (s s' : st) b :
  dev_bus dev s = (Ret b, s') ->
  s' = s /\ exists a d, dev = Some a /\ heap s !! a = Some d /\ bus d = b.
Proof.
  unfold dev_bus, bind, load, ret. destruct dev as [a|]; [|discriminate].
  destruct (heap s !! a) as [d|] eqn:Hd; [|discriminate].
  intros E. inversion E; subst. eauto 6.
Qed.

Lemma inw_inv port (s s' : st) w :
  inw port s = (Ret w, s') ->
  heap s' = heap s /\ trace s' = trace s ++ [EvInw (u16 port) w].
Proof.
  unfold inw. destruct (plat_inw (u16 port) (hw s)) as [v h].
  intros E. inversion E; subst. split; reflexivity.
Qed.

Lemma read_words_ret n dev buf pos (s s' : st) b' p' :
  read_words n dev buf pos s = (Ret (b', p'), s') ->
  p' = (pos + n)%nat
  /\ length b' = length buf
  /\ heap s' = heap s
  /\ data_transfers (trace s') = (data_transfers (trace s) + n)%nat.
Proof.
  revert buf pos s. induction n as [|k IH]; intros buf pos s E; simpl in E.
  - inversion E; subst. repeat split; lia.
  - apply bind_ret_inv in E. destruct E as (b & s1 & E1 & E).
    apply dev_bus_inv in E1. destruct E1 as [-> _].
    apply bind_ret_inv in E. destruct E as (w & s2 & E2 & E).
    apply inw_inv in E2. destruct E2 as (Hh & T).
    destruct (decide (pos < length buf)%nat); [|discriminate].
    apply IH in E. destruct E as (-> & Hl & Hh' & Hc).
    rewrite length_insert in Hl.
    rewrite Hc, T, data_transfers_app. simpl.
    repeat split; try lia; congruence.
Qed.

Lemma outw_inv port v (s s' : st) :
  outw port v s = (Ret tt, s') ->
  heap s' = heap s /\ trace s' = trace s ++ [EvOutw (u16 port) (u16 v)].
Proof. unfold outw. intros E. inversion E; subst. auto. Qed.

Lemma write_words_ret n dev buf pos (s s' : st) p' :
  write_words n dev buf pos s = (Ret p', s') ->
  p' = (pos + n)%nat
  /\ heap s' = heap s
  /\ data_transfers (trace s') = (data_transfers (trace s) + n)%nat.
Proof.
  revert pos s. induction n as [|k IH]; intros pos s E; simpl in E.
  - inversion E; subst. repeat split; lia.
  - apply bind_ret_inv in E. destruct E as (b & s1 & E1 & E).
    apply dev_bus_inv in E1. destruct E1 as [-> _].
    destruct (buf !! pos) as [w|]; [|discriminate].
    apply bind_ret_inv in E. destruct E as ([] & s2 & E2 & E).
    apply outw_inv in E2. destruct E2 as (Hh & T).
    apply IH in E. destruct E as (-> & Hh' & Hc).
    rewrite Hc, T, data_transfers_app. simpl.
    repeat split; try lia; congruence.
Qed.

(** The first [m] iterations of a longer sector loop are the sector loop
    for [m] sectors. *)
Lemma read_sectors_prefix settle fuel dev n m r i buf pos (s s' : st) b' :
  i + N.of_nat m <= n ->
  read_sectors settle fuel m i (i + N.of_nat m) dev buf pos s
  = (Ret (None, b'), s') ->
  read_sectors settle fuel (m + r) i n dev buf pos s
  = read_sectors settle fuel r (i + N.of_nat m) n dev b' (pos + 256 * m) s'
  /\ data_transfers (trace s')
     = (data_transfers (trace s) + 256 * m)%nat.
Proof.
  revert i buf pos s. induction m as [|m IH]; intros i buf pos s Hle E.
  - rewrite read_sectors_unfold in E.
    replace (i + N.of_nat 0) with i in * by lia.
    rewrite N.ltb_irrefl in E. inversion E; subst.
    replace (pos + 256 * 0)%nat with pos by lia.
    split; [reflexivity|lia].
  - rewrite read_sectors_unfold in E.
    assert (Hlt : (i <? i + N.of_nat (S m)) = true) by (apply N.ltb_lt; lia).
    assert (Hge : (i + N.of_nat (S m) <=? i) = false) by (apply N.leb_gt; lia).
    rewrite Hlt, Hge in E.
    apply bind_ret_inv in E. destruct E as ([] & s1 & E1 & E).
    apply bind_ret_inv in E. destruct E as (e & s2 & E2 & E).
    destruct (negb (e =? 0)) eqn:He.
    { apply bind_ret_inv in E. destruct E as (? & ? & _ & E).
      inversion E. }
    apply bind_ret_inv in E. destruct E as ([b1 p1] & s3 & E3 & E).
    apply bind_ret_inv in E. destruct E as ([] & s4 & E4 & E).
    inversion E4; subst s4. cbn [fst snd] in E.
    replace (i + N.of_nat (S m)) with (N.succ i + N.of_nat m) in E by lia.
    pose proof (read_words_ret _ _ _ _ _ _ _ _ E3) as (-> & _ & _ & Hc3).
    apply IH in E; [|lia]. destruct E as [E Hc].
    split.
    + change (S m + r)%nat with (S (m + r)).
      rewrite (read_sectors_unfold _ _ (S (m + r))).
      assert (Hlt' : (i <? n) = true) by (apply N.ltb_lt; lia).
      assert (Hge' : (n <=? i) = false) by (apply N.leb_gt; lia).
      rewrite Hlt', Hge'.
      step ltac:(exact E1). step ltac:(exact E2). rewrite He.
      step ltac:(exact E3). step ltac:(reflexivity). cbn [fst snd].
      rewrite E. f_equal; lia.
    + rewrite Hc, Hc3.
      rewrite (emits_no_data_count _ _ _ _ (has_err_no_data _) E2).
      rewrite (emits_no_data_count _ _ _ _ (wait_ready_no_data _ _) E1).
      lia.
Qed.

Lemma write_sectors_prefix fuel dev n m r i buf pos (s s' : st) :
  i + N.of_nat m <= n ->
  write_sectors fuel m i (i + N.of_nat m) dev buf pos s = (Ret None, s') ->
  write_sectors fuel (m + r) i n dev buf pos s
  = write_sectors fuel r (i + N.of_nat m) n dev buf (pos + 256 * m) s'
  /\ data_transfers (trace s')
     = (data_transfers (trace s) + 256 * m)%nat.
Proof.
  revert i pos s. induction m as [|m IH]; intros i pos s Hle E.
  - rewrite write_sectors_unfold in E.
    replace (i + N.of_nat 0) with i in * by lia.
    rewrite N.ltb_irrefl in E. inversion E; subst.
    replace (pos + 256 * 0)%nat with pos by lia.
    split; [reflexivity|lia].
  - rewrite write_sectors_unfold in E.
    assert (Hlt : (i <? i + N.of_nat (S m)) = true) by (apply N.ltb_lt; lia).
    rewrite Hlt in E.
    apply bind_ret_inv in E. destruct E as ([] & s1 & E1 & E).
    apply bind_ret_inv in E. destruct E as (e & s2 & E2 & E).
    destruct (negb (e =? 0)) eqn:He.
    { apply bind_ret_inv in E. destruct E as (? & ? & _ & E).
      inversion E. }
    apply bind_ret_inv in E. destruct E as (p1 & s3 & E3 & E).
    replace (i + N.of_nat (S m)) with (N.succ i + N.of_nat m) in E by lia.
    pose proof (write_words_ret _ _ _ _ _ _ _ E3) as (-> & _ & Hc3).
    apply IH in E; [|lia]. destruct E as [E Hc].
    split.
    + change (S m + r)%nat with (S (m + r)).
      rewrite (write_sectors_unfold _ (S (m + r))).
      assert (Hlt' : (i <? n) = true) by (apply N.ltb_lt; lia).
      rewrite Hlt'.
      step ltac:(exact E1). step ltac:(exact E2). rewrite He.
      step ltac:(exact E3).
      rewrite E. f_equal; lia.
    + rewrite Hc, Hc3.
      rewrite (emits_no_data_count _ _ _ _ (has_err_no_data _) E2).
      rewrite (emits_no_data_count _ _ _ _ (wait_ready_no_data _ _) E1).
      lia.
Qed.

Lemma has_err_inv a (s s' : st) e :
  ata_has_err (Some a) s = (Ret e, s') ->
  heap s' = heap s /\ exists d, heap s !! a = Some d.
Proof.
  unfold ata_has_err. intros E.
  apply bind_ret_inv in E. destruct E as (d & s1 & E1 & E).
  unfold load in E1. destruct (heap s !! a) as [d'|] eqn:Hd; [|discriminate].
  inversion E1; subst.
  apply bind_ret_inv in E. destruct E as (v & s2 & E2 & E).
  inversion E; subst. unfold inb in E2.
  destruct (plat_inb _ _) as [v' h]. inversion E2; subst. eauto.
Qed.

Lemma setup_no_data a b slave lba sectors cmd :
  data_transfers (setup_events a b slave lba sectors cmd) = 0%nat.
Proof. reflexivity. Qed.

(** The per-sector check fails: what the rest of a sector loop does. *)
Lemma abort_tail a (s sw se : st) e :
  ata_has_err (Some a) sw = (Ret e, se) ->
  exists d',
    heap se !! a = Some d'
    /\ spin_unlock (Some a) se
       = (Ret tt, log (EvUnlock a)
                    (set_heap (<[a := set_spinlock 0 d']> (heap se)) se)).
Proof.
  intros E. destruct (has_err_inv _ _ _ _ E) as (Hh & d' & Hd').
  exists d'. rewrite <- Hh in Hd'. split; [exact Hd'|].
  apply unlock_run. exact Hd'.
Qed.

(** C4: take a call of [ata_read] or [ata_write] for [n] sectors in which
    the first [k] sectors go through (the sector loop for [k] sectors,
    started after the register set-up, runs to its end) and the check at
    sector [k] (wait for ready, then read the status register) finds the
    error bit set.  The call returns -1.  After that status read the only
    thing it does is release the guard; the log holds 256 data-register
    transfers for each of the first [k] sectors and none for sector [k] or
    a later one, and [ata_read] hands back the buffer as those [k] sectors
    left it. *)
Theorem ata_transfer_aborts_on_error fuel a d slave lba buf n k (s : st) :
  heap s !! a = Some d -> spinlock d = 0%Z -> n <= 255 -> k < n ->
  (forall bufk sk e se,
      read_sectors ata_wait fuel (N.to_nat k) 0 k (Some a) buf 0
        (after_setup a d slave lba n ATA_CMD_READ_SECTORS s)
      = (Ret (None, bufk), sk) ->
      (ata_wait_ready fuel (Some a) ;;; ata_has_err (Some a)) sk
      = (Ret e, se) ->
      e <> 0 ->
      exists s' d',
        ata_read fuel (Some a) slave lba (Some buf) n s
        = (Ret ((-1)%Z, Some bufk), s')
        /\ trace s' = trace se ++ [EvUnlock a]
        /\ heap s' !! a = Some d' /\ spinlock d' = 0%Z
        /\ data_transfers (trace s')
           = (data_transfers (trace s) + 256 * N.to_nat k)%nat)
  /\ (forall sk e se,
      write_sectors fuel (N.to_nat k) 0 k (Some a) buf 0
        (after_setup a d slave lba n ATA_CMD_WRITE_SECTORS s)
      = (Ret None, sk) ->
      (ata_wait_ready fuel (Some a) ;;; ata_has_err (Some a)) sk
      = (Ret e, se) ->
      e <> 0 ->
      exists s' d',
        ata_write fuel (Some a) slave lba (Some buf) n s = (Ret (-1)%Z, s')
        /\ trace s' = trace se ++ [EvUnlock a]
        /\ heap s' !! a = Some d' /\ spinlock d' = 0%Z
        /\ data_transfers (trace s')
           = (data_transfers (trace s) + 256 * N.to_nat k)%nat).
Proof.
  intros Hd Hl Hn Hk. pose proof (free_lock d Hl) as Hf.
  assert (Hsplit : N.to_nat n
                   = (N.to_nat k + S (N.to_nat n - N.to_nat k - 1))%nat)
    by lia.
  assert (Hlt : (k <? n) = true) by (apply N.ltb_lt; exact Hk).
  split.
  - intros bufk sk e se Hpre Hchk He.
    unfold ata_read, ata_read_with.
    rewrite valid_args by assumption.
    rewrite (setup_run fuel a d) by assumption.
    change (default [] (Some buf)) with buf. rewrite Hsplit.
    apply bind_ret_inv in Hchk. destruct Hchk as ([] & sw & Ew & Ee).
    destruct (abort_tail a sk sw se e Ee) as (d' & Hd' & Eu).
    replace k with (0 + N.of_nat (N.to_nat k)) in Hpre at 2 by lia.
    apply (read_sectors_prefix _ _ _ n _ (S (N.to_nat n - N.to_nat k - 1)))
      in Hpre; [|lia].
    destruct Hpre as [Hrun Hcount].
    replace (0 + N.of_nat (N.to_nat k)) with k in Hrun by lia.
    rewrite (read_sectors_unfold _ _ (S _) k), Hlt in Hrun.
    unfold bind at 1. rewrite Hrun.
    step ltac:(exact Ew). step ltac:(exact Ee).
    apply N.eqb_neq in He. rewrite He. cbn [negb].
    step ltac:(exact Eu). unfold ret. cbn [fst snd].
    eexists. exists (set_spinlock 0 d').
    split; [reflexivity|]. state_proj.
    split; [reflexivity|]. split; [apply lookup_insert_eq|].
    split; [reflexivity|].
    rewrite data_transfers_app. cbn [data_transfers is_data].
    rewrite (emits_no_data_count _ _ _ _ (has_err_no_data _) Ee).
    rewrite (emits_no_data_count _ _ _ _ (wait_ready_no_data _ _) Ew).
    rewrite Hcount. unfold after_setup. cbn [trace].
    rewrite data_transfers_app, setup_no_data. lia.
  - intros sk e se Hpre Hchk He.
    unfold ata_write.
    rewrite valid_args by assumption.
    rewrite (setup_run fuel a d) by assumption.
    change (default [] (Some buf)) with buf. rewrite Hsplit.
    apply bind_ret_inv in Hchk. destruct Hchk as ([] & sw & Ew & Ee).
    destruct (abort_tail a sk sw se e Ee) as (d' & Hd' & Eu).
    replace k with (0 + N.of_nat (N.to_nat k)) in Hpre at 2 by lia.
    apply (write_sectors_prefix _ _ n _ (S (N.to_nat n - N.to_nat k - 1)))
      in Hpre; [|lia].
    destruct Hpre as [Hrun Hcount].
    replace (0 + N.of_nat (N.to_nat k)) with k in Hrun by lia.
    rewrite (write_sectors_unfold _ (S _) k), Hlt in Hrun.
    unfold bind at 1. rewrite Hrun.
    step ltac:(exact Ew). step ltac:(exact Ee).
    apply N.eqb_neq in He. rewrite He. cbn [negb].
    step ltac:(exact Eu). unfold ret.
    eexists. exists (set_spinlock 0 d').
    split; [reflexivity|]. state_proj.
    split; [reflexivity|]. split; [apply lookup_insert_eq|].
    split; [reflexivity|].
    rewrite data_transfers_app. cbn [data_transfers is_data].
    rewrite (emits_no_data_count _ _ _ _ (has_err_no_data _) Ee).
    rewrite (emits_no_data_count _ _ _ _ (wait_ready_no_data _ _) Ew).
    rewrite Hcount. unfold after_setup. cbn [trace].
    rewrite data_transfers_app, setup_no_data. lia.
Qed.

(** ** Who stores what to the [wait_irq] flag *)

Lemma guarded_loop_bind {A B} a early (m : M HW A) (f : A -> M HW B) :
  emits (under_guard a) m ->
  (forall x, guarded_loop a early (f x)) ->
  guarded_loop a early (bind m f).
Proof.
  intros Hm Hf s o s' E.
  destruct (bind_inv _ _ _ _ _ E) as [(x & s1 & E1 & E2) | [[E1 ->] | [E1 ->]]].
  - destruct (Hm _ _ _ E1) as (e1 & T1 & F1).
    destruct (Hf x _ _ _ E2) as (e2 & F2 & T2).
    exists (e1 ++ e2). split; [apply Forall_app; auto|].
    rewrite T2, T1, <- !app_assoc. reflexivity.
  - destruct (Hm _ _ _ E1) as (e1 & T1 & F1). exists e1.
    rewrite app_nil_r. auto.
  - destruct (Hm _ _ _ E1) as (e1 & T1 & F1). exists e1.
    rewrite app_nil_r. auto.
Qed.

Lemma guarded_loop_quiet {A} a early (m : M HW A) :
  emits (under_guard a) m ->
  (forall (s : st) x s', m s = (Ret x, s') -> early x = false) ->
  guarded_loop a early m.
Proof.
  intros Hm He s o s' E. destruct (Hm _ _ _ E) as (e1 & T1 & F1).
  exists e1. split; [exact F1|]. destruct o as [x| |]; rewrite ?app_nil_r; auto.
  rewrite (He _ _ _ E), app_nil_r. exact T1.
Qed.

Lemma guarded_loop_abort {A} a early (x : A) :
  early x = true ->
  guarded_loop a early (spin_unlock (Some a) ;;; ret x).
Proof.
  intros He s o s' E. exists []. split; [constructor|].
  unfold bind, spin_unlock, ret in E.
  destruct (heap s !! a); inversion E; subst; cbn [app].
  - rewrite He. reflexivity.
  - rewrite app_nil_r. reflexivity.
Qed.

Lemma guarded_call_bind {A B} a (m : M HW A) (f : A -> M HW B) :
  emits (under_guard a) m ->
  (forall x, guarded_call a (f x)) ->
  guarded_call a (bind m f).
Proof.
  intros Hm Hf s o s' E.
  destruct (bind_inv _ _ _ _ _ E) as [(x & s1 & E1 & E2) | [[E1 ->] | [E1 ->]]].
  - destruct (Hm _ _ _ E1) as (e1 & T1 & F1).
    destruct (Hf x _ _ _ E2) as (e2 & F2 & T2).
    exists (e1 ++ e2). split; [apply Forall_app; auto|].
    rewrite T1 in T2. rewrite <- !app_assoc in *. exact T2.
  - destruct (Hm _ _ _ E1) as (e1 & T1 & F1). exists e1. auto.
  - destruct (Hm _ _ _ E1) as (e1 & T1 & F1). exists e1. auto.
Qed.

Lemma guarded_call_unlock {A} a (x : A) :
  guarded_call a (spin_unlock (Some a) ;;; ret x).
Proof.
  intros s o s' E. exists []. split; [constructor|].
  unfold bind, spin_unlock, ret in E.
  destruct (heap s !! a); inversion E; subst; cbn [app].
  - right. reflexivity.
  - left. rewrite app_nil_r. reflexivity.
Qed.

Lemma guarded_call_ret {A} a (x : A) : guarded_call a (@ret HW A x).
Proof.
  intros s o s' E. inversion E; subst. exists []. split; [constructor|].
  left. rewrite app_nil_r. reflexivity.
Qed.

(** After a loop: on an early return nothing more is logged, otherwise
    the epilogue runs. *)
Lemma guarded_call_after_loop {A B} a early (m : M HW A) (k : A -> M HW B) :
  guarded_loop a early m ->
  (forall x, early x = true -> exists y, k x = ret y) ->
  (forall x, early x = false -> guarded_call a (k x)) ->
  guarded_call a (bind m k).
Proof.
  intros Hm Hearly Hlate s o s' E.
  destruct (bind_inv _ _ _ _ _ E) as [(x & s1 & E1 & E2) | [[E1 ->] | [E1 ->]]].
  - destruct (Hm _ _ _ E1) as (e1 & F1 & T1).
    destruct (early x) eqn:He.
    + destruct (Hearly x He) as (y & Hk). rewrite Hk in E2.
      inversion E2; subst. exists e1. auto.
    + destruct (Hlate x He _ _ _ E2) as (e2 & F2 & T2).
      rewrite app_nil_r in T1.
      exists (e1 ++ e2). split; [apply Forall_app; auto|].
      rewrite T1 in T2. rewrite <- !app_assoc in *. exact T2.
  - destruct (Hm _ _ _ E1) as (e1 & F1 & T1). rewrite app_nil_r in T1.
    exists e1. auto.
  - destruct (Hm _ _ _ E1) as (e1 & F1 & T1). rewrite app_nil_r in T1.
    exists e1. auto.
Qed.

Ltac guard_side :=
  unfold under_guard;
  first [ exact I | intros; exact I | intros; left; reflexivity
        | intros ? [= <-]; right; split; reflexivity ].

Lemma quiet_wait_ready fuel a :
  emits (under_guard a) (ata_wait_ready fuel (Some a)).
Proof. apply emits_wait_ready; guard_side. Qed.

Lemma quiet_has_err a dev : emits (under_guard a) (ata_has_err dev).
Proof. apply emits_has_err; guard_side. Qed.

Lemma quiet_read_words a n dev buf pos :
  emits (under_guard a) (read_words n dev buf pos).
Proof. apply emits_read_words; guard_side. Qed.

Lemma quiet_write_words a n dev buf pos :
  emits (under_guard a) (write_words n dev buf pos).
Proof. apply emits_write_words; guard_side. Qed.

Lemma quiet_dev_bus a dev : emits (under_guard a) (dev_bus dev).
Proof. apply emits_dev_bus. Qed.

Lemma quiet_dev_ctrl a dev : emits (under_guard a) (dev_ctrl dev).
Proof. apply emits_dev_ctrl. Qed.

Lemma quiet_outb a port v : emits (under_guard a) (outb port v).
Proof. apply emits_outb; guard_side. Qed.

Lemma quiet_wait a port : emits (under_guard a) (ata_wait port).
Proof. apply emits_wait; guard_side. Qed.

Lemma read_sectors_guarded settle fuel n i sectors a buf pos :
  (forall c, emits (under_guard a) (settle c)) ->
  guarded_loop a returned
    (read_sectors settle fuel n i sectors (Some a) buf pos).
Proof.
  intros Hsettle. revert i buf pos.
  induction n as [|k IH]; intros i buf pos; rewrite read_sectors_unfold;
    (destruct (i <? sectors);
     [|apply guarded_loop_quiet;
       [apply emits_ret|intros s x s' E; inversion E; reflexivity]]).
  - apply guarded_loop_quiet; [apply emits_spin|].
    intros s x s' E. inversion E.
  - apply guarded_loop_bind; [apply quiet_wait_ready|intros _].
    apply guarded_loop_bind; [apply quiet_has_err|intros e].
    destruct (negb (e =? 0)); [apply guarded_loop_abort; reflexivity|].
    apply guarded_loop_bind; [apply quiet_read_words|intros r].
    apply guarded_loop_bind; [|intros _; apply IH].
    destruct (sectors <=? i); [|apply emits_ret].
    apply emits_bind; [apply quiet_dev_ctrl|intros c; apply Hsettle].
Qed.

Lemma write_sectors_guarded fuel n i sectors a buf pos :
  guarded_loop a returned'
    (write_sectors fuel n i sectors (Some a) buf pos).
Proof.
  revert i pos.
  induction n as [|k IH]; intros i pos; rewrite write_sectors_unfold;
    (destruct (i <? sectors);
     [|apply guarded_loop_quiet;
       [apply emits_ret|intros s x s' E; inversion E; reflexivity]]).
  - apply guarded_loop_quiet; [apply emits_spin|].
    intros s x s' E. inversion E.
  - apply guarded_loop_bind; [apply quiet_wait_ready|intros _].
    apply guarded_loop_bind; [apply quiet_has_err|intros e].
    destruct (negb (e =? 0)); [apply guarded_loop_abort; reflexivity|].
    apply guarded_loop_bind; [apply quiet_write_words|intros r].
    apply IH.
Qed.

Lemma spin_lock_inv fuel a (s s' : st) o :
  spin_lock fuel (Some a) s = (o, s') ->
  (o = Ret tt /\ trace s' = trace s ++ [EvLock a])
  \/ (o <> Ret tt /\ trace s' = trace s).
Proof.
  induction fuel as [|f IH]; simpl; intros E;
    destruct (heap s !! a) as [d|];
    try (inversion E; subst; right; split; [discriminate|reflexivity]);
    destruct (truthy (spinlock d));
    try (inversion E; subst; left; split; reflexivity).
  - inversion E; subst. right. split; [discriminate|reflexivity].
  - apply IH. exact E.
Qed.

Lemma guard_shape_intro {A B} a (lock : M HW A) (k : M HW B) (s s' : st) o :
  (forall s1 o1 s1', lock s1 = (o1, s1') ->
     (exists x, o1 = Ret x /\ trace s1' = trace s1 ++ [EvLock a])
     \/ ((forall x, o1 <> Ret x) /\ trace s1' = trace s1)) ->
  guarded_call a k ->
  (lock ;;; k) s = (o, s') ->
  guard_shape a (trace s) (trace s').
Proof.
  intros Hlock Hk E.
  destruct (bind_inv _ _ _ _ _ E) as [(x & s1 & E1 & E2) | [[E1 ->] | [E1 ->]]].
  - destruct (Hlock _ _ _ E1) as [(y & _ & T1) | [Hno _]];
      [|exfalso; apply (Hno x); reflexivity].
    destruct (Hk _ _ _ E2) as (quiet & F & [T | T]); right; exists quiet;
      (split; [exact F|]); rewrite T, T1, <- !app_assoc; auto.
  - destruct (Hlock _ _ _ E1) as [(y & Hy & _) | [_ T]];
      [discriminate|left; exact T].
  - destruct (Hlock _ _ _ E1) as [(y & Hy & _) | [_ T]];
      [discriminate|left; exact T].
Qed.

Lemma spin_lock_shape fuel a (s1 : st) o1 (s1' : st) :
  spin_lock fuel (Some a) s1 = (o1, s1') ->
  (exists x, o1 = Ret x /\ trace s1' = trace s1 ++ [EvLock a])
  \/ ((forall x, o1 <> Ret x) /\ trace s1' = trace s1).
Proof.
  intros E. destruct (spin_lock_inv _ _ _ _ _ E) as [[-> T] | [Hne T]].
  - left. eauto.
  - right. split; [|exact T]. intros []. exact Hne.
Qed.

Ltac guarded_setup a :=
  repeat (apply guarded_call_bind; [apply quiet_dev_bus|intros ?];
          apply guarded_call_bind;
          [first [apply quiet_outb | unfold ata_command; apply quiet_outb]
          |intros _]).

Lemma ata_read_guard_shape settle fuel a slave lba buff n (s s' : st) o :
  (forall c, emits (under_guard a) (settle c)) ->
  ata_read_with settle fuel (Some a) slave lba buff n s = (o, s') ->
  guard_shape a (trace s) (trace s').
Proof.
  intros Hsettle E. unfold ata_read_with in E.
  destruct (is_null (Some a) || is_null buff || (255 <? n)).
  { inversion E; subst. left. reflexivity. }
  refine (guard_shape_intro a _ _ s s' o (spin_lock_shape fuel a) _ E).
  guarded_setup a.
  apply (guarded_call_after_loop a returned).
  - apply read_sectors_guarded. exact Hsettle.
  - intros [[v|] b] He; [eauto|discriminate].
  - intros [[v|] b] He; [discriminate|]. cbn [fst snd].
    apply guarded_call_unlock.
Qed.

Lemma ata_write_guard_shape fuel a slave lba buff n (s s' : st) o :
  ata_write fuel (Some a) slave lba buff n s = (o, s') ->
  guard_shape a (trace s) (trace s').
Proof.
  intros E. unfold ata_write in E.
  destruct (is_null (Some a) || is_null buff || (255 <? n)).
  { inversion E; subst. left. reflexivity. }
  refine (guard_shape_intro a _ _ s s' o (spin_lock_shape fuel a) _ E).
  guarded_setup a.
  apply (guarded_call_after_loop a returned').
  - apply write_sectors_guarded.
  - intros [v|] He; [eauto|discriminate].
  - intros [v|] He; [discriminate|].
    apply guarded_call_bind; [apply quiet_dev_bus|intros b].
    apply guarded_call_bind; [unfold ata_command; apply quiet_outb|intros _].
    apply guarded_call_unlock.
Qed.

Lemma arm_inv a (s s' : st) o :
  store_wait_irq (Some a) 1 s = (o, s') ->
  (o = Ret tt /\ trace s' = trace s ++ [EvFlag a 1])
  \/ (o = Fault /\ s' = s).
Proof.
  unfold store_wait_irq. destruct (heap s !! a); intros E; inversion E; auto.
Qed.

Lemma wait_ready_rest_clears fuel dev :
  emits clears_only (wait_ready_loop fuel dev ;;; store_wait_irq dev 0).
Proof.
  apply emits_bind; [|intros _; apply emits_clear; reflexivity].
  apply emits_wait_ready_loop; unfold clears_only; auto.
Qed.

(** C6 (as amended): which driver code stores what to a [wait_irq] flag.
    [ata_irq] stores 0, to the flag of the head of the device list, and
    nothing else.  [ata_err_check] stores only 0.  [ata_wait_ready] first
    stores 1 to the flag of its own device, and every later store during
    the wait (its own at the end, those of the hooks that run while it
    sleeps) is a store of 0.  [ata_reset], [ata_get_type],
    [ata_init_device] and [ata_init] store to no flag.  In a call of
    [ata_read] or [ata_write] on the device at [a], every store lies
    between taking and releasing the guard of [a], and a store of a
    non-zero value there is the store of 1 to the flag of [a]. *)
Theorem wait_irq_store_discipline :
  (forall (s : st) o s', ata_irq s = (o, s') ->
      trace s' = trace s
      \/ exists a, devices s = Some a /\ trace s' = trace s ++ [EvFlag a 0])
  /\ (forall fuel, emits clears_only (ata_err_check fuel))
  /\ (forall fuel a (s : st) o s',
      ata_wait_ready fuel (Some a) s = (o, s') ->
      trace s' = trace s
      \/ exists evs,
           trace s' = trace s ++ EvFlag a 1 :: evs /\ Forall clears_only evs)
  /\ (forall dev, emits no_flag (ata_reset dev))
  /\ (forall dev slave, emits no_flag (ata_get_type dev slave))
  /\ (forall fuel b c, emits no_flag (ata_init_device fuel b c))
  /\ (forall fuel, emits no_flag (ata_init fuel))
  /\ (forall fuel a slave lba buff n (s : st) o s',
      ata_read fuel (Some a) slave lba buff n s = (o, s') ->
      guard_shape a (trace s) (trace s'))
  /\ (forall fuel a slave lba buff n (s : st) o s',
      ata_write fuel (Some a) slave lba buff n s = (o, s') ->
      guard_shape a (trace s) (trace s')).
Proof.
  repeat split.
  - intros s o s' E. unfold ata_irq, bind, get_devices, store_wait_irq in E.
    destruct (devices s) as [a|] eqn:Hd.
    + destruct (heap s !! a); inversion E; subst; eauto.
    + inversion E; auto.
  - intros fuel. apply emits_err_check; unfold clears_only; auto.
  - intros fuel a s o s' E. unfold ata_wait_ready in E.
    destruct (bind_inv _ _ _ _ _ E)
      as [([] & s1 & E1 & E2) | [[E1 _] | [E1 _]]].
    + destruct (arm_inv _ _ _ _ E1) as [[_ T1] | [Hf _]]; [|discriminate].
      destruct (wait_ready_rest_clears _ _ _ _ _ E2) as (evs & T2 & F).
      right. exists evs. rewrite T2, T1, <- app_assoc. auto.
    + destruct (arm_inv _ _ _ _ E1) as [[Hr _] | [_ ->]]; [discriminate|auto].
    + destruct (arm_inv _ _ _ _ E1) as [[Hr _] | [Hr _]]; discriminate.
  - intros dev. apply emits_reset; unfold no_flag; auto.
  - intros dev slave. apply emits_get_type; unfold no_flag; auto.
  - intros fuel b c. apply emits_init_device; unfold no_flag; auto.
  - intros fuel. apply emits_init; unfold no_flag; auto.
  - intros fuel a slave lba buff n s o s' E.
    apply (ata_read_guard_shape _ _ _ _ _ _ _ _ _ _ (quiet_wait a) E).
  - intros fuel a slave lba buff n s o s' E.
    apply (ata_write_guard_shape _ _ _ _ _ _ _ _ _ E).
Qed.

(** ** The dead settle branch of [ata_read] *)

Lemma read_sectors_settle_irrelevant (settle1 settle2 : N -> M HW unit)
    fuel n i sectors dev buf pos (s : st) :
  read_sectors settle1 fuel n i sectors dev buf pos s
  = read_sectors settle2 fuel n i sectors dev buf pos s.
Proof.
  revert i buf pos s. induction n as [|k IH]; intros i buf pos s;
    rewrite !read_sectors_unfold.
  - reflexivity.
  - destruct (i <? sectors) eqn:Hlt; [|reflexivity].
    assert (Hge : (sectors <=? i) = false).
    { apply N.leb_gt. apply N.ltb_lt. exact Hlt. }
    rewrite Hge. unfold bind.
    destruct (ata_wait_ready fuel dev s) as [[[]| |] s1]; try reflexivity.
    destruct (ata_has_err dev s1) as [[e| |] s2]; try reflexivity.
    destruct (negb (e =? 0)); [reflexivity|].
    destruct (read_words 256 dev buf pos s2) as [[r| |] s3]; try reflexivity.
    unfold ret. apply IH.
Qed.

(** C7: the call under [i >= sectors] in the sector loop of [ata_read] is
    never executed.  Whatever is put in the place of [ata_wait] there, even
    an action that faults or never returns, the call behaves as [ata_read]:
    same outcome, same buffer, same final state and same log of port
    accesses, for every platform, every fuel and every argument. *)
Theorem ata_read_settle_never_runs (settle : N -> M HW unit) fuel dev slave
    lba buff sectors (s : st) :
  ata_read_with settle fuel dev slave lba buff sectors s
  = ata_read fuel dev slave lba buff sectors s.
Proof.
  unfold ata_read, ata_read_with.
  destruct (is_null dev || is_null buff || (255 <? sectors)); [reflexivity|].
  repeat (apply bind_ext; intros).
  unfold bind. rewrite (read_sectors_settle_irrelevant settle ata_wait).
  reflexivity.
Qed.

(** ** Argument validation *)

(** C3: with a null device, a null buffer or more than 255 sectors,
    [ata_read] and [ata_write] return -1 and leave the whole state as it
    was: the guard is not taken and the log gains no port access.  Each of
    the three violations suffices whatever the other arguments are. *)
Theorem ata_read_write_reject_invalid fuel dev slave lba buff sectors (s : st) :
  dev = NULL \/ buff = None \/ 255 < sectors ->
  ata_read fuel dev slave lba buff sectors s = (Ret ((-1)%Z, buff), s)
  /\ ata_write fuel dev slave lba buff sectors s = (Ret (-1)%Z, s).
Proof.
  intros Hbad.
  assert (Hc : is_null dev || is_null buff || (255 <? sectors) = true).
  { destruct Hbad as [-> | [-> | Hlt]].
    - reflexivity.
    - destruct dev; reflexivity.
    - apply N.ltb_lt in Hlt. rewrite Hlt.
      destruct (is_null dev), (is_null buff); reflexivity. }
  unfold ata_read, ata_read_with, ata_write. rewrite Hc. split; reflexivity.
Qed.

(** ** The interrupt hook *)

(** C9: [ata_irq] stores through the head of the device list without
    looking at it.  With an empty list the store goes through a null
    pointer (undefined behaviour); the hook returns normally exactly when
    the head points to a live device record, whose flag it then clears. *)
Theorem ata_irq_needs_registered_device (s : st) :
  (devices s = NULL -> ata_irq s = (Fault, s))
  /\ (fst (ata_irq s) = Ret tt <->
      exists a d, devices s = Some a /\ heap s !! a = Some d)
  /\ (forall a d, devices s = Some a -> heap s !! a = Some d ->
      ata_irq s = (Ret tt, log (EvFlag a 0)
                     (set_heap (<[a := set_wait_irq 0 d]> (heap s)) s))).
Proof.
  unfold ata_irq, bind, get_devices, store_wait_irq.
  split; [|split].
  - intros ->. reflexivity.
  - destruct (devices s) as [a|] eqn:Hd.
    + destruct (heap s !! a) as [d|] eqn:Hh; simpl.
      * split; [eauto|reflexivity].
      * split; [discriminate|]. intros (a' & d' & Ha & Hd').
        inversion Ha; subst. congruence.
    + simpl. split; [discriminate|]. intros (a' & d' & Ha & _). discriminate.
  - intros a d -> ->. reflexivity.
Qed.

(** ** The width of the sector address *)

Lemma select_byte_wraps slave lba :
  select_byte slave (lba mod 2 ^ 28) = select_byte slave lba.
Proof.
  unfold select_byte. f_equal. apply N.bits_inj. intros i.
  rewrite !N.land_spec, !N.shiftr_spec'.
  destruct (N.lt_ge_cases i 4) as [Hi | Hi].
  - rewrite N.mod_pow2_bits_low by lia. reflexivity.
  - change 15 with (N.ones 4). rewrite N.ones_spec_high by exact Hi.
    rewrite !andb_false_r. reflexivity.
Qed.

Lemma address_byte_wraps lba k :
  k <= 16 -> u8 (N.shiftr (lba mod 2 ^ 28) k) = u8 (N.shiftr lba k).
Proof.
  intros Hk. unfold u8. change 256 with (2 ^ 8).
  apply N.bits_inj. intros i.
  destruct (N.lt_ge_cases i 8) as [Hi | Hi].
  - rewrite !N.mod_pow2_bits_low by exact Hi.
    rewrite !N.shiftr_spec'. apply N.mod_pow2_bits_low. lia.
  - rewrite !N.mod_pow2_bits_high by exact Hi. reflexivity.
Qed.

(** The set-up sends bits 0-27 of [lba] and nothing else of it, and the
    rest of a transfer does not look at [lba]: two sector addresses that
    agree in their low 28 bits are the same address to [ata_read] and to
    [ata_write].  Sector [2^28 + k] is sector [k]. *)
Theorem ata_lba_wraps_at_28_bits fuel dev slave lba lba' buff n (s : st) :
  lba mod 2 ^ 28 = lba' mod 2 ^ 28 ->
  ata_read fuel dev slave lba buff n s = ata_read fuel dev slave lba' buff n s
  /\ ata_write fuel dev slave lba buff n s
     = ata_write fuel dev slave lba' buff n s.
Proof.
  intros Hmod.
  assert (Hsel : N.lor (if truthy slave then 224 else 240)
                   (N.land (N.shiftr lba 24) 15)
                 = N.lor (if truthy slave then 224 else 240)
                     (N.land (N.shiftr lba' 24) 15)).
  { pose proof (select_byte_wraps slave lba) as H1.
    pose proof (select_byte_wraps slave lba') as H2.
    unfold select_byte in H1, H2. rewrite <- H1, <- H2, Hmod. reflexivity. }
  assert (Hb : forall k, k <= 16 ->
            u8 (N.shiftr lba k) = u8 (N.shiftr lba' k)).
  { intros k Hk.
    rewrite <- (address_byte_wraps lba k), <- (address_byte_wraps lba' k),
      Hmod by exact Hk.
    reflexivity. }
  pose proof (Hb 0 ltac:(lia)) as H0. rewrite !N.shiftr_0_r in H0.
  pose proof (Hb 8 ltac:(lia)) as H8.
  pose proof (Hb 16 ltac:(lia)) as H16.
  unfold ata_read, ata_read_with, ata_write.
  rewrite Hsel, H0, H8, H16. split; reflexivity.
Qed.

(** ** The software reset *)

Lemma u8_high x i : 8 <= i -> N.testbit (u8 x) i = false.
Proof.
  intros Hi. unfold u8. change 256 with (2 ^ 8).
  apply N.mod_pow2_bits_high. exact Hi.
Qed.

Lemma u8_bits x : (forall i, 8 <= i -> N.testbit x i = false) -> u8 x = x.
Proof.
  intros Hx. unfold u8. change 256 with (2 ^ 8).
  apply N.bits_inj. intros i.
  destruct (N.lt_ge_cases i 8) as [Hi | Hi].
  - apply N.mod_pow2_bits_low. exact Hi.
  - rewrite N.mod_pow2_bits_high, Hx by exact Hi. reflexivity.
Qed.

(** [ata_reset] of a null pointer does nothing.  Of a live record it reads
    a port, writes the value back with bit 2 set, reads the port again and
    writes that value back with bit 2 clear; it changes no record.  The
    port is the low byte of the record's control port: for a control port
    above 0xff the reset never reaches the register it is meant for. *)
Theorem ata_reset_pulses_low_byte_port a d (s : st) :
  heap s !! a = Some d ->
  ata_reset NULL s = (Ret tt, s)
  /\ exists v1 v2 s',
       ata_reset (Some a) s = (Ret tt, s')
       /\ heap s' = heap s /\ devices s' = devices s
       /\ v1 < 256 /\ v2 < 256
       /\ trace s' = trace s ++
            [ EvInb (ctrl d mod 256) v1;
              EvOutb (ctrl d mod 256) (N.lor v1 4);
              EvInb (ctrl d mod 256) v2;
              EvOutb (ctrl d mod 256) (N.ldiff v2 4) ]
       /\ (256 <= ctrl d -> ctrl d mod 256 <> ctrl d).
Proof.
  intros Hd. split; [reflexivity|].
  unfold ata_reset.
  step ltac:(apply load_live; exact Hd). cbv zeta.
  change (ctrl d + ATA_CTRL_DEVICE_CONTROL) with (ctrl d + 0).
  rewrite N.add_0_r.
  assert (Hp : u16 (u8 (ctrl d)) = ctrl d mod 256).
  { apply u16_small. pose proof (u8_lt (ctrl d)). unfold u8 in *. lia. }
  destruct (plat_inb (u16 (u8 (ctrl d))) (hw s)) as [v1 h1] eqn:E1.
  step ltac:(apply inb_run; exact E1).
  rewrite outb_bind.
  match goal with
  | |- context [bind (inb _) _ ?s2] =>
      destruct (plat_inb (u16 (u8 (ctrl d))) (hw s2)) as [v2 h2] eqn:E2;
      rewrite (bind_ret_run _ _ _ _ _ (inb_run s2 _ _ _ E2))
  end.
  assert (Hlor : u8 (N.lor (u8 v1) 4) = N.lor (u8 v1) 4).
  { apply u8_bits. intros i Hi. rewrite N.lor_spec, u8_high by exact Hi.
    change 4 with (2 ^ 2). rewrite N.pow2_bits_eqb.
    apply N.eqb_neq. lia. }
  assert (Hdiff : u8 (N.ldiff (u8 v2) 4) = N.ldiff (u8 v2) 4).
  { apply u8_bits. intros i Hi. rewrite N.ldiff_spec, u8_high by exact Hi.
    reflexivity. }
  exists (u8 v1), (u8 v2). eexists. split; [reflexivity|].
  state_proj. rewrite Hp, Hlor, Hdiff, <- !app_assoc.
  repeat split; try apply u8_lt.
  intros Hge Heq. pose proof (N.mod_lt (ctrl d) 256 ltac:(discriminate)). lia.
Qed.

(** ** The error-polling pass *)

Lemma store_flag_run (s : st) a d v :
  heap s !! a = Some d ->
  store_wait_irq (Some a) v s
  = (Ret tt, log (EvFlag a v)
               (set_heap (<[a := set_wait_irq v d]> (heap s)) s)).
Proof. intros E. unfold store_wait_irq. rewrite E. reflexivity. Qed.

Lemma linked_flag hp a d v l : forall p,
  hp !! a = Some d -> linked hp p l ->
  linked (<[a := set_wait_irq v d]> hp) p l.
Proof.
  induction l as [|b rest IH]; intros p Hd Hl; [exact Hl|].
  destruct Hl as (-> & db & Hb & Hrest). split; [reflexivity|].
  destruct (decide (b = a)) as [-> | Hne].
  - exists (set_wait_irq v d). rewrite lookup_insert_eq.
    split; [reflexivity|]. apply IH; [exact Hd|].
    rewrite Hd in Hb. inversion Hb; subst. exact Hrest.
  - exists db. rewrite lookup_insert_ne by congruence.
    split; [exact Hb|]. apply IH; assumption.
Qed.

(** One record of the pass: polled only if it waits, its flag cleared
    only if the status it shows has the error bit. *)
Lemma err_check_record {B} a d (k : M HW B) (s : st) :
  heap s !! a = Some d ->
  exists s1,
    ((if truthy (wait_irq d) then
        e <- ata_has_err (Some a) ;;
        if negb (e =? 0) then store_wait_irq (Some a) 0 else ret tt
      else ret tt) ;;; k) s
    = k s1
    /\ devices s1 = devices s /\ devices_cache s1 = devices_cache s
    /\ (heap s1 = heap s
        \/ (truthy (wait_irq d) = true
            /\ heap s1 = <[a := set_wait_irq 0 d]> (heap s)))
    /\ (truthy (wait_irq d) = false -> s1 = s).
Proof.
  intros Hd. destruct (truthy (wait_irq d)) eqn:Hw.
  - unfold ata_has_err.
    destruct (plat_inb (u16 (bus d + ATA_REG_STATUS)) (hw s)) as [v h] eqn:E.
    destruct (negb (N.land (u8 v) ATA_STATUS_ERR =? 0)) eqn:He.
    + eexists. split.
      * step ltac:(step ltac:(step ltac:(apply load_live; exact Hd);
                              step ltac:(apply inb_run; exact E);
                              reflexivity);
                   rewrite He; apply (store_flag_run _ a d); exact Hd).
        reflexivity.
      * cbn [devices devices_cache heap log set_heap set_hw].
        repeat split; auto. discriminate.
    + eexists. split.
      * step ltac:(step ltac:(step ltac:(apply load_live; exact Hd);
                              step ltac:(apply inb_run; exact E);
                              reflexivity);
                   rewrite He; reflexivity).
        reflexivity.
      * cbn [devices devices_cache heap log set_heap set_hw].
        repeat split; auto. discriminate.
  - exists s. split; [reflexivity|]. auto.
Qed.

Lemma err_check_loop_linked l : forall fuel p (s : st),
  linked (heap s) p l -> (length l <= fuel)%nat ->
  exists s',
    err_check_loop fuel p s = (Ret tt, s')
    /\ devices s' = devices s /\ devices_cache s' = devices_cache s
    /\ (forall b,
          heap s' !! b = heap s !! b
          \/ exists d, b ∈ l /\ heap s !! b = Some d
                       /\ truthy (wait_irq d) = true
                       /\ heap s' !! b = Some (set_wait_irq 0 d))
    /\ ((forall b d, b ∈ l -> heap s !! b = Some d -> wait_irq d = 0%Z)
        -> s' = s).
Proof.
  induction l as [|a rest IH]; intros fuel p s Hl Hfuel.
  - cbn in Hl. subst p. exists s. destruct fuel; repeat split; auto.
  - destruct Hl as (-> & d & Hd & Hrest).
    destruct fuel as [|f]; [cbn in Hfuel; lia|].
    cbn [err_check_loop].
    step ltac:(apply load_live; exact Hd).
    destruct (err_check_record a d
                (dv' <- load (Some a) ;; err_check_loop f (next dv')) s Hd)
      as (s1 & E1 & Hdev1 & Hcache1 & Hheap1 & Hidle1).
    rewrite E1.
    assert (Hd1 : exists d1, heap s1 !! a = Some d1 /\ next d1 = next d
                             /\ (d1 = d \/ (truthy (wait_irq d) = true
                                            /\ d1 = set_wait_irq 0 d))).
    { destruct Hheap1 as [-> | [Hw ->]].
      - exists d. auto.
      - exists (set_wait_irq 0 d). rewrite lookup_insert_eq. auto. }
    destruct Hd1 as (d1 & Hd1 & Hnext & Hcase).
    step ltac:(apply load_live; exact Hd1). rewrite Hnext.
    destruct (IH f (next d) s1) as (s' & E & Hdev & Hcache & Hrec & Hidle).
    { destruct Hheap1 as [-> | [Hw ->]]; [exact Hrest|].
      apply linked_flag; assumption. }
    { cbn in Hfuel. lia. }
    exists s'. split; [exact E|].
    split; [congruence|]. split; [congruence|]. split.
    + intros b. destruct (Hrec b) as [Hsame | (db & Hin & Hb & Hw & Hb')].
      * rewrite Hsame. destruct Hheap1 as [-> | [Hw ->]]; [auto|].
        destruct (decide (b = a)) as [-> | Hne].
        -- right. exists d. rewrite lookup_insert_eq.
           repeat split; auto. apply list_elem_of_here.
        -- left. apply lookup_insert_ne. congruence.
      * right. destruct Hheap1 as [Hh | [Hw1 Hh]]; rewrite Hh in Hb.
        -- exists db. repeat split; auto. apply list_elem_of_further, Hin.
        -- destruct (decide (b = a)) as [-> | Hne].
           ++ rewrite lookup_insert_eq in Hb. inversion Hb; subst db.
              discriminate Hw.
           ++ rewrite lookup_insert_ne in Hb by congruence.
              exists db. repeat split; auto.
              apply list_elem_of_further, Hin.
    + intros Hall.
      assert (Hs1 : s1 = s).
      { apply Hidle1. rewrite (Hall a d (list_elem_of_here _ _) Hd).
        reflexivity. }
      subst s1. apply Hidle. intros b db Hin.
      apply Hall. apply list_elem_of_further, Hin.
Qed.

(** [ata_err_check] ends on every NULL-terminated device list, the empty
    one included.  It leaves the list head and the pool alone and changes
    no record, except that it may clear the flag of a record of the list
    that was waiting.  When no record of the list is waiting it does
    nothing at all: no port is read. *)
Theorem ata_err_check_walks_the_list fuel l (s : st) :
  linked (heap s) (devices s) l -> (length l <= fuel)%nat ->
  exists s',
    ata_err_check fuel s = (Ret tt, s')
    /\ devices s' = devices s /\ devices_cache s' = devices_cache s
    /\ (forall b,
          heap s' !! b = heap s !! b
          \/ exists d, b ∈ l /\ heap s !! b = Some d
                       /\ truthy (wait_irq d) = true
                       /\ heap s' !! b = Some (set_wait_irq 0 d))
    /\ ((forall b d, b ∈ l -> heap s !! b = Some d -> wait_irq d = 0%Z)
        -> s' = s).
Proof.
  intros Hl Hfuel. unfold ata_err_check.
  step ltac:(reflexivity).
  apply err_check_loop_linked; assumption.
Qed.

(** ** The identify sequence *)

Lemma words_in_app t1 t2 : words_in (t1 ++ t2) = words_in t1 ++ words_in t2.
Proof.
  induction t1 as [|e t IH]; [reflexivity|].
  destruct e; cbn [app words_in]; rewrite IH; reflexivity.
Qed.

Lemma words_out_app t1 t2 :
  words_out (t1 ++ t2) = words_out t1 ++ words_out t2.
Proof.
  induction t1 as [|e t IH]; [reflexivity|].
  destruct e; cbn [app words_out]; rewrite IH; reflexivity.
Qed.

Lemma no_data_no_words t :
  Forall no_data t -> words_in t = [] /\ words_out t = [].
Proof.
  induction 1 as [|e t He _ [IH1 IH2]]; [split; reflexivity|].
  destruct e; try discriminate He; cbn [words_in words_out]; auto.
Qed.

Lemma emits_no_data_words {A} (m : M HW A) (s s' : st) o :
  emits no_data m -> m s = (o, s') ->
  words_in (trace s') = words_in (trace s)
  /\ words_out (trace s') = words_out (trace s).
Proof.
  intros Hm E. destruct (Hm _ _ _ E) as (evs & T & F).
  destruct (no_data_no_words _ F) as [Hi Ho].
  rewrite T, words_in_app, words_out_app, Hi, Ho, !app_nil_r. auto.
Qed.

Lemma inb_no_data port : emits no_data (inb port).
Proof. apply emits_inb. reflexivity. Qed.

Lemma identify_words_ret n b : forall (s s' : st) ws,
  identify_words n b s = (Ret ws, s') ->
  length ws = n /\ Forall (fun w => w < 65536) ws
  /\ words_in (trace s') = words_in (trace s) ++ ws
  /\ words_out (trace s') = words_out (trace s).
Proof.
  induction n as [|k IH]; intros s s' ws E; cbn [identify_words] in E.
  - inversion E; subst. rewrite app_nil_r. auto.
  - apply bind_ret_inv in E. destruct E as (w & s1 & E1 & E).
    apply bind_ret_inv in E. destruct E as (ws' & s2 & E2 & E).
    inversion E; subst. clear E.
    unfold inw in E1. destruct (plat_inw _ _) as [v h]. inversion E1; subst.
    apply IH in E2. destruct E2 as (Hlen & Hall & Hin & Hout).
    cbn [trace log set_hw] in Hin, Hout.
    rewrite words_in_app in Hin. rewrite words_out_app in Hout.
    cbn [words_in words_out] in Hin, Hout.
    rewrite <- app_assoc in Hin. rewrite app_nil_r in Hout.
    split; [cbn; lia|]. split; [|auto].
    constructor; [apply u16_lt|exact Hall].
Qed.

(** What [ata_identify] has done when it returns.  It changed none of the
    driver's own data.  It started with six byte writes: the drive select
    (0xa0 for a non-zero [slave], 0xb0 otherwise), zero to the sector
    count, sector number and both cylinder registers, and the identify
    command.  It returns 1 with a payload of exactly 256 sixteen-bit
    words, the words it read from the data port in that order, or it
    returns 0 with no word read at all.  It never writes a word. *)
Theorem ata_identify_result fuel b slave (s s' : st) r data :
  ata_identify fuel b slave s = (Ret (r, data), s') ->
  heap s' = heap s /\ devices s' = devices s
  /\ devices_cache s' = devices_cache s
  /\ (exists io,
        trace s' = trace s ++
          [ EvOutb (u16 (b + ATA_REG_DRIVE))
              (if truthy slave then 0xa0 else 0xb0);
            EvOutb (u16 (b + ATA_REG_SECTOR_COUNT)) 0;
            EvOutb (u16 (b + ATA_REG_SECTOR_NUMBER)) 0;
            EvOutb (u16 (b + ATA_REG_CYLINDER_LOW)) 0;
            EvOutb (u16 (b + ATA_REG_CYLINDER_HIGH)) 0;
            EvOutb (u16 (b + ATA_REG_COMMAND)) ATA_CMD_IDENTIFY ] ++ io)
  /\ words_in (trace s') = words_in (trace s) ++ data
  /\ words_out (trace s') = words_out (trace s)
  /\ ((r = 1%Z /\ length data = 256%nat
       /\ Forall (fun w => w < 65536) data)
      \/ (r = 0%Z /\ data = [])).
Proof.
  intros E.
  assert (Hown : heap s' = heap s /\ devices s' = devices s
                 /\ devices_cache s' = devices_cache s).
  { destruct (port_only_identify fuel b slave s s eq_refl)
      as (o & h & evs & E0 & _).
    rewrite E in E0. inversion E0. auto. }
  destruct Hown as (Hh & Hdv & Hdc).
  split; [exact Hh|]. split; [exact Hdv|]. split; [exact Hdc|].
  clear Hh Hdv Hdc.
  unfold ata_identify, ata_select_drive, ata_command in E.
  rewrite !outb_bind in E.
  match type of E with
  | _ ?s6 = _ =>
      assert (T6 : exists h6,
                s6 = frame s h6
                  [ EvOutb (u16 (b + ATA_REG_DRIVE))
                      (if truthy slave then 0xa0 else 0xb0);
                    EvOutb (u16 (b + ATA_REG_SECTOR_COUNT)) 0;
                    EvOutb (u16 (b + ATA_REG_SECTOR_NUMBER)) 0;
                    EvOutb (u16 (b + ATA_REG_CYLINDER_LOW)) 0;
                    EvOutb (u16 (b + ATA_REG_CYLINDER_HIGH)) 0;
                    EvOutb (u16 (b + ATA_REG_COMMAND)) ATA_CMD_IDENTIFY ])
        by (destruct (truthy slave); eexists; unfold frame; state_proj;
            rewrite <- !app_assoc; reflexivity);
      destruct T6 as [h6 T6]; rewrite T6 in E; clear T6
  end.
  match type of E with
  | ?k ?s0 = _ =>
      assert (G : emits any_event k)
        by (apply emits_bind; [apply emits_inb; intros; exact I|]; intros st0;
            destruct (st0 =? 0); [apply emits_ret|];
            apply emits_bind;
              [apply emits_identify_busy_loop; intros; exact I|]; intros _;
            apply emits_bind; [apply emits_inb; intros; exact I|]; intros cl;
            apply emits_bind;
              [destruct (negb (cl =? 0)); [apply emits_ret|];
               apply emits_bind; [apply emits_inb; intros; exact I|]; intros ch;
               apply emits_ret|];
            intros [|]; [apply emits_ret|];
            apply emits_bind;
              [apply emits_identify_status_loop; intros; exact I|]; intros st1;
            destruct (negb (N.land st1 ATA_STATUS_ERR =? 0));
              [apply emits_ret|];
            apply emits_bind;
              [apply emits_identify_words; intros; exact I|]; intros ws;
            apply emits_ret);
      destruct (G _ _ _ E) as (io & Tio & _); clear G;
      set (s6 := s0) in *
  end.
  assert (W6 : words_in (trace s6) = words_in (trace s)
               /\ words_out (trace s6) = words_out (trace s)).
  { unfold s6, frame. cbn [trace].
    rewrite words_in_app, words_out_app. cbn [words_in words_out].
    rewrite !app_nil_r. auto. }
  destruct W6 as [Wi6 Wo6].
  split.
  { exists io. rewrite Tio. unfold s6, frame. cbn [trace].
    rewrite <- app_assoc. reflexivity. }
  rewrite <- Wi6, <- Wo6. clear Wi6 Wo6 Tio io. clearbody s6.
  apply bind_ret_inv in E. destruct E as (st0 & s7 & E7 & E).
  destruct (emits_no_data_words _ _ _ _ (inb_no_data _) E7) as [Wi7 Wo7].
  rewrite <- Wi7, <- Wo7. clear Wi7 Wo7 E7.
  destruct (st0 =? 0).
  { inversion E; subst. rewrite app_nil_r. auto. }
  apply bind_ret_inv in E. destruct E as ([] & s8 & E8 & E).
  assert (Hbusy : emits no_data (identify_busy_loop fuel b))
    by (apply emits_identify_busy_loop; reflexivity).
  destruct (emits_no_data_words _ _ _ _ Hbusy E8) as [Wi8 Wo8].
  rewrite <- Wi8, <- Wo8. clear Wi8 Wo8 E8 Hbusy.
  apply bind_ret_inv in E. destruct E as (cl & s9 & E9 & E).
  destruct (emits_no_data_words _ _ _ _ (inb_no_data _) E9) as [Wi9 Wo9].
  rewrite <- Wi9, <- Wo9. clear Wi9 Wo9 E9.
  apply bind_ret_inv in E. destruct E as (nonzero & s10 & E10 & E).
  assert (W10 : words_in (trace s10) = words_in (trace s9)
                /\ words_out (trace s10) = words_out (trace s9)).
  { destruct (negb (cl =? 0)); [inversion E10; subst; auto|].
    apply bind_ret_inv in E10. destruct E10 as (ch & s10' & E10 & E10').
    inversion E10'; subst.
    apply (emits_no_data_words _ _ _ _ (inb_no_data _) E10). }
  destruct W10 as [Wi10 Wo10]. rewrite <- Wi10, <- Wo10.
  clear Wi10 Wo10 E10.
  destruct nonzero.
  { inversion E; subst. rewrite app_nil_r. auto. }
  apply bind_ret_inv in E. destruct E as (st1 & s11 & E11 & E).
  assert (Hstat : emits no_data (identify_status_loop fuel b))
    by (apply emits_identify_status_loop; reflexivity).
  destruct (emits_no_data_words _ _ _ _ Hstat E11) as [Wi11 Wo11].
  rewrite <- Wi11, <- Wo11. clear Wi11 Wo11 E11 Hstat.
  destruct (negb (N.land st1 ATA_STATUS_ERR =? 0)).
  { inversion E; subst. rewrite app_nil_r. auto. }
  apply bind_ret_inv in E. destruct E as (ws & s12 & E12 & E).
  inversion E; subst. clear E.
  apply identify_words_ret in E12.
  destruct E12 as (Hlen & Hall & Hin & Hout). auto 10.
Qed.

Lemma identify_busy_loop_stuck (stuck : HW -> Prop) b :
  (forall h, stuck h ->
     stuck (snd (plat_inb (u16 (b + ATA_REG_STATUS)) h))
     /\ N.land (u8 (fst (plat_inb (u16 (b + ATA_REG_STATUS)) h)))
          ATA_STATUS_BSY <> 0) ->
  forall fuel (s : st), stuck (hw s) ->
    exists s', identify_busy_loop fuel b s = (Spin, s').
Proof.
  intros Hstuck. induction fuel as [|f IH]; intros s Hs;
    destruct (Hstuck _ Hs) as [Hnext Hbusy];
    cbn [identify_busy_loop]; unfold ata_is_busy;
    destruct (plat_inb (u16 (b + ATA_REG_STATUS)) (hw s)) as [v h] eqn:E;
    cbn [fst snd] in Hnext, Hbusy; apply N.eqb_neq in Hbusy;
    (step ltac:(step ltac:(apply inb_run; exact E); reflexivity));
    rewrite Hbusy; cbn [negb].
  - eexists. reflexivity.
  - apply IH. exact Hnext.
Qed.

(** [ata_identify] polls the busy bit in a loop that has no bound and
    does not give up the processor: on a controller that answers the
    command by keeping the busy bit set, the call is still polling after
    any number of status reads, and it has not called [kernel_wait]. *)
Theorem ata_identify_polls_without_bound (stuck : HW -> Prop) fuel b slave
    (s : st) :
  (forall h, stuck h ->
     stuck (snd (plat_inb (u16 (b + ATA_REG_STATUS)) h))
     /\ N.land (u8 (fst (plat_inb (u16 (b + ATA_REG_STATUS)) h)))
          ATA_STATUS_BSY <> 0) ->
  stuck (setup_identify_hw b slave (hw s)) ->
  exists s' io,
    ata_identify fuel b slave s = (Spin, s')
    /\ trace s' = trace s ++ io
    /\ Forall (fun e => e <> EvYield) io.
Proof.
  intros Hstuck Hs.
  assert (Hspin : exists s', ata_identify fuel b slave s = (Spin, s')).
  { unfold ata_identify, ata_select_drive, ata_command.
    rewrite !outb_bind.
    match goal with
    | |- context [bind (inb _) _ ?s6] =>
        assert (H6 : stuck (hw s6)) by exact Hs;
        destruct (Hstuck _ H6) as [Hnext Hbusy];
        destruct (plat_inb (u16 (b + ATA_REG_STATUS)) (hw s6))
          as [v h] eqn:E;
        cbn [fst snd] in Hnext, Hbusy;
        rewrite (bind_ret_run _ _ _ _ _ (inb_run s6 _ _ _ E))
    end.
    assert (Hnz : (u8 v =? 0) = false).
    { apply N.eqb_neq. intros Hz. rewrite Hz in Hbusy. apply Hbusy.
      reflexivity. }
    rewrite Hnz.
    match goal with
    | |- context [bind (identify_busy_loop fuel b) _ ?s7] =>
        destruct (identify_busy_loop_stuck stuck b Hstuck fuel s7 Hnext)
          as [s' E']
    end.
    exists s'. apply bind_spin_run. exact E'. }
  destruct Hspin as [s' E]. exists s'.
  assert (Hem : emits (fun e => e <> EvYield) (ata_identify fuel b slave))
    by (apply emits_identify; discriminate).
  destruct (Hem _ _ _ E) as (io & T & F).
  exists io. auto.
Qed.

(** ** A successful bring-up *)

Lemma land_bit x k : (N.land x (2 ^ k) =? 0) = negb (N.testbit x k).
Proof.
  destruct (N.testbit x k) eqn:Hk; cbn [negb].
  - apply N.eqb_neq. intros Hz.
    assert (Hbit : N.testbit (N.land x (2 ^ k)) k = true)
      by (rewrite N.land_spec, Hk, N.pow2_bits_true; reflexivity).
    rewrite Hz, N.bits_0 in Hbit. discriminate.
  - apply N.eqb_eq. apply N.bits_inj. intros i.
    rewrite N.land_spec, N.pow2_bits_eqb, N.bits_0.
    destruct (N.eqb_spec k i) as [<- | Hne].
    + rewrite Hk. reflexivity.
    + apply andb_false_r.
Qed.

Lemma printf_bind {B} (k : M HW B) (s : st) fmt args :
  (printf fmt args ;;; k) s = k (log (EvPrintf fmt args) s).
Proof. reflexivity. Qed.

(** The record [ata_init_device] leaves behind. *)
Lemma fresh_record b c :
  set_ctrl c (set_bus b zero_device) = mk_device NULL b c 0 0.
Proof. reflexivity. Qed.

Lemma init_device_success_run fuel busp ctrlp a rest v h1 h2 io data
    (s : st) :
  devices_cache s = Some (a :: rest) ->
  plat_inb (u16 (u16 busp + ATA_REG_STATUS)) (hw s) = (v, h1) ->
  u8 v <> 0xff ->
  ata_identify fuel (u16 busp) 0 (set_hw h1 s)
  = (Ret (1%Z, data), frame (set_hw h1 s) h2 io) ->
  ata_init_device fuel busp ctrlp s
  = (Ret (Some a),
     mk_state (<[a := mk_device NULL (u16 busp) (u16 ctrlp) 0 0]> (heap s))
       (devices s) (Some rest) h2
       (trace s ++
          [EvAlloc a; EvInb (u16 (u16 busp + ATA_REG_STATUS)) (u8 v)]
          ++ io ++ bringup_messages data)).
Proof.
  intros Hc Hin Hnf Hid.
  unfold ata_init_device. cbv zeta.
  step ltac:(apply cache_alloc_run; exact Hc).
  cbv iota beta.
  rewrite (init_device_prologue _ _ _ _ _ _ _ _ Hc Hin).
  apply N.eqb_neq in Hnf. rewrite Hnf. cbv iota.
  match goal with
  | |- context [bind (ata_identify _ _ _) _ ?s3] =>
      destruct (port_only_identify fuel (u16 busp) 0 (set_hw h1 s) s3
                  eq_refl)
        as (o & h2' & io' & Erun1 & Erun3)
  end.
  rewrite Hid in Erun1. unfold frame in Erun1.
  inversion Erun1 as [[Ho Hh2 Hio]]. subst o h2'.
  apply app_inv_head in Hio. subst io'.
  step ltac:(exact Erun3).
  cbn [fst snd]. change (1 =? 0)%Z with false. cbv iota.
  unfold ata_supports_lba48. change 1024 with (2 ^ 10).
  rewrite land_bit, negb_involutive.
  rewrite fresh_record. unfold frame, bringup_messages.
  cbn [heap devices devices_cache trace].
  destruct (ata_lba28_sectors data =? 0);
    destruct (N.testbit (nth 83 data 0) 10); cbn [negb];
    repeat (rewrite printf_bind || (step ltac:(reflexivity)));
    unfold ret; f_equal; state_proj; rewrite <- ?app_assoc;
    reflexivity.
Qed.

(** When a slot is free, the status register does not read as all-ones
    and the identify sequence returns 1, [ata_init_device] returns the
    slot.  The record in it holds the two port numbers cut to 16 bits, a
    null [next], a free guard and a clear flag; the call does not link it
    into the device list.  After the port traffic the log shows the
    sector count from words 60 and 61 of the payload if it is not zero,
    the LBA48 line if bit 10 of word 83 is set, and the size in bytes
    computed in 32 bits: for [2^23] sectors or more the number printed is
    not the size. *)
Theorem ata_init_device_registers fuel busp ctrlp a rest v h1 data
    (s s2 : st) :
  devices_cache s = Some (a :: rest) ->
  plat_inb (u16 (u16 busp + ATA_REG_STATUS)) (hw s) = (v, h1) ->
  u8 v <> 0xff ->
  ata_identify fuel (u16 busp) 0 (set_hw h1 s) = (Ret (1%Z, data), s2) ->
  exists s' io,
    ata_init_device fuel busp ctrlp s = (Ret (Some a), s')
    /\ heap s' = <[a := mk_device NULL (u16 busp) (u16 ctrlp) 0 0]> (heap s)
    /\ devices s' = devices s
    /\ devices_cache s' = Some rest
    /\ hw s' = hw s2
    /\ trace s2 = trace s ++ io
    /\ trace s' = trace s ++
         [EvAlloc a; EvInb (u16 (u16 busp + ATA_REG_STATUS)) (u8 v)] ++ io
         ++ (if ata_lba28_sectors data =? 0 then []
             else [EvPrintf ("ATA LBA28 sectors: %u" +:+ nl)
                     [ata_lba28_sectors data]])
         ++ (if N.testbit (nth 83 data 0) 10
             then [EvPrintf ("ATA LBA48 supported" +:+ nl) []]
             else [])
         ++ [ EvPrintf ("ATA disk size: %u bytes" +:+ nl)
                [(ata_lba28_sectors data * 512) mod 2 ^ 32];
              EvPrintf ("ATA initialized!" +:+ nl) [] ]
    /\ (2 ^ 23 <= ata_lba28_sectors data ->
        (ata_lba28_sectors data * 512) mod 2 ^ 32
        <> ata_lba28_sectors data * 512).
Proof.
  intros Hc Hin Hnf Hid.
  destruct (port_only_identify fuel (u16 busp) 0 (set_hw h1 s)
              (set_hw h1 s) eq_refl)
    as (o & h2 & io & Erun & _).
  rewrite Hid in Erun. inversion Erun as [[Ho Hs2]]. clear Erun Ho o.
  rewrite Hs2 in Hid.
  eexists. exists io. split.
  - apply (init_device_success_run _ _ _ _ _ _ _ _ _ _ _ Hc Hin Hnf Hid).
  - cbn [heap devices devices_cache hw trace]. unfold frame, set_hw.
    cbn [hw trace]. unfold bringup_messages. repeat split.
    intros Hbig. pose proof (N.mod_lt (ata_lba28_sectors data * 512) (2 ^ 32)
                               ltac:(discriminate)).
    change (2 ^ 23) with 8388608 in Hbig.
    change (2 ^ 32) with 4294967296 in *. lia.
Qed.

(** ** What [ata_init] establishes *)

Lemma init_device_drop a rest m (h : HW) t msg (s : st) :
  (printf msg [] ;;; cache_free (Some a) ;;; ret NULL)
    (mk_state (<[a := m]> (heap s)) (devices s) (Some rest) h t)
  = (Ret NULL,
     mk_state (delete a (heap s)) (devices s) (Some (a :: rest)) h
       (t ++ [EvPrintf msg []; EvFree a])).
Proof.
  unfold printf, emit.
  step ltac:(reflexivity).
  step ltac:(apply cache_free_run; reflexivity).
  unfold ret. f_equal. state_proj.
  rewrite delete_insert_eq, <- app_assoc. reflexivity.
Qed.

(** The two ways [ata_init_device] returns: NULL with the pool as it was
    and no record added, or a slot of the pool with a fresh record. *)
Lemma init_device_inv fuel busp ctrlp (s s' : st) p :
  ata_init_device fuel busp ctrlp s = (Ret p, s') ->
  devices s' = devices s
  /\ ((p = NULL /\ devices_cache s' = devices_cache s
       /\ (heap s' = heap s
           \/ exists a rest, devices_cache s = Some (a :: rest)
                             /\ heap s' = delete a (heap s)))
      \/ exists a rest,
           p = Some a /\ devices_cache s = Some (a :: rest)
           /\ devices_cache s' = Some rest
           /\ heap s'
              = <[a := mk_device NULL (u16 busp) (u16 ctrlp) 0 0]> (heap s)).
Proof.
  intros E. unfold ata_init_device in E. cbv zeta in E.
  destruct (devices_cache s) as [[|a rest]|] eqn:Hc.
  - unfold bind, cache_alloc in E. rewrite Hc in E.
    inversion E; subst. auto 6.
  - rewrite (bind_ret_run _ _ _ _ _ (cache_alloc_run _ _ _ Hc)) in E.
    cbv iota beta in E.
    destruct (plat_inb (u16 (u16 busp + ATA_REG_STATUS)) (hw s))
      as [v h1] eqn:Hin.
    rewrite (init_device_prologue _ _ _ _ _ _ _ _ Hc Hin) in E.
    destruct (u8 v =? 255).
    { rewrite init_device_drop in E. inversion E; subst.
      cbn [heap devices devices_cache]. split; [reflexivity|]. left.
      eauto 8. }
    match type of E with
    | context [bind (ata_identify _ _ _) _ ?s3] =>
        destruct (port_only_identify fuel (u16 busp) 0 s3 s3 eq_refl)
          as (o & h2 & io & Erun & _)
    end.
    destruct o as [[r data]| |];
      [|rewrite (bind_fault_run _ _ _ _ Erun) in E; discriminate
       |rewrite (bind_spin_run _ _ _ _ Erun) in E; discriminate].
    rewrite (bind_ret_run _ _ _ _ _ Erun) in E. cbn [fst snd] in E.
    unfold frame in E. cbn [heap devices devices_cache trace] in E.
    destruct (r =? 0)%Z.
    { rewrite init_device_drop in E. inversion E; subst.
      cbn [heap devices devices_cache]. split; [reflexivity|]. left.
      eauto 8. }
    rewrite fresh_record in E.
    assert (Hs' : p = Some a
                  /\ heap s'
                     = <[a := mk_device NULL (u16 busp) (u16 ctrlp) 0 0]>
                         (heap s)
                  /\ devices s' = devices s /\ devices_cache s' = Some rest).
    { destruct (negb (ata_lba28_sectors data =? 0));
        destruct (negb (ata_supports_lba48 data =? 0));
        repeat (rewrite printf_bind in E
                || rewrite (bind_ret_run _ _ _ _ _ eq_refl) in E);
        inversion E; subst; auto. }
    destruct Hs' as (-> & Hh & Hdv & Hdc).
    split; [exact Hdv|]. right. exists a, rest. auto.
  - unfold bind, cache_alloc in E. rewrite Hc in E. discriminate.
Qed.

(** When the pool cannot be created [ata_init] changes nothing but the
    pool pointer: no port is touched and the device list stays as it was.
    Otherwise, when it returns, the list head has been overwritten with
    the result of the one bring-up at the primary ports: the list is
    empty, or it is a single record at ports 0x1f0 and 0x3f6 with a null
    [next], a free guard and a clear flag. *)
Theorem ata_init_result fuel (s s' : st) :
  ata_init fuel s = (Ret tt, s') ->
  (plat_cache_create (hw s) = None -> s' = set_devices_cache None s)
  /\ (forall slots, plat_cache_create (hw s) = Some slots ->
        (devices s' = NULL /\ devices_cache s' = Some slots
         /\ (heap s' = heap s
             \/ exists a rest, slots = a :: rest
                               /\ heap s' = delete a (heap s)))
        \/ exists a rest,
             slots = a :: rest
             /\ devices s' = Some a
             /\ devices_cache s' = Some rest
             /\ heap s'
                = <[a := mk_device NULL ATA_PRIMARY_BUS ATA_PRIMARY_CTRL 0 0]>
                    (heap s)
             /\ linked (heap s') (devices s') [a]).
Proof.
  intros E. unfold ata_init in E. cbv zeta in E.
  destruct (plat_cache_create (hw s)) as [slots|] eqn:Hc.
  - split; [discriminate|]. intros slots' [= <-].
    apply bind_ret_inv in E. destruct E as (p & s1 & E1 & E).
    apply init_device_inv in E1.
    unfold put_devices in E. inversion E; subst s'. clear E.
    cbn [devices devices_cache heap set_devices set_devices_cache] in *.
    destruct E1 as (_ & [(-> & Hdc & Hh) | (a & rest & -> & Hsl & Hdc & Hh)]).
    + left. split; [reflexivity|]. split; [exact Hdc|].
      destruct Hh as [Hh | (a & rest & [= ->] & Hh)]; eauto.
    + right. inversion Hsl; subst slots. exists a, rest.
      repeat split; try assumption.
      eexists. rewrite Hh, lookup_insert_eq. split; reflexivity.
  - inversion E; subst. split; [reflexivity|]. discriminate.
Qed.

(** ** How a wait ends *)

Lemma wait_loop_unfold fuel dev :
  wait_ready_loop fuel dev
  = (d <- load dev ;;
     again <- (if truthy (wait_irq d) then
                 r <- ata_is_ready (bus d) ;; ret (r =? 0)
               else ret false) ;;
     if again : bool then
       match fuel with
       | O => (spin : M HW unit)
       | S f => kernel_wait f ;;; wait_ready_loop f dev
       end
     else ret tt).
Proof. destruct fuel; reflexivity. Qed.

Lemma is_ready_run (s : st) b v h :
  plat_inb (u16 (b + ATA_REG_STATUS)) (hw s) = (v, h) ->
  (r <- ata_is_ready b ;; ret (r =? 0)) s
  = (Ret (N.land (u8 v) ATA_STATUS_RDY =? 0),
     log (EvInb (u16 (b + ATA_REG_STATUS)) (u8 v)) (set_hw h s)).
Proof.
  intros E. unfold ata_is_ready.
  step ltac:(step ltac:(apply inb_run; exact E); reflexivity).
  reflexivity.
Qed.

Lemma flag_twice v w d : set_wait_irq v (set_wait_irq w d) = set_wait_irq v d.
Proof. reflexivity. Qed.

(** When the first status read of [ata_wait_ready] shows the ready bit,
    the wait is over at once: the flag is set, the status is read once,
    the flag is cleared, and [kernel_wait] is not called, whatever the
    controller would have done next. *)
Theorem ata_wait_ready_ready_at_once fuel a d v h1 (s : st) :
  heap s !! a = Some d ->
  plat_inb (u16 (bus d + ATA_REG_STATUS)) (hw s) = (v, h1) ->
  N.land (u8 v) ATA_STATUS_RDY <> 0 ->
  ata_wait_ready fuel (Some a) s
  = (Ret tt,
     mk_state (<[a := set_wait_irq 0 d]> (heap s)) (devices s)
       (devices_cache s) h1
       (trace s ++
          [ EvFlag a 1; EvInb (u16 (bus d + ATA_REG_STATUS)) (u8 v);
            EvFlag a 0 ])).
Proof.
  intros Hd Hin Hrdy. apply N.eqb_neq in Hrdy.
  unfold ata_wait_ready.
  step ltac:(apply (store_flag_run _ a d); exact Hd).
  rewrite wait_loop_unfold.
  step ltac:(step ltac:(apply load_live; state_proj; apply lookup_insert_eq);
             cbn [wait_irq bus set_wait_irq truthy Z.eqb negb];
             step ltac:(apply is_ready_run; state_proj; exact Hin);
             rewrite Hrdy; reflexivity).
  rewrite (store_flag_run _ a (set_wait_irq 1 d))
    by (state_proj; apply lookup_insert_eq).
  f_equal. state_proj.
  rewrite insert_insert_eq, flag_twice, <- !app_assoc. reflexivity.
Qed.

(** When the first status read does not show the ready bit,
    [ata_wait_ready] sleeps; if the interrupt hook runs meanwhile and the
    device is the head of the device list, the wait is over when the
    sleeper resumes.  The status register is not read again: the call
    returns without having seen the controller ready. *)
Theorem ata_wait_ready_ends_at_interrupt fuel a d v h1 h2 (s : st) :
  heap s !! a = Some d -> devices s = Some a ->
  plat_inb (u16 (bus d + ATA_REG_STATUS)) (hw s) = (v, h1) ->
  N.land (u8 v) ATA_STATUS_RDY = 0 ->
  plat_wait h1 = ([IrqHook], h2) ->
  ata_wait_ready (S fuel) (Some a) s
  = (Ret tt,
     mk_state (<[a := set_wait_irq 0 d]> (heap s)) (devices s)
       (devices_cache s) h2
       (trace s ++
          [ EvFlag a 1; EvInb (u16 (bus d + ATA_REG_STATUS)) (u8 v);
            EvYield; EvFlag a 0; EvFlag a 0 ])).
Proof.
  intros Hd Hhead Hin Hrdy Hwait. apply N.eqb_eq in Hrdy.
  unfold ata_wait_ready.
  step ltac:(apply (store_flag_run _ a d); exact Hd).
  rewrite wait_loop_unfold.
  step ltac:(step ltac:(apply load_live; state_proj; apply lookup_insert_eq);
             cbn [wait_irq bus set_wait_irq truthy Z.eqb negb];
             step ltac:(apply is_ready_run; state_proj; exact Hin);
             rewrite Hrdy;
             step ltac:(unfold kernel_wait; state_proj; rewrite Hwait;
                        cbn [run_hooks run_hook]; unfold ata_irq;
                        step ltac:(step ltac:(reflexivity);
                                   state_proj; rewrite Hhead;
                                   apply (store_flag_run _ a
                                            (set_wait_irq 1 d));
                                   state_proj; apply lookup_insert_eq);
                        reflexivity);
             rewrite wait_loop_unfold;
             step ltac:(apply load_live; state_proj;
                        apply lookup_insert_eq);
             cbn [wait_irq set_wait_irq truthy Z.eqb negb];
             step ltac:(reflexivity); reflexivity).
  rewrite (store_flag_run _ a (set_wait_irq 0 (set_wait_irq 1 d)))
    by (state_proj; apply lookup_insert_eq).
  f_equal. state_proj.
  rewrite ?Hhead, !insert_insert_eq, !flag_twice, <- !app_assoc.
  reflexivity.
Qed.

(** ** The words of a transfer *)

Ltac quiet_tac :=
  first [ apply emits_spin_lock | apply emits_spin_unlock
        | apply emits_dev_bus | apply emits_dev_ctrl | apply emits_outb
        | apply emits_command | apply emits_has_err
        | apply emits_wait_ready | apply emits_ret ];
  intros; reflexivity.

(** Peel the first action off a run that returned, when that action
    moves no word. *)
Ltac quiet_step E :=
  apply bind_ret_inv in E;
  let x := fresh "x" in
  let s1 := fresh "s" in
  let E1 := fresh "E" in
  destruct E as (x & s1 & E1 & E);
  match type of E1 with
  | ?m _ = _ =>
      let Hq := fresh "Hq" in
      let Wi := fresh "Wi" in
      let Wo := fresh "Wo" in
      assert (Hq : emits no_data m) by quiet_tac;
      destruct (emits_no_data_words _ _ _ _ Hq E1) as [Wi Wo];
      rewrite <- ?Wi, <- ?Wo; clear Hq Wi Wo
  end.

(** The same for an action that follows the part [Hin] and [Hout] speak
    about. *)
Ltac quiet_tail E Hin Hout :=
  apply bind_ret_inv in E;
  let x := fresh "x" in
  let s1 := fresh "s" in
  let E1 := fresh "E" in
  destruct E as (x & s1 & E1 & E);
  match type of E1 with
  | ?m _ = _ =>
      let Hq := fresh "Hq" in
      let Wi := fresh "Wi" in
      let Wo := fresh "Wo" in
      assert (Hq : emits no_data m) by quiet_tac;
      destruct (emits_no_data_words _ _ _ _ Hq E1) as [Wi Wo];
      rewrite <- Wi in Hin; rewrite <- Wo in Hout; clear Hq Wi Wo
  end.

Lemma read_words_words k dev : forall buf pos (s s' : st) b' p',
  read_words k dev buf pos s = (Ret (b', p'), s') ->
  exists ws,
    length ws = k
    /\ words_in (trace s') = words_in (trace s) ++ ws
    /\ words_out (trace s') = words_out (trace s)
    /\ b' = take pos buf ++ ws ++ drop (pos + k) buf
    /\ (0 < k -> pos + k <= length buf)%nat.
Proof.
  induction k as [|k IH]; intros buf pos s s' b' p' E; cbn [read_words] in E.
  - inversion E; subst. exists []. rewrite !app_nil_r, Nat.add_0_r.
    cbn [app]. rewrite take_drop. repeat split. lia.
  - apply bind_ret_inv in E. destruct E as (b & s1 & E1 & E).
    apply dev_bus_inv in E1. destruct E1 as [-> _].
    apply bind_ret_inv in E. destruct E as (w & s2 & E2 & E).
    apply inw_inv in E2. destruct E2 as (_ & T).
    destruct (decide (pos < length buf)%nat) as [Hlt|]; [|discriminate].
    apply IH in E. destruct E as (ws & Hlen & Hin & Hout & Hb & Hfit).
    rewrite length_insert in Hfit.
    rewrite T, words_in_app, words_out_app in *.
    cbn [words_in words_out] in Hin, Hout.
    exists (w :: ws). split; [cbn; lia|]. split.
    { rewrite Hin, <- app_assoc. reflexivity. }
    split; [rewrite Hout, app_nil_r; reflexivity|]. split.
    + rewrite Hb.
      rewrite (take_S_r _ _ w) by (apply list_lookup_insert_eq; exact Hlt).
      rewrite take_insert_ge by lia.
      rewrite drop_insert_lt by lia.
      rewrite <- app_assoc.
      replace (S pos + k)%nat with (pos + S k)%nat by lia. reflexivity.
    + intros _. destruct k; lia.
Qed.

Lemma read_sectors_words settle fuel a n m :
  forall i buf pos (s s' : st) r b',
  (pos <= length buf)%nat ->
  read_sectors settle fuel m i n (Some a) buf pos s = (Ret (r, b'), s') ->
  exists j ws,
    length ws = (256 * j)%nat
    /\ words_in (trace s') = words_in (trace s) ++ ws
    /\ words_out (trace s') = words_out (trace s)
    /\ b' = take pos buf ++ ws ++ drop (pos + 256 * j) buf
    /\ (pos + 256 * j <= length buf)%nat
    /\ match r with
       | None => n <= i + N.of_nat j /\ (i <= n -> i + N.of_nat j = n)
       | Some v => v = (-1)%Z /\ i + N.of_nat j < n
       end.
Proof.
  induction m as [|m IH]; intros i buf pos s s' r b' Hpos E;
    rewrite read_sectors_unfold in E;
    destruct (i <? n) eqn:Hlt; try discriminate.
  - apply N.ltb_ge in Hlt. inversion E; subst. exists 0%nat, [].
    rewrite Nat.mul_0_r, Nat.add_0_r, !app_nil_r. cbn [app].
    rewrite take_drop. repeat split; try lia.
  - apply N.ltb_lt in Hlt.
    assert (Hge : (n <=? i) = false) by (apply N.leb_gt; exact Hlt).
    rewrite Hge in E.
    quiet_step E. quiet_step E.
    destruct (negb (x0 =? 0)).
    + quiet_step E. inversion E; subst. exists 0%nat, [].
      rewrite Nat.mul_0_r, Nat.add_0_r, !app_nil_r. cbn [app].
      rewrite take_drop. repeat split; try lia.
    + apply bind_ret_inv in E. destruct E as ([b1 p1] & s3 & E3 & E).
      pose proof (read_words_ret _ _ _ _ _ _ _ _ E3) as (-> & Hl1 & _ & _).
      apply read_words_words in E3.
      destruct E3 as (ws1 & Hlen1 & Hin1 & Hout1 & Hb1 & Hfit1).
      specialize (Hfit1 ltac:(lia)).
      apply bind_ret_inv in E. destruct E as ([] & s4 & E4 & E).
      inversion E4; subst s4. clear E4. cbn [fst snd] in E.
      apply IH in E; [|lia].
      destruct E as (j & ws & Hlen & Hin & Hout & Hb & Hfit & Hr).
      exists (S j), (ws1 ++ ws). split; [rewrite length_app; lia|]. split.
      { rewrite Hin, Hin1, <- app_assoc. reflexivity. }
      split; [congruence|]. split; [|split; [lia|]].
      * rewrite Hb, Hb1.
        assert (Hpre : length (take pos buf ++ ws1) = (pos + 256)%nat)
          by (rewrite length_app, length_take_le by lia; lia).
        rewrite (app_assoc (take pos buf) ws1).
        rewrite take_app_length' by (symmetry; exact Hpre).
        replace (pos + 256 + 256 * j)%nat
          with (length (take pos buf ++ ws1) + 256 * j)%nat by lia.
        rewrite drop_app_add, drop_drop, <- !app_assoc.
        replace (pos + 256 + 256 * j)%nat with (pos + 256 * S j)%nat by lia.
        reflexivity.
      * destruct r as [v|]; [destruct Hr as [-> Hr]; split; [reflexivity|lia]|].
        destruct Hr as [Hr1 Hr2]. split; [lia|]. intros _.
        rewrite <- Hr2 by lia. lia.
  - apply N.ltb_ge in Hlt. inversion E; subst. exists 0%nat, [].
    rewrite Nat.mul_0_r, Nat.add_0_r, !app_nil_r. cbn [app].
    rewrite take_drop. repeat split; try lia.
Qed.

Lemma write_words_words k dev buf : forall pos (s s' : st) p',
  write_words k dev buf pos s = (Ret p', s') ->
  words_out (trace s')
  = words_out (trace s) ++ (u16 <$> take k (drop pos buf))
  /\ words_in (trace s') = words_in (trace s)
  /\ (0 < k -> pos + k <= length buf)%nat.
Proof.
  induction k as [|k IH]; intros pos s s' p' E; cbn [write_words] in E.
  - inversion E; subst. rewrite take_0. cbn [fmap list_fmap].
    rewrite app_nil_r. repeat split. lia.
  - apply bind_ret_inv in E. destruct E as (b & s1 & E1 & E).
    apply dev_bus_inv in E1. destruct E1 as [-> _].
    destruct (buf !! pos) as [w|] eqn:Hw; [|discriminate].
    apply bind_ret_inv in E. destruct E as ([] & s2 & E2 & E).
    apply outw_inv in E2. destruct E2 as (_ & T).
    apply IH in E. destruct E as (Hout & Hin & Hfit).
    rewrite T, words_in_app, words_out_app in *.
    cbn [words_in words_out] in Hin, Hout.
    pose proof (lookup_lt_Some _ _ _ Hw) as Hlt.
    split; [|split; [rewrite Hin, app_nil_r; reflexivity|]].
    + rewrite Hout, <- app_assoc. f_equal.
      rewrite (drop_S buf w pos Hw). reflexivity.
    + intros _. destruct k; lia.
Qed.

Lemma write_sectors_words fuel a n buf m : forall i pos (s s' : st) r,
  (pos <= length buf)%nat ->
  write_sectors fuel m i n (Some a) buf pos s = (Ret r, s') ->
  exists j,
    words_out (trace s')
    = words_out (trace s) ++ (u16 <$> take (256 * j) (drop pos buf))
    /\ words_in (trace s') = words_in (trace s)
    /\ (pos + 256 * j <= length buf)%nat
    /\ match r with
       | None => n <= i + N.of_nat j /\ (i <= n -> i + N.of_nat j = n)
       | Some v => v = (-1)%Z /\ i + N.of_nat j < n
       end.
Proof.
  induction m as [|m IH]; intros i pos s s' r Hpos E;
    rewrite write_sectors_unfold in E;
    destruct (i <? n) eqn:Hlt; try discriminate.
  - apply N.ltb_ge in Hlt. inversion E; subst. exists 0%nat.
    rewrite Nat.mul_0_r, Nat.add_0_r, take_0, !app_nil_r.
    repeat split; try lia.
  - apply N.ltb_lt in Hlt.
    quiet_step E. quiet_step E.
    destruct (negb (x0 =? 0)).
    + quiet_step E. inversion E; subst. exists 0%nat.
      rewrite Nat.mul_0_r, Nat.add_0_r, take_0, !app_nil_r.
      repeat split; try lia.
    + apply bind_ret_inv in E. destruct E as (p1 & s3 & E3 & E).
      pose proof (write_words_ret _ _ _ _ _ _ _ E3) as (-> & _ & _).
      apply write_words_words in E3. destruct E3 as (Hout1 & Hin1 & Hfit1).
      specialize (Hfit1 ltac:(lia)).
      apply IH in E; [|lia].
      destruct E as (j & Hout & Hin & Hfit & Hr).
      exists (S j). split; [|split; [congruence|split; [lia|]]].
      * rewrite Hout, Hout1, <- app_assoc, <- fmap_app. do 2 f_equal.
        replace (256 * S j)%nat with (256 + 256 * j)%nat by lia.
        rewrite <- take_take_drop, drop_drop. reflexivity.
      * destruct r as [v|]; [destruct Hr as [-> Hr]; split; [reflexivity|lia]|].
        destruct Hr as [Hr1 Hr2]. split; [lia|]. intros _.
        rewrite <- Hr2 by lia. lia.
  - apply N.ltb_ge in Hlt. inversion E; subst. exists 0%nat.
    rewrite Nat.mul_0_r, Nat.add_0_r, take_0, !app_nil_r.
    repeat split; try lia.
Qed.

(** What the caller's buffer holds when [ata_read] returns: the words
    that came in from the data port during the call, in the order they
    came, followed by what the buffer held before from there on.  They
    are 256 words for each sector that went through: all [n] sectors
    when the call returns 0, fewer when it returns -1.  The call writes
    no word to any port. *)
Theorem ata_read_fills_buffer_in_order fuel a slave lba out n (s s' : st)
    r out' :
  ata_read fuel (Some a) slave lba (Some out) n s
  = (Ret (r, Some out'), s') ->
  exists j ws,
    length ws = (256 * j)%nat
    /\ words_in (trace s') = words_in (trace s) ++ ws
    /\ words_out (trace s') = words_out (trace s)
    /\ out' = ws ++ drop (256 * j) out
    /\ (256 * j <= length out)%nat
    /\ ((r = 0%Z /\ N.of_nat j = n)
        \/ (r = (-1)%Z /\ (N.of_nat j < n \/ 255 < n))).
Proof.
  intros E. unfold ata_read, ata_read_with in E.
  cbn [is_null orb] in E.
  destruct (255 <? n) eqn:Hn.
  { apply N.ltb_lt in Hn. inversion E; subst. exists 0%nat, [].
    cbn [app]. rewrite drop_0, app_nil_r. repeat split; try lia; auto. }
  do 13 quiet_step E.
  apply bind_ret_inv in E. destruct E as ([r1 b1] & s14 & E14 & E).
  apply read_sectors_words in E14; [|lia].
  destruct E14 as (j & ws & Hlen & Hin & Hout & Hb & Hfit & Hr).
  cbn [default from_option id take app Nat.add] in Hb, Hfit.
  cbn [fst snd] in E.
  destruct r1 as [v|].
  - inversion E; subst. destruct Hr as [-> Hr].
    exists j, ws.
    do 5 (split; [first [assumption | reflexivity | lia]|]).
    right. split; [reflexivity|lia].
  - quiet_tail E Hin Hout. inversion E; subst. destruct Hr as [_ Hr].
    exists j, ws.
    do 5 (split; [first [assumption | reflexivity | lia]|]).
    left. split; [reflexivity|lia].
Qed.

(** What [ata_write] has sent when it returns: the words of the caller's
    buffer from its start on, in order, cut to 16 bits, 256 for each
    sector that went through: all [n] sectors when the call returns 0,
    fewer when it returns -1.  The call reads no word from any port. *)
Theorem ata_write_sends_buffer_in_order fuel a slave lba buf n (s s' : st) r :
  ata_write fuel (Some a) slave lba (Some buf) n s = (Ret r, s') ->
  exists j,
    words_out (trace s')
    = words_out (trace s) ++ (u16 <$> take (256 * j) buf)
    /\ words_in (trace s') = words_in (trace s)
    /\ (256 * j <= length buf)%nat
    /\ ((r = 0%Z /\ N.of_nat j = n)
        \/ (r = (-1)%Z /\ (N.of_nat j < n \/ 255 < n))).
Proof.
  intros E. unfold ata_write in E.
  cbn [is_null orb] in E.
  destruct (255 <? n) eqn:Hn.
  { apply N.ltb_lt in Hn. inversion E; subst. exists 0%nat.
    rewrite Nat.mul_0_r, take_0, app_nil_r. repeat split; try lia; auto. }
  do 13 quiet_step E.
  apply bind_ret_inv in E. destruct E as (r1 & s14 & E14 & E).
  apply write_sectors_words in E14; [|lia].
  destruct E14 as (j & Hout & Hin & Hfit & Hr).
  cbn [default from_option id Nat.add] in Hout, Hfit. rewrite drop_0 in Hout.
  destruct r1 as [v|].
  - inversion E; subst. destruct Hr as [-> Hr].
    exists j. do 3 (split; [first [assumption | reflexivity | lia]|]).
    right. split; [reflexivity|lia].
  - do 3 quiet_tail E Hin Hout. inversion E; subst. destruct Hr as [_ Hr].
    exists j. do 3 (split; [first [assumption | reflexivity | lia]|]).
    left. split; [reflexivity|lia].
Qed.

(** ** What a transfer leaves of the device records *)

Section Keeps.

Variable g : ptr.

Local Abbreviation keeps := (keeps (HW := HW) g).

Lemma same_records_refl (s : st) : same_records g s s.
Proof.
  repeat split. intros b. destruct (heap s !! b); repeat split.
Qed.

Lemma same_records_trans (s1 s2 s3 : st) :
  same_records g s1 s2 -> same_records g s2 s3 -> same_records g s1 s3.
Proof.
  intros (Hd1 & Hc1 & Hr1) (Hd2 & Hc2 & Hr2).
  split; [congruence|]. split; [congruence|]. intros b.
  specialize (Hr1 b). specialize (Hr2 b).
  destruct (heap s1 !! b) as [d1|], (heap s2 !! b) as [d2|],
    (heap s3 !! b) as [d3|]; try contradiction; try exact I.
  destruct Hr1 as [(? & ? & ?) Hg1], Hr2 as [(? & ? & ?) Hg2].
  repeat split; try congruence. intros Hne.
  rewrite (Hg2 Hne). apply Hg1, Hne.
Qed.

Lemma same_records_own (s s' : st) :
  heap s' = heap s -> devices s' = devices s ->
  devices_cache s' = devices_cache s -> same_records g s s'.
Proof.
  intros Hh Hd Hc. split; [exact Hd|]. split; [exact Hc|]. intros b.
  rewrite Hh. destruct (heap s !! b); repeat split.
Qed.

Lemma same_records_update (s : st) a d d' t :
  heap s !! a = Some d -> same_wiring d d' ->
  (g <> Some a -> spinlock d' = spinlock d) ->
  same_records g s
    (mk_state (<[a := d']> (heap s)) (devices s) (devices_cache s) (hw s) t).
Proof.
  intros Hd Hw Hg. split; [reflexivity|]. split; [reflexivity|].
  intros b. cbn [heap]. destruct (decide (b = a)) as [-> | Hne].
  - rewrite Hd, lookup_insert_eq. auto.
  - rewrite lookup_insert_ne by congruence.
    destruct (heap s !! b); repeat split.
Qed.

Lemma keeps_ret {A} (x : A) : keeps (@ret HW A x).
Proof. intros s o s' E. inversion E; subst. apply same_records_refl. Qed.

Lemma keeps_fault {A} : keeps (@fault HW A).
Proof. intros s o s' E. inversion E; subst. apply same_records_refl. Qed.

Lemma keeps_spin {A} : keeps (@spin HW A).
Proof. intros s o s' E. inversion E; subst. apply same_records_refl. Qed.

Lemma keeps_bind {A B} (m : M HW A) (f : A -> M HW B) :
  keeps m -> (forall x, keeps (f x)) -> keeps (bind m f).
Proof.
  intros Hm Hf s o s' E.
  destruct (bind_inv _ _ _ _ _ E) as [(x & s1 & E1 & E2) | [[E1 _] | [E1 _]]].
  - eapply same_records_trans; [apply (Hm _ _ _ E1)|apply (Hf x _ _ _ E2)].
  - apply (Hm _ _ _ E1).
  - apply (Hm _ _ _ E1).
Qed.

Lemma keeps_inb port : keeps (inb port).
Proof.
  intros s o s' E. unfold inb in E. destruct (plat_inb _ _) as [v h].
  inversion E; subst. apply same_records_own; reflexivity.
Qed.

Lemma keeps_outb port v : keeps (outb port v).
Proof.
  intros s o s' E. inversion E; subst. apply same_records_own; reflexivity.
Qed.

Lemma keeps_inw port : keeps (inw port).
Proof.
  intros s o s' E. unfold inw in E. destruct (plat_inw _ _) as [v h].
  inversion E; subst. apply same_records_own; reflexivity.
Qed.

Lemma keeps_outw port v : keeps (outw port v).
Proof.
  intros s o s' E. inversion E; subst. apply same_records_own; reflexivity.
Qed.

Lemma keeps_load dev : keeps (load dev).
Proof.
  intros s o s' E. unfold load in E.
  destruct dev as [a|]; [destruct (heap s !! a)|]; inversion E; subst;
    apply same_records_refl.
Qed.

Lemma keeps_get_devices : keeps get_devices.
Proof. intros s o s' E. inversion E; subst. apply same_records_refl. Qed.

Lemma keeps_store dev v : keeps (store_wait_irq dev v).
Proof.
  intros s o s' E. unfold store_wait_irq in E.
  destruct dev as [a|]; [destruct (heap s !! a) as [d|] eqn:Hd|];
    inversion E; subst; try apply same_records_refl.
  refine (same_records_update s a d _ _ Hd _ _); [repeat split|reflexivity].
Qed.

Lemma keeps_unlock_of dev : dev = g -> keeps (spin_unlock dev).
Proof.
  intros Hg s o s' E. unfold spin_unlock in E. revert Hg.
  destruct dev as [a|]; [destruct (heap s !! a) as [d|] eqn:Hd|];
    inversion E; subst o s'; intros Hg; try apply same_records_refl.
  refine (same_records_update s a d _ _ Hd _ _); [repeat split|congruence].
Qed.

Lemma keeps_unlock : keeps (spin_unlock g).
Proof. apply keeps_unlock_of. reflexivity. Qed.

Lemma keeps_lock_of fuel dev : dev = g -> keeps (spin_lock fuel dev).
Proof.
  intros Hg.
  induction fuel as [|f IH]; intros s o s' E; cbn [spin_lock] in E;
    revert Hg; destruct dev as [a|]; intros Hg;
    try (inversion E; subst o s'; apply same_records_refl; fail);
    destruct (heap s !! a) as [d|] eqn:Hd;
    try (inversion E; subst o s'; apply same_records_refl; fail);
    destruct (truthy (spinlock d));
    try (inversion E; subst o s'; apply same_records_refl; fail);
    try (inversion E; subst o s';
         refine (same_records_update s a d _ _ Hd _ _);
         [repeat split|congruence]).
  apply (IH _ _ _ E).
Qed.

Lemma keeps_lock fuel : keeps (spin_lock fuel g).
Proof. apply keeps_lock_of. reflexivity. Qed.

Ltac keeps_tac :=
  repeat first
    [ apply keeps_ret | apply keeps_fault | apply keeps_spin
    | apply keeps_inb | apply keeps_outb | apply keeps_inw | apply keeps_outw
    | apply keeps_load | apply keeps_get_devices | apply keeps_store
    | apply keeps_lock | apply keeps_unlock
    | assumption
    | apply keeps_bind; [|intros ?]
    | match goal with
      | |- _ (if ?c then _ else _) => destruct c
      | |- _ (match ?x with _ => _ end) => destruct x
      end ].

Lemma keeps_dev_bus dev : keeps (dev_bus dev).
Proof. unfold dev_bus. keeps_tac. Qed.

Lemma keeps_dev_ctrl dev : keeps (dev_ctrl dev).
Proof. unfold dev_ctrl. keeps_tac. Qed.

Lemma keeps_has_err dev : keeps (ata_has_err dev).
Proof. unfold ata_has_err. keeps_tac. Qed.

Lemma keeps_irq : keeps ata_irq.
Proof. unfold ata_irq. keeps_tac. Qed.

Lemma keeps_err_check_loop fuel d : keeps (err_check_loop fuel d).
Proof.
  revert d. induction fuel as [|f IH]; intros d; simpl.
  - destruct d; keeps_tac.
  - destruct d; [|keeps_tac].
    apply keeps_bind; [keeps_tac|intros dv].
    apply keeps_bind; [|intros _].
    + destruct (truthy (wait_irq dv)); [|keeps_tac].
      apply keeps_bind; [apply keeps_has_err|intros e]. keeps_tac.
    + apply keeps_bind; [keeps_tac|intros dv']. apply IH.
Qed.

Lemma keeps_err_check fuel : keeps (ata_err_check fuel).
Proof.
  unfold ata_err_check. apply keeps_bind; [keeps_tac|intros d].
  apply keeps_err_check_loop.
Qed.

Lemma keeps_run_hooks fuel hs : keeps (run_hooks fuel hs).
Proof.
  induction hs as [|h rest IH]; simpl; [keeps_tac|].
  apply keeps_bind; [|intros _; exact IH].
  destruct h; [apply keeps_irq|apply keeps_err_check].
Qed.

Lemma keeps_kernel_wait fuel : keeps (kernel_wait fuel).
Proof.
  intros s o s' E. unfold kernel_wait in E.
  destruct (plat_wait (hw s)) as [hs h].
  eapply same_records_trans; [|apply (keeps_run_hooks _ _ _ _ _ E)].
  apply same_records_own; reflexivity.
Qed.

Lemma keeps_wait_ready_loop fuel dev : keeps (wait_ready_loop fuel dev).
Proof.
  induction fuel as [|f IH]; rewrite wait_loop_unfold;
    (apply keeps_bind; [keeps_tac|intros d]);
    (apply keeps_bind;
       [destruct (truthy (wait_irq d)); [|keeps_tac];
        unfold ata_is_ready; keeps_tac|intros again]);
    (destruct again; [|keeps_tac]); [keeps_tac|].
  apply keeps_bind; [apply keeps_kernel_wait|intros _; exact IH].
Qed.

Lemma keeps_wait_ready fuel dev : keeps (ata_wait_ready fuel dev).
Proof.
  unfold ata_wait_ready.
  apply keeps_bind; [apply keeps_store|intros _].
  apply keeps_bind; [apply keeps_wait_ready_loop|intros _].
  apply keeps_store.
Qed.

Lemma keeps_read_words n dev buf pos : keeps (read_words n dev buf pos).
Proof.
  revert buf pos. induction n as [|k IH]; intros buf pos; simpl; [keeps_tac|].
  apply keeps_bind; [apply keeps_dev_bus|intros b].
  apply keeps_bind; [keeps_tac|intros w].
  destruct (decide (pos < length buf)%nat); [apply IH|keeps_tac].
Qed.

Lemma keeps_write_words n dev buf pos : keeps (write_words n dev buf pos).
Proof.
  revert pos. induction n as [|k IH]; intros pos; simpl; [keeps_tac|].
  apply keeps_bind; [apply keeps_dev_bus|intros b].
  destruct (buf !! pos); [|keeps_tac].
  apply keeps_bind; [keeps_tac|intros _; apply IH].
Qed.

Lemma keeps_read_sectors settle fuel n i sectors buf pos :
  (forall c, keeps (settle c)) ->
  keeps (read_sectors settle fuel n i sectors g buf pos).
Proof.
  intros Hsettle. revert i buf pos.
  induction n as [|k IH]; intros i buf pos; rewrite read_sectors_unfold;
    (destruct (i <? sectors); [|keeps_tac]); [keeps_tac|].
  apply keeps_bind; [apply keeps_wait_ready|intros _].
  apply keeps_bind; [apply keeps_has_err|intros e].
  destruct (negb (e =? 0)); [keeps_tac|].
  apply keeps_bind; [apply keeps_read_words|intros r].
  apply keeps_bind; [|intros _; apply IH].
  destruct (sectors <=? i); [|keeps_tac].
  apply keeps_bind; [apply keeps_dev_ctrl|intros c; apply Hsettle].
Qed.

Lemma keeps_write_sectors fuel n i sectors buf pos :
  keeps (write_sectors fuel n i sectors g buf pos).
Proof.
  revert i pos.
  induction n as [|k IH]; intros i pos; rewrite write_sectors_unfold;
    (destruct (i <? sectors); [|keeps_tac]); [keeps_tac|].
  apply keeps_bind; [apply keeps_wait_ready|intros _].
  apply keeps_bind; [apply keeps_has_err|intros e].
  destruct (negb (e =? 0)); [keeps_tac|].
  apply keeps_bind; [apply keeps_write_words|intros r; apply IH].
Qed.

Lemma keeps_wait port : keeps (ata_wait port).
Proof. unfold ata_wait. keeps_tac. Qed.

Lemma keeps_read fuel slave lba buff n :
  keeps (ata_read fuel g slave lba buff n).
Proof.
  unfold ata_read, ata_read_with.
  destruct (_ || _); [keeps_tac|].
  apply keeps_bind; [apply keeps_lock|intros _].
  do 5 (apply keeps_bind; [apply keeps_dev_bus|intros ?];
        apply keeps_bind; [apply keeps_outb|intros _]).
  apply keeps_bind; [apply keeps_dev_bus|intros ?].
  apply keeps_bind; [apply keeps_outb|intros _].
  apply keeps_bind; [apply keeps_read_sectors, keeps_wait|intros r].
  keeps_tac.
Qed.

Lemma keeps_write fuel slave lba buff n :
  keeps (ata_write fuel g slave lba buff n).
Proof.
  unfold ata_write.
  destruct (_ || _); [keeps_tac|].
  apply keeps_bind; [apply keeps_lock|intros _].
  do 5 (apply keeps_bind; [apply keeps_dev_bus|intros ?];
        apply keeps_bind; [apply keeps_outb|intros _]).
  apply keeps_bind; [apply keeps_dev_bus|intros ?].
  apply keeps_bind; [apply keeps_outb|intros _].
  apply keeps_bind; [apply keeps_write_sectors|intros r].
  destruct r; [keeps_tac|].
  apply keeps_bind; [apply keeps_dev_bus|intros ?].
  apply keeps_bind; [apply keeps_outb|intros _].
  keeps_tac.
Qed.

End Keeps.

Lemma lock_taken_free fuel a (s s' : st) :
  spin_lock fuel (Some a) s = (Ret tt, s') ->
  exists d, heap s !! a = Some d /\ spinlock d = 0%Z.
Proof.
  induction fuel as [|f IH]; cbn [spin_lock]; intros E;
    destruct (heap s !! a) as [d|]; try discriminate;
    destruct (truthy (spinlock d)) eqn:Hf; try discriminate;
    try (exists d; split; [reflexivity|]; unfold truthy in Hf;
         apply negb_false_iff, Z.eqb_eq in Hf; exact Hf).
  apply IH. exact E.
Qed.

Lemma unlock_released a (s s' : st) :
  spin_unlock (Some a) s = (Ret tt, s') ->
  exists d', heap s' !! a = Some d' /\ spinlock d' = 0%Z.
Proof.
  unfold spin_unlock. destruct (heap s !! a) as [d|]; [|discriminate].
  intros E. inversion E; subst. exists (set_spinlock 0 d).
  cbn [heap log set_heap]. rewrite lookup_insert_eq. auto.
Qed.

Lemma read_sectors_early_released settle fuel a n m :
  forall i buf pos (s s' : st) v b',
  read_sectors settle fuel m i n (Some a) buf pos s
  = (Ret (Some v, b'), s') ->
  exists d', heap s' !! a = Some d' /\ spinlock d' = 0%Z.
Proof.
  induction m as [|m IH]; intros i buf pos s s' v b' E;
    rewrite read_sectors_unfold in E;
    destruct (i <? n); try discriminate.
  apply bind_ret_inv in E. destruct E as ([] & s1 & _ & E).
  apply bind_ret_inv in E. destruct E as (e & s2 & _ & E).
  destruct (negb (e =? 0)).
  - apply bind_ret_inv in E. destruct E as ([] & s3 & E3 & E).
    inversion E; subst. apply (unlock_released _ _ _ E3).
  - apply bind_ret_inv in E. destruct E as (r & s3 & _ & E).
    apply bind_ret_inv in E. destruct E as ([] & s4 & _ & E).
    apply (IH _ _ _ _ _ _ _ E).
Qed.

Lemma write_sectors_early_released fuel a n buf m :
  forall i pos (s s' : st) v,
  write_sectors fuel m i n (Some a) buf pos s = (Ret (Some v), s') ->
  exists d', heap s' !! a = Some d' /\ spinlock d' = 0%Z.
Proof.
  induction m as [|m IH]; intros i pos s s' v E;
    rewrite write_sectors_unfold in E;
    destruct (i <? n); try discriminate.
  apply bind_ret_inv in E. destruct E as ([] & s1 & _ & E).
  apply bind_ret_inv in E. destruct E as (e & s2 & _ & E).
  destruct (negb (e =? 0)).
  - apply bind_ret_inv in E. destruct E as ([] & s3 & E3 & E).
    inversion E; subst. apply (unlock_released _ _ _ E3).
  - apply bind_ret_inv in E. destruct E as (r & s3 & _ & E).
    apply (IH _ _ _ _ _ E).
Qed.

Lemma same_records_guard a (s s' : st) :
  same_records (Some a) s s' ->
  (forall d d', heap s !! a = Some d -> heap s' !! a = Some d' ->
     spinlock d' = spinlock d) ->
  same_records NULL s s'.
Proof.
  intros (Hd & Hc & Hr) Hg. split; [exact Hd|]. split; [exact Hc|].
  intros b. specialize (Hr b).
  destruct (heap s !! b) as [d|] eqn:E, (heap s' !! b) as [d'|] eqn:E';
    try exact Hr.
  destruct Hr as [Hw Hs]. split; [exact Hw|]. intros _.
  destruct (decide (b = a)) as [-> | Hne]; [|apply Hs; congruence].
  apply (Hg _ _ E E').
Qed.

Ltac drop_step E :=
  apply bind_ret_inv in E;
  let x := fresh "x" in
  let s1 := fresh "s" in
  destruct E as (x & s1 & _ & E).

(** When [ata_read] or [ata_write] returns, whatever it returns, the
    device records are wired as before: the same records are live, each
    with the [next], [bus] and [ctrl] it had, the list head and the pool
    are untouched, and every guard is as the call found it, the guard of
    its own device included: it was free, and it has been released.
    Only [wait_irq] flags may have changed.  The two hooks change no more
    than flags either. *)
Theorem ata_transfer_keeps_records fuel a slave lba buff n (s s' : st) :
  (forall r, ata_read fuel (Some a) slave lba buff n s = (Ret r, s') ->
     same_records NULL s s')
  /\ (forall r, ata_write fuel (Some a) slave lba buff n s = (Ret r, s') ->
        same_records NULL s s')
  /\ (forall o, ata_irq s = (o, s') -> same_records NULL s s')
  /\ (forall o, ata_err_check fuel s = (o, s') -> same_records NULL s s').
Proof.
  split; [|split; [|split]].
  - intros r E.
    apply same_records_guard with a; [apply (keeps_read _ _ _ _ _ _ _ _ _ E)|].
    intros d d' Hd Hd'.
    unfold ata_read, ata_read_with in E.
    destruct (_ || _).
    { inversion E; subst. congruence. }
    apply bind_ret_inv in E. destruct E as ([] & s0 & E0 & E).
    apply lock_taken_free in E0. destruct E0 as (d0 & Hd0 & Hfree).
    assert (d0 = d) by congruence. subst d0. rewrite Hfree.
    do 12 drop_step E.
    apply bind_ret_inv in E. destruct E as ([r1 b1] & s13 & E13 & E).
    cbn [fst snd] in E. destruct r1 as [v|].
    + inversion E; subst.
      apply read_sectors_early_released in E13.
      destruct E13 as (d1 & Hd1 & Hrel). congruence.
    + apply bind_ret_inv in E. destruct E as ([] & s14 & E14 & E).
      inversion E; subst. apply unlock_released in E14.
      destruct E14 as (d1 & Hd1 & Hrel). congruence.
  - intros r E.
    apply same_records_guard with a;
      [apply (keeps_write _ _ _ _ _ _ _ _ _ E)|].
    intros d d' Hd Hd'.
    unfold ata_write in E.
    destruct (_ || _).
    { inversion E; subst. congruence. }
    apply bind_ret_inv in E. destruct E as ([] & s0 & E0 & E).
    apply lock_taken_free in E0. destruct E0 as (d0 & Hd0 & Hfree).
    assert (d0 = d) by congruence. subst d0. rewrite Hfree.
    do 12 drop_step E.
    apply bind_ret_inv in E. destruct E as (r1 & s13 & E13 & E).
    destruct r1 as [v|].
    + inversion E; subst.
      apply write_sectors_early_released in E13.
      destruct E13 as (d1 & Hd1 & Hrel). congruence.
    + do 2 drop_step E.
      apply bind_ret_inv in E. destruct E as ([] & s16 & E16 & E).
      inversion E; subst. apply unlock_released in E16.
      destruct E16 as (d1 & Hd1 & Hrel). congruence.
  - intros o E. apply (keeps_irq _ _ _ _ E).
  - intros o E. apply (keeps_err_check _ _ _ _ _ E).
Qed.

(** ** A wait that does not end *)

Lemma wait_ready_loop_stuck (stuck : HW -> Prop) a d :
  truthy (wait_irq d) = true ->
  (forall h, stuck h ->
     stuck (snd (plat_inb (u16 (bus d + ATA_REG_STATUS)) h))
     /\ N.land (u8 (fst (plat_inb (u16 (bus d + ATA_REG_STATUS)) h)))
          ATA_STATUS_RDY = 0) ->
  (forall h, stuck h -> fst (plat_wait h) = [] /\ stuck (snd (plat_wait h))) ->
  forall fuel (s : st), stuck (hw s) -> heap s !! a = Some d ->
    exists s', wait_ready_loop fuel (Some a) s = (Spin, s')
               /\ heap s' = heap s.
Proof.
  intros Hw Hpoll Hsleep.
  induction fuel as [|f IH]; intros s Hs Hd;
    destruct (Hpoll _ Hs) as [Hnext Hrdy];
    rewrite wait_loop_unfold;
    (step ltac:(apply load_live; exact Hd)); rewrite Hw;
    destruct (plat_inb (u16 (bus d + ATA_REG_STATUS)) (hw s)) as [v h] eqn:E;
    cbn [fst snd] in Hnext, Hrdy; apply N.eqb_eq in Hrdy;
    (step ltac:(apply is_ready_run; exact E)); rewrite Hrdy.
  - eexists. split; reflexivity.
  - destruct (Hsleep _ Hnext) as [Hhooks Hnext'].
    destruct (plat_wait h) as [hs h'] eqn:Ew. cbn [fst snd] in Hhooks, Hnext'.
    subst hs.
    assert (Hkw : kernel_wait f (log (EvInb (u16 (bus d + ATA_REG_STATUS))
                                        (u8 v)) (set_hw h s))
                  = (Ret tt, log EvYield
                               (set_hw h' (log (EvInb
                                                  (u16 (bus d + ATA_REG_STATUS))
                                                  (u8 v)) (set_hw h s))))).
    { unfold kernel_wait. cbn [hw log set_hw]. rewrite Ew. reflexivity. }
    step ltac:(exact Hkw).
    match goal with
    | |- context [wait_ready_loop f (Some a) ?s2] =>
        destruct (IH s2 Hnext' Hd) as (s' & E' & Hh)
    end.
    exists s'. split; [exact E'|exact Hh].
Qed.

Lemma wait_ready_stuck (stuck : HW -> Prop) a d fuel (s : st) :
  heap s !! a = Some d ->
  (forall h, stuck h ->
     stuck (snd (plat_inb (u16 (bus d + ATA_REG_STATUS)) h))
     /\ N.land (u8 (fst (plat_inb (u16 (bus d + ATA_REG_STATUS)) h)))
          ATA_STATUS_RDY = 0) ->
  (forall h, stuck h -> fst (plat_wait h) = [] /\ stuck (snd (plat_wait h))) ->
  stuck (hw s) ->
  exists s',
    ata_wait_ready fuel (Some a) s = (Spin, s')
    /\ heap s' !! a = Some (set_wait_irq 1 d)
    /\ data_transfers (trace s') = data_transfers (trace s).
Proof.
  intros Hd Hpoll Hsleep Hs.
  assert (Hrun : exists s',
             ata_wait_ready fuel (Some a) s = (Spin, s')
             /\ heap s' !! a = Some (set_wait_irq 1 d)).
  { unfold ata_wait_ready.
    step ltac:(apply (store_flag_run _ a d); exact Hd).
    match goal with
    | |- context [bind (wait_ready_loop fuel (Some a)) _ ?s1] =>
        destruct (wait_ready_loop_stuck stuck a (set_wait_irq 1 d) eq_refl
                    Hpoll Hsleep fuel s1 Hs)
          as (s' & E & Hh); [apply lookup_insert_eq|]
    end.
    exists s'. split; [apply bind_spin_run; exact E|].
    rewrite Hh. apply lookup_insert_eq. }
  destruct Hrun as (s' & E & Hh). exists s'.
  split; [exact E|]. split; [exact Hh|].
  apply (emits_no_data_count _ _ _ _ (wait_ready_no_data _ _) E).
Qed.

(** [ata_read] and [ata_write] wait for the controller without a bound:
    on a controller that never shows the ready bit, with no hook run while
    the caller sleeps, a transfer of at least one sector is still waiting
    after any number of calls of [kernel_wait].  It waits with the guard
    of the device taken and the flag of the device set, and no word has
    been moved. *)
Theorem ata_transfer_waits_without_bound (stuck : HW -> Prop) fuel a d slave
    lba buf n (s : st) :
  heap s !! a = Some d -> spinlock d = 0%Z -> 0 < n -> n <= 255 ->
  (forall h, stuck h ->
     stuck (snd (plat_inb (u16 (bus d + ATA_REG_STATUS)) h))
     /\ N.land (u8 (fst (plat_inb (u16 (bus d + ATA_REG_STATUS)) h)))
          ATA_STATUS_RDY = 0) ->
  (forall h, stuck h -> fst (plat_wait h) = [] /\ stuck (snd (plat_wait h))) ->
  (forall cmd, stuck (setup_hw (bus d) slave lba n cmd (hw s))) ->
  exists sr sw,
    ata_read fuel (Some a) slave lba (Some buf) n s = (Spin, sr)
    /\ ata_write fuel (Some a) slave lba (Some buf) n s = (Spin, sw)
    /\ heap sr !! a = Some (set_wait_irq 1 (set_spinlock 1 d))
    /\ heap sw !! a = Some (set_wait_irq 1 (set_spinlock 1 d))
    /\ data_transfers (trace sr) = data_transfers (trace s)
    /\ data_transfers (trace sw) = data_transfers (trace s).
Proof.
  intros Hd Hfree Hn0 Hn Hpoll Hsleep Hsetup.
  destruct (N.to_nat n) as [|m] eqn:Hm; [lia|].
  assert (Hlt : (0 <? n) = true) by (apply N.ltb_lt; exact Hn0).
  assert (Hstart : forall cmd,
            exists s',
              ata_wait_ready fuel (Some a)
                (after_setup a d slave lba n cmd s) = (Spin, s')
              /\ heap s' !! a = Some (set_wait_irq 1 (set_spinlock 1 d))
              /\ data_transfers (trace s') = data_transfers (trace s)).
  { intros cmd.
    destruct (wait_ready_stuck stuck a (set_spinlock 1 d) fuel
                (after_setup a d slave lba n cmd s))
      as (s' & E & Hh & Hc);
      [apply lookup_insert_eq|exact Hpoll|exact Hsleep|apply Hsetup|].
    exists s'. split; [exact E|]. split; [exact Hh|].
    rewrite Hc. unfold after_setup. cbn [trace].
    rewrite data_transfers_app, setup_no_data. lia. }
  destruct (Hstart ATA_CMD_READ_SECTORS) as (sr & Er & Hhr & Hcr).
  destruct (Hstart ATA_CMD_WRITE_SECTORS) as (sw & Ew & Hhw & Hcw).
  exists sr, sw. split; [|split; [|auto]].
  - unfold ata_read, ata_read_with. rewrite valid_args by exact Hn.
    rewrite (setup_run fuel a d) by (assumption || apply free_lock; assumption).
    rewrite Hm. apply bind_spin_run.
    rewrite read_sectors_unfold, Hlt. apply bind_spin_run. exact Er.
  - unfold ata_write. rewrite valid_args by exact Hn.
    rewrite (setup_run fuel a d) by (assumption || apply free_lock; assumption).
    rewrite Hm. apply bind_spin_run.
    rewrite write_sectors_unfold, Hlt. apply bind_spin_run. exact Ew.
Qed.


End Facts.

Ltac step tac := erewrite bind_ret_run; [|tac].

(** * Writing and reading back on the simulated controller *)

Lemma store_run (s : state sim) a d v :
  heap s !! a = Some d ->
  store_wait_irq (Some a) v s
  = (Ret tt, log (EvFlag a v)
               (set_heap (<[a := set_wait_irq v d]> (heap s)) s)).
Proof. intros E. unfold store_wait_irq. rewrite E. reflexivity. Qed.

Lemma wait_ready_loop_unfold fuel dev :
  @wait_ready_loop sim _ fuel dev
  = (d <- load dev ;;
     again <- (if truthy (wait_irq d) then
                 r <- ata_is_ready (bus d) ;; ret (r =? 0)
               else ret false) ;;
     if again : bool then
       match fuel with
       | O => spin
       | S f => kernel_wait f ;;; wait_ready_loop f dev
       end
     else ret tt).
Proof. destruct fuel; reflexivity. Qed.

Lemma sim_status_idle h :
  sim_present h = true -> sim_bad h = None -> sim_busy h = 0 ->
  (N.land (u8 (sim_status h)) ATA_STATUS_RDY =? 0) = false
  /\ (N.land (u8 (sim_status h)) ATA_STATUS_ERR =? 0) = true.
Proof.
  intros Hp Hb Hz. unfold sim_status, sim_at_bad. rewrite Hp, Hb, Hz.
  change (0 <? 0) with false. cbv iota.
  destruct (0 <? sim_left h); split; reflexivity.
Qed.

Lemma sim_status_busy h :
  sim_present h = true -> 0 < sim_busy h ->
  sim_status h = ATA_STATUS_BSY.
Proof.
  intros Hp Hz. apply N.ltb_lt in Hz. unfold sim_status.
  rewrite Hp, Hz. reflexivity.
Qed.

Lemma status_read_sim (s : state sim) :
  sim_present (hw s) = true ->
  inb (ATA_PRIMARY_BUS + ATA_REG_STATUS) s
  = (Ret (u8 (sim_status (hw s))),
     log (EvInb 0x1f7 (u8 (sim_status (hw s)))) (set_hw (hw s) s)).
Proof.
  intros Hp. apply inb_run.
  change (u16 (ATA_PRIMARY_BUS + ATA_REG_STATUS)) with 0x1f7.
  cbn [plat_inb sim_platform]. unfold sim_inb. rewrite Hp. reflexivity.
Qed.

Lemma is_ready_sim (s : state sim) :
  sim_present (hw s) = true ->
  (r <- ata_is_ready ATA_PRIMARY_BUS ;; ret (r =? 0)) s
  = (Ret (N.land (u8 (sim_status (hw s))) ATA_STATUS_RDY =? 0),
     log (EvInb 0x1f7 (u8 (sim_status (hw s)))) (set_hw (hw s) s)).
Proof.
  intros Hp. unfold ata_is_ready.
  step ltac:(step ltac:(apply status_read_sim; exact Hp); reflexivity).
  reflexivity.
Qed.

Lemma sim_time_id h :
  sim_busy h = 0 -> sim_sched h = [] -> sim_set_time 0 [] h = h.
Proof. intros Hb Hs. destruct h. cbn in *. subst. reflexivity. Qed.

Lemma wait_ready_loop_sim a fuel : forall (s : state sim) d,
  heap s !! a = Some d -> bus d = ATA_PRIMARY_BUS ->
  (sim_irq (hw s) = true -> devices s = Some a) ->
  sim_present (hw s) = true -> sim_bad (hw s) = None ->
  sim_sched (hw s) = [] ->
  (N.to_nat (sim_busy (hw s)) <= fuel)%nat ->
  truthy (wait_irq d) = true \/ sim_busy (hw s) = 0 ->
  exists s' d',
    wait_ready_loop fuel (Some a) s = (Ret tt, s')
    /\ hw s' = sim_set_time 0 [] (hw s)
    /\ heap s' !! a = Some d' /\ bus d' = ATA_PRIMARY_BUS
    /\ devices s' = devices s.
Proof.
  induction fuel as [|f IH]; intros s d Hd Hb Hirq Hp Hbad Hsched Hfuel Harmed;
    rewrite wait_ready_loop_unfold;
    (step ltac:(apply load_live; exact Hd)); rewrite Hb.
  - assert (Hz : sim_busy (hw s) = 0) by lia.
    destruct (sim_status_idle _ Hp Hbad Hz) as [Hrdy _].
    destruct (truthy (wait_irq d)).
    + step ltac:(apply is_ready_sim; exact Hp). rewrite Hrdy.
      eexists. exists d. split; [reflexivity|].
      cbn [hw heap devices log set_hw]. rewrite sim_time_id by assumption.
      auto.
    + step ltac:(reflexivity). eexists. exists d. split; [reflexivity|].
      rewrite sim_time_id by assumption. auto.
  - destruct (N.eq_dec (sim_busy (hw s)) 0) as [Hz | Hnz].
    + destruct (sim_status_idle _ Hp Hbad Hz) as [Hrdy _].
      destruct (truthy (wait_irq d)).
      * step ltac:(apply is_ready_sim; exact Hp). rewrite Hrdy.
        eexists. exists d. split; [reflexivity|].
        cbn [hw heap devices log set_hw]. rewrite sim_time_id by assumption.
        auto.
      * step ltac:(reflexivity). eexists. exists d. split; [reflexivity|].
        rewrite sim_time_id by assumption. auto.
    + destruct Harmed as [Harmed | Hz]; [|contradiction]. rewrite Harmed.
      step ltac:(apply is_ready_sim; exact Hp).
      rewrite sim_status_busy by (assumption || lia).
      change (N.land (u8 ATA_STATUS_BSY) ATA_STATUS_RDY =? 0) with true.
      cbv iota.
      unfold kernel_wait at 1.
      unfold bind at 1.
      cbn [hw log set_hw plat_wait sim_platform]. unfold sim_wait.
      rewrite Hsched. cbn [hd tl]. rewrite app_nil_r.
      destruct (sim_irq (hw s) && (sim_busy (hw s) =? 1)) eqn:Hfire.
      * apply andb_true_iff in Hfire. destruct Hfire as [Hi H1].
        apply N.eqb_eq in H1.
        cbn [run_hooks run_hook]. unfold ata_irq.
        step ltac:(step ltac:(reflexivity);
                   cbn [devices log set_hw]; rewrite (Hirq Hi);
                   apply (store_run _ a d); exact Hd).
        unfold ret at 1. cbv beta iota.
        match goal with
        | |- context [wait_ready_loop f (Some a) ?s3] =>
            destruct (IH s3 (set_wait_irq 0 d))
              as (s' & d' & E & Hhw & Hd' & Hb' & Hdev)
        end; try assumption.
        { apply lookup_insert_eq. }
        { reflexivity. }
        { cbn [hw log set_hw set_heap sim_busy sim_set_time]. rewrite H1.
          cbn. lia. }
        { right. cbn [hw log set_hw set_heap sim_busy sim_set_time].
          rewrite H1. reflexivity. }
        exists s', d'. rewrite E. split; [reflexivity|].
        split; [exact Hhw|]. split; [|split; [exact Hb'|exact Hdev]].
        rewrite <- Hd'. reflexivity.
      * cbn [run_hooks]. unfold ret at 1.
        match goal with
        | |- context [wait_ready_loop f (Some a) ?s3] =>
            destruct (IH s3 d) as (s' & d' & E & Hhw & Hd' & Hb' & Hdev)
        end; try assumption.
        { reflexivity. }
        { cbn [hw log set_hw sim_busy sim_set_time]. lia. }
        { left. exact Harmed. }
        exists s', d'. rewrite E. auto.
Qed.

Lemma wait_ready_sim fuel a (s : state sim) :
  attached (sim_irq (hw s)) a s ->
  sim_present (hw s) = true -> sim_bad (hw s) = None ->
  sim_sched (hw s) = [] ->
  (N.to_nat (sim_busy (hw s)) <= fuel)%nat ->
  exists s',
    ata_wait_ready fuel (Some a) s = (Ret tt, s')
    /\ hw s' = sim_set_time 0 [] (hw s)
    /\ attached (sim_irq (hw s)) a s'.
Proof.
  intros [(d & Hd & Hb) Hirq] Hp Hbad Hsched Hfuel.
  unfold ata_wait_ready.
  step ltac:(apply (store_run _ _ d); exact Hd).
  match goal with
  | |- context [bind (wait_ready_loop fuel (Some a)) _ ?s1] =>
      destruct (wait_ready_loop_sim a fuel s1 (set_wait_irq 1 d))
        as (s2 & d2 & E2 & Hhw & Hd2 & Hb2 & Hdev);
        [apply lookup_insert_eq|exact Hb|exact Hirq|exact Hp|exact Hbad
        |exact Hsched|exact Hfuel|left; reflexivity|]
  end.
  step ltac:(exact E2).
  rewrite (store_run _ _ d2) by exact Hd2.
  eexists. split; [reflexivity|]. split; [exact Hhw|].
  split.
  - exists (set_wait_irq 0 d2). split; [apply lookup_insert_eq|exact Hb2].
  - intros Hi. cbn [devices log set_heap]. rewrite Hdev. apply Hirq, Hi.
Qed.

Lemma has_err_sim a (s : state sim) d :
  heap s !! a = Some d -> bus d = ATA_PRIMARY_BUS ->
  sim_present (hw s) = true -> sim_bad (hw s) = None ->
  sim_busy (hw s) = 0 ->
  exists s',
    ata_has_err (Some a) s = (Ret 0, s')
    /\ hw s' = hw s /\ heap s' = heap s /\ devices s' = devices s.
Proof.
  intros Hd Hb Hp Hbad Hz.
  destruct (sim_status_idle _ Hp Hbad Hz) as [_ Herr].
  apply N.eqb_eq in Herr.
  unfold ata_has_err.
  step ltac:(apply load_live; exact Hd). rewrite Hb.
  step ltac:(apply status_read_sim; exact Hp).
  unfold ret. rewrite Herr. eexists. split; [reflexivity|]. auto.
Qed.

Lemma sim_time_xfer op addr left disk b h0 :
  sim_sched h0 = [] ->
  sim_set_time 0 [] (sim_set_xfer op addr left disk b h0)
  = sim_set_xfer op addr left disk 0 h0.
Proof.
  intros Hs. unfold sim_set_time, sim_set_xfer. cbn. rewrite Hs. reflexivity.
Qed.

Lemma sim_outw_writing h0 addr left disk v :
  sim_present h0 = true -> 0 < left ->
  sim_outw 0x1f0 v (sim_set_xfer SimWriting addr left disk 0 h0)
  = sim_set_xfer SimWriting (addr + 1) (left - 1)
      (<[(sim_unit h0, addr) := v]> disk)
      (sim_pause (sim_latency h0) (left - 1)) h0.
Proof.
  intros Hp Hl. apply N.ltb_lt in Hl.
  unfold sim_outw, sim_data_open, sim_set_xfer, sim_unit.
  cbn [sim_present sim_left sim_op sim_addr sim_disk sim_drive sim_count
       sim_secnum sim_cyl_lo sim_cyl_hi sim_bad sim_ident sim_sched
       sim_slots sim_packet sim_busy sim_latency sim_irq].
  rewrite Hp, Hl. reflexivity.
Qed.

Lemma sim_inw_reading h0 addr left disk :
  sim_present h0 = true -> 0 < left ->
  sim_inw 0x1f0 (sim_set_xfer SimReading addr left disk 0 h0)
  = (default 0 (disk !! (sim_unit h0, addr)),
     sim_set_xfer SimReading (addr + 1) (left - 1) disk
       (sim_pause (sim_latency h0) (left - 1)) h0).
Proof.
  intros Hp Hl. apply N.ltb_lt in Hl.
  unfold sim_inw, sim_data_open, sim_set_xfer, sim_unit.
  cbn [sim_present sim_left sim_op sim_addr sim_disk sim_drive sim_count
       sim_secnum sim_cyl_lo sim_cyl_hi sim_bad sim_ident sim_sched
       sim_slots sim_packet sim_busy sim_latency sim_irq].
  rewrite Hp, Hl. reflexivity.
Qed.

(** No pause inside a sector, one latency at each boundary before the
    last. *)
Lemma sim_pause_inside lat m j :
  0 < j -> j < 256 -> sim_pause lat (256 * m - j) = 0.
Proof.
  intros H0 H256. unfold sim_pause.
  destruct (0 <? 256 * m - j) eqn:Hpos; [|reflexivity].
  apply N.ltb_lt in Hpos.
  assert (Hm : (256 * m - j) mod 256 = 256 - j).
  { symmetry. apply (N.mod_unique _ _ (m - 1)); lia. }
  rewrite Hm. destruct (256 - j =? 0) eqn:E; [|reflexivity].
  apply N.eqb_eq in E. lia.
Qed.

Lemma sim_pause_le lat left : sim_pause lat left <= lat.
Proof. unfold sim_pause. destruct (_ && _); lia. Qed.

Section RoundTrip.

Variable a : loc.
Variable buf : list N.
Hypothesis buf_words : Forall (fun w => w < 65536) buf.
Variable h0 : sim.
Hypothesis h0_present : sim_present h0 = true.
Hypothesis h0_bad : sim_bad h0 = None.
Hypothesis h0_sched : sim_sched h0 = [].
Variable base : N.

Lemma buf_word pos w : buf !! pos = Some w -> u16 w = w.
Proof.
  intros Hw. apply u16_small.
  apply (proj1 (Forall_lookup _ _) buf_words pos w Hw).
Qed.

Lemma write_words_sim k : forall pos (s : state sim) left disk b d,
  heap s !! a = Some d -> bus d = ATA_PRIMARY_BUS ->
  hw s = sim_set_xfer SimWriting (base + N.of_nat pos) left disk b h0 ->
  ((0 < k)%nat -> b = 0) ->
  N.of_nat k <= left -> (pos + k <= length buf)%nat ->
  (forall j, 0 < j -> j < N.of_nat k ->
     sim_pause (sim_latency h0) (left - j) = 0) ->
  stored (sim_unit h0) base buf pos disk ->
  exists s' disk',
    write_words k (Some a) buf pos s = (Ret (pos + k)%nat, s')
    /\ heap s' = heap s /\ devices s' = devices s
    /\ hw s' = sim_set_xfer SimWriting (base + N.of_nat (pos + k))
                 (left - N.of_nat k) disk'
                 (if k is O then b
                  else sim_pause (sim_latency h0) (left - N.of_nat k)) h0
    /\ stored (sim_unit h0) base buf (pos + k) disk'.
Proof.
  induction k as [|k IH];
    intros pos s left disk b d Hd Hb Hhw Hz Hk Hlen Hin Hst.
  - exists s, disk. cbn [write_words]. rewrite Nat.add_0_r, N.sub_0_r. auto.
  - destruct (lookup_lt_is_Some_2 buf pos ltac:(lia)) as [w Hw].
    rewrite (Hz ltac:(lia)) in Hhw.
    cbn [write_words].
    rewrite (dev_bus_bind _ _ a d) by exact Hd. rewrite Hb, Hw.
    step ltac:(reflexivity).
    match goal with
    | |- context [write_words k (Some a) buf (S pos) ?s1] =>
        assert (H1 : heap s1 !! a = Some d) by exact Hd;
        assert (H2 : hw s1
                     = sim_set_xfer SimWriting (base + N.of_nat (S pos))
                         (left - 1)
                         (<[(sim_unit h0, base + N.of_nat pos) := w]> disk)
                         (sim_pause (sim_latency h0) (left - 1))
                         h0);
        [|destruct (IH (S pos) s1 (left - 1) _ _ d H1 Hb H2)
            as (s' & disk' & Hrun & Hheap & Hdev & Hhw' & Hst');
          [|lia|lia| | |]]
    end.
    + cbn [hw log set_hw plat_outw sim_platform].
      change (u16 (ATA_PRIMARY_BUS + ATA_REG_DATA)) with 0x1f0.
      rewrite Hhw, sim_outw_writing by (assumption || lia).
      rewrite (buf_word _ _ Hw).
      replace (base + N.of_nat pos + 1) with (base + N.of_nat (S pos)) by lia.
      reflexivity.
    + intros Hk0. apply Hin; lia.
    + intros j Hj0 Hjk.
      replace (left - 1 - j) with (left - (j + 1)) by lia.
      apply Hin; lia.
    + intros j w' Hj Hw'. destruct (decide (j = pos)) as [-> | Hne].
      * rewrite lookup_insert_eq. congruence.
      * rewrite lookup_insert_ne by (intros [= Hne']; lia).
        apply Hst; [lia|exact Hw'].
    + exists s', disk'. rewrite Hrun, Hhw'.
      replace (S pos + k)%nat with (pos + S k)%nat in * by lia.
      replace (left - 1 - N.of_nat k) with (left - N.of_nat (S k)) by lia.
      split; [reflexivity|]. split; [exact Hheap|]. split; [exact Hdev|].
      split; [|exact Hst'].
      destruct k; [|reflexivity].
      replace (left - N.of_nat 1) with (left - 1) by lia. reflexivity.
Qed.

Lemma read_words_sim disk k : forall pos (s : state sim) left out b d,
  heap s !! a = Some d -> bus d = ATA_PRIMARY_BUS ->
  hw s = sim_set_xfer SimReading (base + N.of_nat pos) left disk b h0 ->
  ((0 < k)%nat -> b = 0) ->
  N.of_nat k <= left -> (pos + k <= length buf)%nat ->
  (forall j, 0 < j -> j < N.of_nat k ->
     sim_pause (sim_latency h0) (left - j) = 0) ->
  length out = length buf ->
  stored (sim_unit h0) base buf (length buf) disk ->
  agree out buf pos ->
  exists s' out',
    read_words k (Some a) out pos s = (Ret (out', (pos + k)%nat), s')
    /\ heap s' = heap s /\ devices s' = devices s
    /\ hw s' = sim_set_xfer SimReading (base + N.of_nat (pos + k))
                 (left - N.of_nat k) disk
                 (if k is O then b
                  else sim_pause (sim_latency h0) (left - N.of_nat k)) h0
    /\ length out' = length buf
    /\ agree out' buf (pos + k).
Proof.
  induction k as [|k IH];
    intros pos s left out b d Hd Hb Hhw Hz Hk Hlen Hin Hout Hst Hag.
  - exists s, out. cbn [read_words]. rewrite Nat.add_0_r, N.sub_0_r. auto 10.
  - destruct (lookup_lt_is_Some_2 buf pos ltac:(lia)) as [w Hw].
    rewrite (Hz ltac:(lia)) in Hhw.
    cbn [read_words].
    rewrite (dev_bus_bind _ _ a d) by exact Hd. rewrite Hb.
    assert (Hinw : inw (ATA_PRIMARY_BUS + ATA_REG_DATA) s
                   = (Ret w, log (EvInw 0x1f0 w)
                               (set_hw (sim_set_xfer SimReading
                                          (base + N.of_nat (S pos)) (left - 1)
                                          disk
                                          (sim_pause (sim_latency h0)
                                             (left - 1)) h0) s))).
    { unfold inw. cbn [plat_inw sim_platform].
      change (u16 (ATA_PRIMARY_BUS + ATA_REG_DATA)) with 0x1f0.
      rewrite Hhw, sim_inw_reading by (assumption || lia).
      rewrite (Hst pos w ltac:(lia) Hw). cbn [default from_option id].
      rewrite (buf_word _ _ Hw).
      replace (base + N.of_nat pos + 1) with (base + N.of_nat (S pos)) by lia.
      reflexivity. }
    step ltac:(exact Hinw).
    destruct (decide (pos < length out)%nat) as [Hlt|Hge]; [|lia].
    match goal with
    | |- context [read_words k (Some a) _ (S pos) ?s1] =>
        assert (H1 : heap s1 !! a = Some d) by exact Hd;
        destruct (IH (S pos) s1 (left - 1) (<[pos := w]> out) _ d H1 Hb
                    eq_refl)
          as (s' & out' & Hrun & Hheap & Hdev & Hhw' & Hlen' & Hag');
          [|lia|lia| | | | |]
    end.
    + intros Hk0. apply Hin; lia.
    + intros j Hj0 Hjk.
      replace (left - 1 - j) with (left - (j + 1)) by lia.
      apply Hin; lia.
    + rewrite length_insert. exact Hout.
    + exact Hst.
    + intros j Hj. destruct (decide (j = pos)) as [-> | Hne].
      * rewrite list_lookup_insert_eq by lia. congruence.
      * rewrite list_lookup_insert_ne by congruence. apply Hag. lia.
    + exists s', out'. rewrite Hrun, Hhw'.
      replace (S pos + k)%nat with (pos + S k)%nat in * by lia.
      replace (left - 1 - N.of_nat k) with (left - N.of_nat (S k)) by lia.
      split; [reflexivity|]. split; [exact Hheap|]. split; [exact Hdev|].
      split; [|auto].
      destruct k; [|reflexivity].
      replace (left - N.of_nat 1) with (left - 1) by lia. reflexivity.
Qed.

Variable fuel : nat.
Hypothesis fuel_enough : (N.to_nat (sim_latency h0) <= fuel)%nat.

Lemma write_sectors_sim n m : forall i pos (s : state sim) disk b,
  attached (sim_irq h0) a s ->
  hw s = sim_set_xfer SimWriting (base + N.of_nat pos) (256 * N.of_nat m)
           disk b h0 ->
  b <= sim_latency h0 ->
  i + N.of_nat m = n ->
  (pos + 256 * m <= length buf)%nat ->
  stored (sim_unit h0) base buf pos disk ->
  exists s' disk' b',
    write_sectors fuel m i n (Some a) buf pos s = (Ret None, s')
    /\ attached (sim_irq h0) a s'
    /\ hw s' = sim_set_xfer SimWriting (base + N.of_nat (pos + 256 * m)) 0
                 disk' b' h0
    /\ stored (sim_unit h0) base buf (pos + 256 * m) disk'.
Proof.
  induction m as [|m IH]; intros i pos s disk b Hat Hhw Hble Hi Hlen Hst;
    rewrite write_sectors_unfold.
  - replace i with n by lia. rewrite N.ltb_irrefl.
    exists s, disk, b. rewrite Nat.mul_0_r, Nat.add_0_r. auto.
  - assert (Hlt : (i <? n) = true) by (apply N.ltb_lt; lia). rewrite Hlt.
    destruct (wait_ready_sim fuel a s) as (s1 & E1 & Hhw1 & Hat1);
      try (rewrite Hhw; assumption).
    { rewrite Hhw. cbn [sim_busy sim_set_xfer]. lia. }
    step ltac:(exact E1).
    rewrite Hhw, sim_time_xfer in Hhw1 by exact h0_sched.
    rewrite Hhw in Hat1. change (sim_irq (sim_set_xfer _ _ _ _ _ h0))
      with (sim_irq h0) in Hat1.
    destruct Hat1 as [(d1 & Hd1 & Hb1) Hirq1].
    destruct (has_err_sim a s1 d1 Hd1 Hb1)
      as (s2 & E2 & Hhw2 & Hheap2 & Hdev2);
      try (rewrite Hhw1; (assumption || reflexivity)).
    step ltac:(exact E2). change (negb (0 =? 0)) with false. cbv iota.
    rewrite Hhw1 in Hhw2. rewrite <- Hheap2 in Hd1.
    destruct (write_words_sim 256 pos s2 (256 * N.of_nat (S m)) disk 0 d1
                Hd1 Hb1 Hhw2)
      as (s3 & disk3 & E3 & Hheap3 & Hdev3 & Hhw3 & Hst3);
      [reflexivity|lia|lia| |exact Hst|].
    { intros j Hj0 Hj. apply sim_pause_inside; [exact Hj0|].
      change (N.of_nat 256) with 256 in Hj. exact Hj. }
    step ltac:(exact E3).
    replace (256 * N.of_nat (S m) - N.of_nat 256) with (256 * N.of_nat m)
      in Hhw3 by lia.
    assert (Hat3 : attached (sim_irq h0) a s3).
    { split; [exists d1; rewrite Hheap3; auto|].
      rewrite Hdev3, Hdev2. exact Hirq1. }
    destruct (IH (N.succ i) (pos + 256)%nat s3 disk3 _ Hat3 Hhw3)
      as (s4 & disk4 & b4 & E4 & Hat4 & Hhw4 & Hst4);
      [apply sim_pause_le|lia|lia|exact Hst3|].
    exists s4, disk4, b4. rewrite E4, Hhw4.
    replace (pos + 256 + 256 * m)%nat with (pos + 256 * S m)%nat in * by lia.
    auto.
Qed.

Lemma read_sectors_sim disk n m : forall i pos (s : state sim) out b,
  attached (sim_irq h0) a s ->
  hw s = sim_set_xfer SimReading (base + N.of_nat pos) (256 * N.of_nat m)
           disk b h0 ->
  b <= sim_latency h0 ->
  i + N.of_nat m = n ->
  (pos + 256 * m <= length buf)%nat ->
  length out = length buf ->
  stored (sim_unit h0) base buf (length buf) disk ->
  agree out buf pos ->
  exists s' out',
    read_sectors ata_wait fuel m i n (Some a) out pos s
    = (Ret (None, out'), s')
    /\ attached (sim_irq h0) a s'
    /\ length out' = length buf
    /\ agree out' buf (pos + 256 * m).
Proof.
  induction m as [|m IH];
    intros i pos s out b Hat Hhw Hble Hi Hlen Hout Hst Hag;
    rewrite read_sectors_unfold.
  - replace i with n by lia. rewrite N.ltb_irrefl.
    exists s, out. rewrite Nat.mul_0_r, Nat.add_0_r. auto.
  - assert (Hlt : (i <? n) = true) by (apply N.ltb_lt; lia). rewrite Hlt.
    assert (Hge : (n <=? i) = false) by (apply N.leb_gt; lia). rewrite Hge.
    destruct (wait_ready_sim fuel a s) as (s1 & E1 & Hhw1 & Hat1);
      try (rewrite Hhw; assumption).
    { rewrite Hhw. cbn [sim_busy sim_set_xfer]. lia. }
    step ltac:(exact E1).
    rewrite Hhw, sim_time_xfer in Hhw1 by exact h0_sched.
    rewrite Hhw in Hat1. change (sim_irq (sim_set_xfer _ _ _ _ _ h0))
      with (sim_irq h0) in Hat1.
    destruct Hat1 as [(d1 & Hd1 & Hb1) Hirq1].
    destruct (has_err_sim a s1 d1 Hd1 Hb1)
      as (s2 & E2 & Hhw2 & Hheap2 & Hdev2);
      try (rewrite Hhw1; (assumption || reflexivity)).
    step ltac:(exact E2). change (negb (0 =? 0)) with false. cbv iota.
    rewrite Hhw1 in Hhw2. rewrite <- Hheap2 in Hd1.
    destruct (read_words_sim disk 256 pos s2 (256 * N.of_nat (S m)) out 0 d1
                Hd1 Hb1 Hhw2)
      as (s3 & out3 & E3 & Hheap3 & Hdev3 & Hhw3 & Hlen3 & Hag3);
      [reflexivity|lia|lia| |exact Hout|exact Hst|exact Hag|].
    { intros j Hj0 Hj. apply sim_pause_inside; [exact Hj0|].
      change (N.of_nat 256) with 256 in Hj. exact Hj. }
    step ltac:(exact E3). step ltac:(reflexivity). cbn [fst snd].
    replace (256 * N.of_nat (S m) - N.of_nat 256) with (256 * N.of_nat m)
      in Hhw3 by lia.
    assert (Hat3 : attached (sim_irq h0) a s3).
    { split; [exists d1; rewrite Hheap3; auto|].
      rewrite Hdev3, Hdev2. exact Hirq1. }
    destruct (IH (N.succ i) (pos + 256)%nat s3 out3 _ Hat3 Hhw3)
      as (s4 & out4 & E4 & Hat4 & Hlen4 & Hag4);
      [apply sim_pause_le|lia|lia|exact Hlen3|exact Hst|exact Hag3|].
    exists s4, out4. rewrite E4.
    replace (pos + 256 + 256 * m)%nat with (pos + 256 * S m)%nat in * by lia.
    auto.
Qed.

End RoundTrip.

Lemma setup_hw_sim slave lba n cmd h :
  sim_present h = true ->
  setup_hw ATA_PRIMARY_BUS slave lba n cmd h
  = sim_command (u8 cmd) (sim_task_file slave lba n h).
Proof.
  intros Hp. destruct h. cbn in Hp. subst. reflexivity.
Qed.

Lemma sim_words_count n : 0 < n -> n <= 255 -> sim_words (u8 n) = 256 * n.
Proof.
  intros H0 H255. rewrite u8_small by lia. unfold sim_words.
  destruct (n =? 0) eqn:E; [apply N.eqb_eq in E; lia|reflexivity].
Qed.

Lemma stored_nothing u base buf disk : stored u base buf 0 disk.
Proof. intros j w Hj. lia. Qed.

Lemma agree_nothing out buf : agree out buf 0.
Proof. intros j Hj. lia. Qed.

Lemma agree_all (out buf : list N) :
  length out = length buf -> agree out buf (length buf) -> out = buf.
Proof.
  intros Hl Ha. apply list_eq. intros j.
  destruct (decide (j < length buf)%nat) as [Hj|Hj]; [apply Ha; exact Hj|].
  rewrite !lookup_ge_None_2 by lia. reflexivity.
Qed.

(** Which drive and which sector the task file addresses.  Bit 4 of the
    select byte is clear for a non-zero [slave] and set otherwise. *)
Lemma sim_unit_task_file slave lba n h :
  sim_unit (sim_task_file slave lba n h) = negb (truthy slave).
Proof.
  unfold sim_unit, sim_task_file, sim_set_regs, select_byte.
  cbn [sim_drive]. rewrite N.lor_spec, N.land_spec.
  change (N.testbit 15 4) with false. rewrite andb_false_r, orb_false_r.
  destruct (truthy slave); reflexivity.
Qed.

Ltac bits :=
  repeat first
    [ rewrite N.lor_spec | rewrite N.land_spec | rewrite N.shiftr_spec'
    | rewrite N.shiftl_spec_low by lia
    | rewrite N.shiftl_spec_high' by lia
    | rewrite N.mod_pow2_bits_low by lia
    | rewrite N.mod_pow2_bits_high by lia
    | rewrite N.ones_spec_low by lia
    | rewrite N.ones_spec_high by lia
    | rewrite andb_false_r | rewrite andb_true_r
    | rewrite orb_false_r | rewrite orb_false_l ].

Lemma sim_lba_task_file slave lba n h :
  sim_lba (sim_task_file slave lba n h) = lba mod 2 ^ 28.
Proof.
  unfold sim_lba, sim_task_file, sim_set_regs, select_byte, u8.
  cbn [sim_drive sim_cyl_hi sim_cyl_lo sim_secnum].
  change 256 with (2 ^ 8). change 15 with (N.ones 4).
  assert (Hsel : forall j, j < 4 ->
            N.testbit (if truthy slave then 224 else 240) j = false).
  { intros j Hj. destruct (truthy slave).
    - change 224 with (N.shiftl 14 4). apply N.shiftl_spec_low. exact Hj.
    - change 240 with (N.shiftl 15 4). apply N.shiftl_spec_low. exact Hj. }
  apply N.bits_inj. intros i.
  destruct (N.lt_ge_cases i 8) as [H8|H8]; [bits; reflexivity|].
  destruct (N.lt_ge_cases i 16) as [H16|H16].
  { bits. f_equal. lia. }
  destruct (N.lt_ge_cases i 24) as [H24|H24].
  { bits. f_equal. lia. }
  destruct (N.lt_ge_cases i 28) as [H28|H28].
  { bits. rewrite Hsel by lia. bits. f_equal. lia. }
  bits. reflexivity.
Qed.

Lemma sim_command_write h :
  sim_command 0x30 h
  = sim_set_xfer SimWriting (256 * sim_lba h) (sim_words (sim_count h))
      (sim_disk h) (sim_latency h) h.
Proof. reflexivity. Qed.

Lemma sim_command_read h :
  sim_command 0x20 h
  = sim_set_xfer SimReading (256 * sim_lba h) (sim_words (sim_count h))
      (sim_disk h) (sim_latency h) h.
Proof. reflexivity. Qed.

Lemma sim_flush op addr left disk b h0 :
  sim_present h0 = true ->
  sim_outb 0x1f7 0xe7 (sim_set_xfer op addr left disk b h0)
  = sim_set_xfer SimIdle addr 0 disk (sim_latency h0) h0.
Proof.
  intros Hp. unfold sim_outb, sim_set_xfer.
  cbn [sim_present]. rewrite Hp. reflexivity.
Qed.

Lemma sim_write_ok fuel a slave lba n buf (s : state sim) :
  0 < n -> n <= 255 ->
  length buf = (256 * N.to_nat n)%nat ->
  Forall (fun w => w < 65536) buf ->
  ready_for_transfer a s ->
  (N.to_nat (sim_latency (hw s)) <= fuel)%nat ->
  exists s1,
    ata_write fuel (Some a) slave lba (Some buf) n s = (Ret 0%Z, s1)
    /\ ready_for_transfer a s1
    /\ sim_latency (hw s1) = sim_latency (hw s)
    /\ stored (sim_unit (sim_task_file slave lba n (hw s)))
         (256 * sim_lba (sim_task_file slave lba n (hw s)))
         buf (length buf) (sim_disk (hw s1))
    /\ data_transfers (trace s1)
       = (data_transfers (trace s) + 256 * N.to_nat n)%nat.
Proof.
  intros Hn0 Hn Hlen Hwords ((d & Hd & Hb & Hl) & Hirq & Hp & Hbad & Hsched)
    Hfuel.
  set (R := sim_task_file slave lba n (hw s)).
  assert (HpR : sim_present R = true) by exact Hp.
  assert (HbR : sim_bad R = None) by exact Hbad.
  assert (HsR : sim_sched R = []) by exact Hsched.
  assert (HfR : (N.to_nat (sim_latency R) <= fuel)%nat) by exact Hfuel.
  unfold ata_write. rewrite valid_args by assumption.
  rewrite (setup_run fuel a d) by (assumption || apply free_lock; assumption).
  change (default [] (Some buf)) with buf.
  set (s0 := after_setup a d slave lba n ATA_CMD_WRITE_SECTORS s).
  assert (Hat0 : attached (sim_irq R) a s0).
  { split; [|exact Hirq].
    exists (set_spinlock 1 d). split; [apply lookup_insert_eq|exact Hb]. }
  assert (Hhw0 : hw s0
                 = sim_set_xfer SimWriting
                     (256 * sim_lba R + N.of_nat 0)
                     (256 * N.of_nat (N.to_nat n))
                     (sim_disk (hw s)) (sim_latency R) R).
  { unfold s0, after_setup. cbn [hw]. rewrite Hb, setup_hw_sim by exact Hp.
    fold R. change (u8 ATA_CMD_WRITE_SECTORS) with 0x30.
    rewrite sim_command_write.
    change (sim_count R) with (u8 n). rewrite sim_words_count by assumption.
    rewrite N.add_0_r, N2Nat.id. reflexivity. }
  destruct (write_sectors_sim a buf Hwords R HpR HbR HsR (256 * sim_lba R)
              fuel HfR n (N.to_nat n) 0 0%nat s0 (sim_disk (hw s)) _
              Hat0 Hhw0)
    as (s' & disk' & b' & E & [(d' & Hd' & Hb') Hirq'] & Hhw' & Hst');
    [lia|lia|lia|apply stored_nothing|].
  step ltac:(exact E). cbv iota.
  assert (Hcount : data_transfers (trace s')
                   = (data_transfers (trace s) + 256 * N.to_nat n)%nat).
  { replace n with (0 + N.of_nat (N.to_nat n)) in E at 2 by lia.
    apply (write_sectors_prefix _ _ n _ 0%nat) in E; [|lia].
    rewrite (proj2 E). unfold s0, after_setup. cbn [trace].
    rewrite data_transfers_app, setup_no_data. lia. }
  rewrite (dev_bus_bind _ _ a d') by exact Hd'.
  unfold ata_command. rewrite outb_bind.
  step ltac:(apply (unlock_run _ a d'); exact Hd').
  unfold ret. eexists. split; [reflexivity|].
  cbn [hw heap devices trace log set_hw set_heap plat_outb sim_platform].
  rewrite Hb', Hhw'.
  change (u16 (ATA_PRIMARY_BUS + ATA_REG_COMMAND)) with 0x1f7.
  change (u8 ATA_CMD_CACHE_FLUSH) with 0xe7.
  rewrite sim_flush by exact HpR.
  split; [split; [|split; [exact Hirq'|split; [exact HpR|split;
                                                 [exact HbR|exact HsR]]]]
         |split; [reflexivity|split]].
  - exists (set_spinlock 0 d'). split; [apply lookup_insert_eq|]. auto.
  - cbn [sim_disk sim_set_xfer]. rewrite Hlen.
    replace (256 * N.to_nat n)%nat with (0 + 256 * N.to_nat n)%nat by lia.
    exact Hst'.
  - rewrite !data_transfers_app, Hcount. cbn [data_transfers is_data]. lia.
Qed.

Lemma sim_read_ok fuel a slave lba n buf out (s : state sim) :
  0 < n -> n <= 255 ->
  length buf = (256 * N.to_nat n)%nat ->
  length out = length buf ->
  Forall (fun w => w < 65536) buf ->
  ready_for_transfer a s ->
  (N.to_nat (sim_latency (hw s)) <= fuel)%nat ->
  stored (sim_unit (sim_task_file slave lba n (hw s)))
    (256 * sim_lba (sim_task_file slave lba n (hw s)))
    buf (length buf) (sim_disk (hw s)) ->
  exists s2,
    ata_read fuel (Some a) slave lba (Some out) n s
    = (Ret (0%Z, Some buf), s2)
    /\ data_transfers (trace s2)
       = (data_transfers (trace s) + 256 * N.to_nat n)%nat.
Proof.
  intros Hn0 Hn Hlen Hout Hwords
    ((d & Hd & Hb & Hl) & Hirq & Hp & Hbad & Hsched) Hfuel Hst.
  set (R := sim_task_file slave lba n (hw s)) in *.
  assert (HpR : sim_present R = true) by exact Hp.
  assert (HbR : sim_bad R = None) by exact Hbad.
  assert (HsR : sim_sched R = []) by exact Hsched.
  assert (HfR : (N.to_nat (sim_latency R) <= fuel)%nat) by exact Hfuel.
  unfold ata_read, ata_read_with. rewrite valid_args by assumption.
  rewrite (setup_run fuel a d) by (assumption || apply free_lock; assumption).
  change (default [] (Some out)) with out.
  set (s0 := after_setup a d slave lba n ATA_CMD_READ_SECTORS s).
  assert (Hat0 : attached (sim_irq R) a s0).
  { split; [|exact Hirq].
    exists (set_spinlock 1 d). split; [apply lookup_insert_eq|exact Hb]. }
  assert (Hhw0 : hw s0
                 = sim_set_xfer SimReading
                     (256 * sim_lba R + N.of_nat 0)
                     (256 * N.of_nat (N.to_nat n))
                     (sim_disk (hw s)) (sim_latency R) R).
  { unfold s0, after_setup. cbn [hw]. rewrite Hb, setup_hw_sim by exact Hp.
    fold R. change (u8 ATA_CMD_READ_SECTORS) with 0x20.
    rewrite sim_command_read.
    change (sim_count R) with (u8 n). rewrite sim_words_count by assumption.
    rewrite N.add_0_r, N2Nat.id. reflexivity. }
  destruct (read_sectors_sim a buf Hwords R HpR HbR HsR (256 * sim_lba R)
              fuel HfR (sim_disk (hw s)) n (N.to_nat n) 0 0%nat s0 out _
              Hat0 Hhw0)
    as (s' & out' & E & [(d' & Hd' & Hb') Hirq'] & Hlen' & Hag');
    [lia|lia|lia|exact Hout|exact Hst|apply agree_nothing|].
  step ltac:(exact E). cbn [fst snd].
  assert (Hcount : data_transfers (trace s')
                   = (data_transfers (trace s) + 256 * N.to_nat n)%nat).
  { replace n with (0 + N.of_nat (N.to_nat n)) in E at 2 by lia.
    apply (read_sectors_prefix _ _ _ n _ 0%nat) in E; [|lia].
    rewrite (proj2 E). unfold s0, after_setup. cbn [trace].
    rewrite data_transfers_app, setup_no_data. lia. }
  step ltac:(apply (unlock_run _ a d'); exact Hd').
  unfold ret.
  assert (Heq : out' = buf).
  { apply agree_all; [exact Hlen'|]. rewrite Hlen.
    replace (256 * N.to_nat n)%nat with (0 + 256 * N.to_nat n)%nat by lia.
    exact Hag'. }
  rewrite Heq. eexists. split; [reflexivity|].
  cbn [trace log set_heap]. rewrite data_transfers_app, Hcount.
  cbn [data_transfers is_data]. lia.
Qed.

(** C1: on the simulated controller, with the device record at the
    primary port range (and at the head of the device list when the
    controller raises interrupts), its guard free, no bad sector, nothing
    else scheduled and a waiting budget that covers the controller's
    latency, for every sector count [0 < n <= 255], every [lba], every
    slave flag and every buffer of [n * 256] 16-bit words: [ata_write]
    returns 0 after exactly [n * 256] data-register transfers and leaves
    the words of the buffer on the addressed drive, in order, from the
    first word of sector [lba mod 2^28] on; [ata_read] with the same
    arguments then returns 0 after exactly [n * 256] data-register
    transfers and its buffer comes back equal to the one written. *)
Theorem ata_write_read_roundtrip fuel a slave lba n buf out (s : state sim) :
  0 < n -> n <= 255 ->
  length buf = (256 * N.to_nat n)%nat ->
  length out = length buf ->
  Forall (fun w => w < 65536) buf ->
  ready_for_transfer a s ->
  (N.to_nat (sim_latency (hw s)) <= fuel)%nat ->
  exists s1 s2,
    ata_write fuel (Some a) slave lba (Some buf) n s = (Ret 0%Z, s1)
    /\ data_transfers (trace s1)
       = (data_transfers (trace s) + 256 * N.to_nat n)%nat
    /\ (forall j w, buf !! j = Some w ->
          sim_disk (hw s1)
            !! (negb (truthy slave), 256 * (lba mod 2 ^ 28) + N.of_nat j)
          = Some w)
    /\ ata_read fuel (Some a) slave lba (Some out) n s1
       = (Ret (0%Z, Some buf), s2)
    /\ data_transfers (trace s2)
       = (data_transfers (trace s1) + 256 * N.to_nat n)%nat.
Proof.
  intros Hn0 Hn Hlen Hout Hwords Hready Hfuel.
  destruct (sim_write_ok fuel a slave lba n buf s Hn0 Hn Hlen Hwords Hready
              Hfuel)
    as (s1 & Ew & Hready1 & Hlat & Hst & Hcw).
  rewrite <- Hlat in Hfuel.
  destruct (sim_read_ok fuel a slave lba n buf out s1 Hn0 Hn Hlen Hout Hwords
              Hready1 Hfuel)
    as (s2 & Er & Hcr).
  { rewrite sim_unit_task_file, sim_lba_task_file in *. exact Hst. }
  exists s1, s2. split; [exact Ew|]. split; [exact Hcw|].
  split; [|split; [exact Er|exact Hcr]].
  intros j w Hw. rewrite sim_unit_task_file, sim_lba_task_file in Hst.
  apply Hst; [|exact Hw]. apply lookup_lt_Some in Hw. exact Hw.
Qed.

(** * Bring-up on the simulated controller *)

Lemma hw_log (e : event) (s : state sim) : hw (log e s) = hw s.
Proof. reflexivity. Qed.

Lemma hw_set_hw (h : sim) (s : state sim) : hw (set_hw h s) = h.
Proof. reflexivity. Qed.

Lemma setup_identify_sim h :
  sim_present h = true -> sim_packet h = false ->
  setup_identify_hw ATA_PRIMARY_BUS 0 h
  = sim_set_xfer SimIdentify 0 256 (sim_disk h) 0
      (sim_set_regs 0xb0 0 0 0 0 h).
Proof.
  intros Hp Hk. destruct h. cbn in Hp, Hk. subst. reflexivity.
Qed.

Lemma sim_status_identify h0 addr left disk :
  sim_present h0 = true -> 0 < left ->
  sim_status (sim_set_xfer SimIdentify addr left disk 0 h0) = 0x48.
Proof.
  intros Hp Hl. apply N.ltb_lt in Hl.
  unfold sim_status, sim_at_bad, sim_in_transfer, sim_set_xfer.
  cbn [sim_present sim_busy sim_left sim_bad sim_op].
  rewrite Hp, Hl. destruct (sim_bad h0); reflexivity.
Qed.

Lemma sim_inw_identify h0 addr left disk :
  sim_present h0 = true -> 0 < left ->
  sim_inw 0x1f0 (sim_set_xfer SimIdentify addr left disk 0 h0)
  = (nth (N.to_nat addr) (sim_ident h0) 0,
     sim_set_xfer SimIdentify (addr + 1) (left - 1) disk 0 h0).
Proof.
  intros Hp Hl. apply N.ltb_lt in Hl.
  unfold sim_inw, sim_data_open, sim_set_xfer.
  cbn [sim_present sim_left sim_op sim_addr sim_disk sim_drive sim_count
       sim_secnum sim_cyl_lo sim_cyl_hi sim_bad sim_ident sim_sched
       sim_slots sim_packet sim_busy sim_latency sim_irq].
  rewrite Hp, Hl. reflexivity.
Qed.

Lemma identify_words_sim h0 disk k : forall addr left (s : state sim),
  sim_present h0 = true ->
  hw s = sim_set_xfer SimIdentify addr left disk 0 h0 ->
  N.of_nat k <= left ->
  exists ws s',
    identify_words k ATA_PRIMARY_BUS s = (Ret ws, s')
    /\ hw s' = sim_set_xfer SimIdentify (addr + N.of_nat k)
                 (left - N.of_nat k) disk 0 h0.
Proof.
  induction k as [|k IH]; intros addr left s Hp Hhw Hk.
  - exists [], s. split; [reflexivity|].
    rewrite N.add_0_r, N.sub_0_r. exact Hhw.
  - cbn [identify_words].
    assert (Hin : inw (ATA_PRIMARY_BUS + ATA_REG_DATA) s
                  = (Ret (u16 (nth (N.to_nat addr) (sim_ident h0) 0)),
                     log (EvInw 0x1f0
                            (u16 (nth (N.to_nat addr) (sim_ident h0) 0)))
                       (set_hw (sim_set_xfer SimIdentify (addr + 1)
                                  (left - 1) disk 0 h0) s))).
    { unfold inw. cbn [plat_inw sim_platform].
      change (u16 (ATA_PRIMARY_BUS + ATA_REG_DATA)) with 0x1f0.
      rewrite Hhw, sim_inw_identify by (assumption || lia). reflexivity. }
    step ltac:(exact Hin).
    match goal with
    | |- context [bind (identify_words k _) _ ?s1] =>
        destruct (IH (addr + 1) (left - 1) s1 Hp eq_refl ltac:(lia))
          as (ws & s' & E & Hhw')
    end.
    step ltac:(exact E).
    eexists. exists s'. split; [reflexivity|]. rewrite Hhw'.
    f_equal; lia.
Qed.

Lemma inb_sim (s : state sim) port v :
  sim_present (hw s) = true ->
  fst (sim_inb (u16 port) (hw s)) = v ->
  inb port s = (Ret (u8 v), log (EvInb (u16 port) (u8 v)) (set_hw (hw s) s)).
Proof.
  intros Hp Hv. apply inb_run. cbn [plat_inb sim_platform].
  rewrite <- Hv. unfold sim_inb. rewrite Hp. cbn [negb].
  repeat match goal with
         | |- context [if ?c then _ else _] => destruct c
         end; reflexivity.
Qed.

(** While the identify transfer is open the status register reads
    ready with data request, and the cylinder registers read what the
    set-up wrote to them. *)
Lemma identify_status_sim (R : sim) disk (t : state sim) :
  sim_present R = true ->
  hw t = sim_set_xfer SimIdentify 0 256 disk 0 R ->
  exists t', inb (ATA_PRIMARY_BUS + ATA_REG_STATUS) t = (Ret 0x48, t')
             /\ hw t' = sim_set_xfer SimIdentify 0 256 disk 0 R.
Proof.
  intros HpR Ht. set (X := sim_set_xfer SimIdentify 0 256 disk 0 R) in *.
  exists (log (EvInb (u16 (ATA_PRIMARY_BUS + ATA_REG_STATUS)) (u8 0x48))
            (set_hw (hw t) t)). split; [|exact Ht].
  apply (inb_sim t (ATA_PRIMARY_BUS + ATA_REG_STATUS) 0x48).
  - rewrite Ht. exact HpR.
  - rewrite Ht.
    change (u16 (ATA_PRIMARY_BUS + ATA_REG_STATUS)) with 0x1f7.
    unfold sim_inb. change (sim_present X) with (sim_present R).
    rewrite HpR. cbn [negb].
    change (0x1f7 =? ATA_PRIMARY_BUS + ATA_REG_STATUS) with true.
    cbv iota. cbn [fst].
    apply sim_status_identify; [exact HpR|reflexivity].
Qed.

Lemma identify_cylinder_sim (R : sim) disk (t : state sim) reg :
  sim_present R = true -> sim_cyl_lo R = 0 -> sim_cyl_hi R = 0 ->
  hw t = sim_set_xfer SimIdentify 0 256 disk 0 R ->
  reg = ATA_REG_CYLINDER_LOW \/ reg = ATA_REG_CYLINDER_HIGH ->
  exists t', inb (ATA_PRIMARY_BUS + reg) t = (Ret 0, t')
             /\ hw t' = sim_set_xfer SimIdentify 0 256 disk 0 R.
Proof.
  intros HpR Hlo Hhi Ht Hreg.
  set (X := sim_set_xfer SimIdentify 0 256 disk 0 R) in *.
  exists (log (EvInb (u16 (ATA_PRIMARY_BUS + reg)) (u8 0)) (set_hw (hw t) t)).
  split; [|exact Ht].
  apply (inb_sim t (ATA_PRIMARY_BUS + reg) 0).
  - rewrite Ht. exact HpR.
  - rewrite Ht. unfold sim_inb.
    change (sim_present X) with (sim_present R).
    rewrite HpR. destruct Hreg as [-> | ->]; cbn; assumption.
Qed.

Lemma identify_busy_loop_sim fuel (R : sim) disk (t : state sim) :
  sim_present R = true ->
  hw t = sim_set_xfer SimIdentify 0 256 disk 0 R ->
  exists t', identify_busy_loop fuel ATA_PRIMARY_BUS t = (Ret tt, t')
             /\ hw t' = sim_set_xfer SimIdentify 0 256 disk 0 R.
Proof.
  intros HpR Ht.
  destruct (identify_status_sim R disk t HpR Ht) as (t' & E & Ht').
  exists t'. split; [|exact Ht'].
  destruct fuel; cbn [identify_busy_loop]; unfold ata_is_busy;
    (step ltac:(step ltac:(exact E); reflexivity)); reflexivity.
Qed.

Lemma identify_status_loop_sim fuel (R : sim) disk (t : state sim) :
  sim_present R = true ->
  hw t = sim_set_xfer SimIdentify 0 256 disk 0 R ->
  exists t', identify_status_loop fuel ATA_PRIMARY_BUS t = (Ret 0x48, t')
             /\ hw t' = sim_set_xfer SimIdentify 0 256 disk 0 R.
Proof.
  intros HpR Ht.
  destruct (identify_status_sim R disk t HpR Ht) as (t' & E & Ht').
  exists t'. split; [|exact Ht'].
  destruct fuel; cbn [identify_status_loop];
    (step ltac:(exact E)); reflexivity.
Qed.

(** The part of [ata_identify] that follows the six register writes. *)
Lemma identify_tail_sim fuel (R : sim) disk (t : state sim) :
  sim_present R = true -> sim_cyl_lo R = 0 -> sim_cyl_hi R = 0 ->
  hw t = sim_set_xfer SimIdentify 0 256 disk 0 R ->
  exists data s',
    (status <- inb (ATA_PRIMARY_BUS + ATA_REG_STATUS) ;;
     if status =? 0 then ret (0%Z, [])
     else
       identify_busy_loop fuel ATA_PRIMARY_BUS ;;;
       cl <- inb (ATA_PRIMARY_BUS + ATA_REG_CYLINDER_LOW) ;;
       nonzero <- (if negb (cl =? 0) then ret true
                   else ch <- inb (ATA_PRIMARY_BUS + ATA_REG_CYLINDER_HIGH) ;;
                        ret (negb (ch =? 0))) ;;
       if nonzero : bool then ret (0%Z, [])
       else
         status <- identify_status_loop fuel ATA_PRIMARY_BUS ;;
         if negb (N.land status ATA_STATUS_ERR =? 0) then ret (0%Z, [])
         else
           data <- identify_words 256 ATA_PRIMARY_BUS ;;
           ret (1%Z, data)) t
    = (Ret (1%Z, data), s')
    /\ hw s' = sim_set_xfer SimIdentify 256 0 disk 0 R.
Proof.
  intros HpR Hlo Hhi H6.
  destruct (identify_status_sim R disk t HpR H6) as (t7 & E7 & H7).
  step ltac:(exact E7).
  change (72 =? 0) with false. cbv iota.
  destruct (identify_busy_loop_sim fuel R disk t7 HpR H7) as (t8 & E8 & H8).
  step ltac:(exact E8).
  destruct (identify_cylinder_sim R disk t8 ATA_REG_CYLINDER_LOW HpR Hlo Hhi
              H8 ltac:(auto))
    as (t9 & E9 & H9).
  step ltac:(exact E9).
  change (negb (0 =? 0)) with false. cbv iota.
  destruct (identify_cylinder_sim R disk t9 ATA_REG_CYLINDER_HIGH HpR Hlo Hhi
              H9 ltac:(auto))
    as (t10 & E10 & H10).
  step ltac:(step ltac:(exact E10); reflexivity).
  change (negb (0 =? 0)) with false. cbv iota.
  destruct (identify_status_loop_sim fuel R disk t10 HpR H10)
    as (t11 & E11 & H11).
  step ltac:(exact E11).
  change (negb (N.land 72 ATA_STATUS_ERR =? 0)) with false. cbv iota.
  destruct (identify_words_sim R disk 256 0 256 t11 HpR H11)
    as (ws & s' & E & Hhw'); [change (N.of_nat 256) with 256; lia|].
  step ltac:(exact E).
  exists ws, s'. split; [reflexivity|]. exact Hhw'.
Qed.

Lemma ata_identify_sim_run fuel (s : state sim) :
  sim_present (hw s) = true -> sim_packet (hw s) = false ->
  exists data s',
    ata_identify fuel ATA_PRIMARY_BUS 0 s = (Ret (1%Z, data), s')
    /\ hw s' = sim_set_xfer SimIdentify 256 0 (sim_disk (hw s)) 0
                 (sim_set_regs 0xb0 0 0 0 0 (hw s)).
Proof.
  intros Hp Hk.
  unfold ata_identify, ata_select_drive, ata_command.
  rewrite !outb_bind.
  match goal with
  | |- context [bind (inb _) _ ?s6] =>
      assert (H6 : hw s6 = setup_identify_hw ATA_PRIMARY_BUS 0 (hw s))
  end.
  { repeat (rewrite hw_log || rewrite hw_set_hw).
    unfold setup_identify_hw. reflexivity. }
  rewrite (setup_identify_sim (hw s) Hp Hk) in H6.
  apply (identify_tail_sim fuel (sim_set_regs 0xb0 0 0 0 0 (hw s))
           (sim_disk (hw s)) _ Hp eq_refl eq_refl H6).
Qed.

(** The identify sequence on a disk that is there and is no packet
    device: it returns 1 and leaves the controller with the identify
    transfer drained. *)
Lemma ata_identify_sim fuel (s : state sim) :
  sim_present (hw s) = true -> sim_packet (hw s) = false ->
  exists data io,
    ata_identify fuel ATA_PRIMARY_BUS 0 s
    = (Ret (1%Z, data),
       frame s
         (sim_set_xfer SimIdentify 256 0 (sim_disk (hw s)) 0
            (sim_set_regs 0xb0 0 0 0 0 (hw s)))
         io).
Proof.
  intros Hp Hk.
  destruct (port_only_identify fuel ATA_PRIMARY_BUS 0 s s eq_refl)
    as (o & h & io & Erun & _).
  destruct (ata_identify_sim_run fuel s Hp Hk) as (data & s' & Hrun & Hhw').
  rewrite Erun in Hrun. inversion Hrun; subst o s'.
  cbn [hw frame] in Hhw'. subst h.
  exists data, io. exact Erun.
Qed.

Lemma sim_status_not_floating h :
  sim_present h = true -> u8 (sim_status h) <> 0xff.
Proof.
  intros Hp. unfold sim_status. rewrite Hp.
  destruct (0 <? sim_busy h), (0 <? sim_left h), (sim_at_bad h);
    vm_compute; discriminate.
Qed.

Lemma sim_inb_status h :
  sim_present h = true ->
  sim_inb (u16 (u16 ATA_PRIMARY_BUS + ATA_REG_STATUS)) h = (sim_status h, h).
Proof. intros Hp. unfold sim_inb. rewrite Hp. reflexivity. Qed.

(** [ata_init] on a disk that is there and is no packet device, with a
    free slot in the pool: the slot becomes the one device of the list. *)
Lemma ata_init_sim fuel a rest (s : state sim) :
  sim_present (hw s) = true -> sim_packet (hw s) = false ->
  sim_slots (hw s) = Some (a :: rest) ->
  exists s0,
    ata_init fuel s = (Ret tt, s0)
    /\ devices s0 = Some a
    /\ heap s0
       = <[a := mk_device NULL ATA_PRIMARY_BUS ATA_PRIMARY_CTRL 0 0]> (heap s)
    /\ devices_cache s0 = Some rest
    /\ hw s0 = sim_set_xfer SimIdentify 256 0 (sim_disk (hw s)) 0
                 (sim_set_regs 0xb0 0 0 0 0 (hw s)).
Proof.
  intros Hp Hk Hslots.
  unfold ata_init. cbv zeta. cbn [plat_cache_create sim_platform].
  rewrite Hslots.
  set (s1 := set_devices_cache (Some (a :: rest)) s).
  destruct (ata_identify_sim fuel (set_hw (hw s) s1) Hp Hk)
    as (data & io & Hid).
  assert (Hrun : ata_init_device fuel ATA_PRIMARY_BUS ATA_PRIMARY_CTRL s1
                 = (Ret (Some a),
                    mk_state
                      (<[a := mk_device NULL (u16 ATA_PRIMARY_BUS)
                                 (u16 ATA_PRIMARY_CTRL) 0 0]> (heap s1))
                      (devices s1) (Some rest)
                      (sim_set_xfer SimIdentify 256 0 (sim_disk (hw s)) 0
                         (sim_set_regs 0xb0 0 0 0 0 (hw s)))
                      (trace s1 ++
                         [ EvAlloc a;
                           EvInb (u16 (u16 ATA_PRIMARY_BUS + ATA_REG_STATUS))
                             (u8 (sim_status (hw s))) ]
                         ++ io ++ bringup_messages data))).
  { apply (init_device_success_run fuel ATA_PRIMARY_BUS ATA_PRIMARY_CTRL
             a rest (sim_status (hw s)) (hw s)).
    - reflexivity.
    - apply sim_inb_status. exact Hp.
    - apply sim_status_not_floating. exact Hp.
    - exact Hid. }
  step ltac:(exact Hrun).
  eexists. split; [reflexivity|].
  cbn [devices heap devices_cache hw put_devices set_devices].
  repeat split.
Qed.

(** On the simulated controller bring-up and transfers fit together: when
    the disk is there, is no packet device and has no bad sector, the
    pool has a free slot, nothing else is scheduled and the waiting budget
    covers the latency, [ata_init] registers a device, and on that device
    [ata_write] of [n] sectors followed by [ata_read] of the same sectors
    returns the buffer written. *)
Theorem ata_init_then_round_trip fuel a rest slave lba n buf out
    (s : state sim) :
  sim_present (hw s) = true -> sim_packet (hw s) = false ->
  sim_bad (hw s) = None -> sim_sched (hw s) = [] ->
  sim_slots (hw s) = Some (a :: rest) ->
  (N.to_nat (sim_latency (hw s)) <= fuel)%nat ->
  0 < n -> n <= 255 ->
  length buf = (256 * N.to_nat n)%nat ->
  length out = length buf ->
  Forall (fun w => w < 65536) buf ->
  exists s0 s1 s2,
    ata_init fuel s = (Ret tt, s0)
    /\ devices s0 = Some a
    /\ ready_for_transfer a s0
    /\ ata_write fuel (devices s0) slave lba (Some buf) n s0 = (Ret 0%Z, s1)
    /\ ata_read fuel (devices s0) slave lba (Some out) n s1
       = (Ret (0%Z, Some buf), s2).
Proof.
  intros Hp Hk Hbad Hsched Hslots Hfuel Hn0 Hn Hlen Hout Hwords.
  destruct (ata_init_sim fuel a rest s Hp Hk Hslots)
    as (s0 & Hinit & Hdev & Hheap & _ & Hhw).
  assert (Hready : ready_for_transfer a s0).
  { split; [|split; [|split; [|split]]].
    - eexists. rewrite Hheap, lookup_insert_eq.
      split; [reflexivity|]. split; reflexivity.
    - intros _. exact Hdev.
    - rewrite Hhw. exact Hp.
    - rewrite Hhw. exact Hbad.
    - rewrite Hhw. exact Hsched. }
  assert (Hfuel0 : (N.to_nat (sim_latency (hw s0)) <= fuel)%nat)
    by (rewrite Hhw; exact Hfuel).
  destruct (sim_write_ok fuel a slave lba n buf s0 Hn0 Hn Hlen Hwords Hready
              Hfuel0)
    as (s1 & Ew & Hready1 & Hlat & Hst & _).
  rewrite <- Hlat in Hfuel0.
  destruct (sim_read_ok fuel a slave lba n buf out s1 Hn0 Hn Hlen Hout Hwords
              Hready1 Hfuel0)
    as (s2 & Er & _).
  { rewrite sim_unit_task_file, sim_lba_task_file in *. exact Hst. }
  exists s0, s1, s2. rewrite Hdev. auto.
Qed.

(** * The properties on the simulated controller *)

Lemma run_eta {A} (m : M sim A) (s : state sim) : m s = (fst (m s), snd (m s)).
Proof. destruct (m s). reflexivity. Qed.

(** Two sectors written from sector 7 on and read back, on the controller
    that is busy for three ticks per sector and raises its interrupt. *)
Lemma ata_write_read_roundtrip_witness :
  0 < 2 /\ 2 <= 255
  /\ length (N.of_nat <$> seq 0 512) = (256 * N.to_nat 2)%nat
  /\ length (repeat 0 512) = length (N.of_nat <$> seq 0 512)
  /\ Forall (fun w => w < 65536) (N.of_nat <$> seq 0 512)
  /\ ready_for_transfer 1%nat (sim_state sim_slow)
  /\ (N.to_nat (sim_latency (hw (sim_state sim_slow))) <= 3)%nat
  /\ exists s1 s2,
       ata_write 3 (Some 1%nat) 1 7 (Some (N.of_nat <$> seq 0 512)) 2
         (sim_state sim_slow) = (Ret 0%Z, s1)
       /\ ata_read 3 (Some 1%nat) 1 7 (Some (repeat 0 512)) 2 s1
          = (Ret (0%Z, Some (N.of_nat <$> seq 0 512)), s2).
Proof.
  assert (H0 : 0 < 2) by reflexivity.
  assert (H1 : 2 <= 255) by discriminate.
  assert (H2 : length (N.of_nat <$> seq 0 512) = (256 * N.to_nat 2)%nat)
    by (vm_compute; reflexivity).
  assert (H3 : length (repeat 0 512) = length (N.of_nat <$> seq 0 512))
    by (vm_compute; reflexivity).
  assert (H4 : Forall (fun w => w < 65536) (N.of_nat <$> seq 0 512)).
  { apply Forall_forall. intros w Hw. apply list_elem_of_fmap in Hw.
    destruct Hw as (k & -> & Hk). apply elem_of_seq in Hk. lia. }
  assert (H5 : ready_for_transfer 1%nat (sim_state sim_slow)).
  { split; [|split; [|split; [|split]]; reflexivity]. exists primary_device.
    split; [reflexivity|]. split; reflexivity. }
  assert (H6 : (N.to_nat (sim_latency (hw (sim_state sim_slow))) <= 3)%nat)
    by (vm_compute; lia).
  repeat (split; [assumption|]).
  destruct (ata_write_read_roundtrip 3 1%nat 1 7 2 (N.of_nat <$> seq 0 512)
              (repeat 0 512) (sim_state sim_slow) H0 H1 H2 H3 H4 H5 H6)
    as (s1 & s2 & Ew & _ & _ & Er & _).
  exists s1, s2. split; [exact Ew|exact Er].
Defined.

(** The probe on the simulated disk: it answers with the PATA signature. *)
Lemma ata_get_type_classifies_witness :
  heap (sim_state sim_boot) !! 1%nat = Some primary_device
  /\ ata_get_type NULL 0 (sim_state sim_boot)
     = (Ret ATA_TYPE_UNKNOWN, sim_state sim_boot)
  /\ fst (ata_get_type (Some 1%nat) 0 (sim_state sim_boot)) = Ret ATA_TYPE_PATA.
Proof.
  split; [reflexivity|].
  split.
  - apply (proj1 (@ata_get_type_classifies sim sim_platform)).
  - destruct (proj2 (@ata_get_type_classifies sim sim_platform) 1%nat
                primary_device 0%Z (sim_state sim_boot) eq_refl)
      as (v1 & v2 & w1 & w2 & w3 & w4 & cl & ch & r & s' & Hrun & Ht & Hpata
          & _).
    pose proof (f_equal fst Hrun) as Hr. cbn [fst] in Hr.
    pose proof (f_equal snd Hrun) as Hs. cbn [snd] in Hs.
    refine (eq_trans Hr _). f_equal. apply Hpata.
    assert (Hlog : trace s'
                   = [ EvInb 0xf6 0xff; EvOutb 0xf6 0xff; EvInb 0xf6 0xff;
                       EvOutb 0xf6 0xfb; EvOutb 0x1f6 0xb0;
                       EvInb 0x3f6 0x40; EvInb 0x3f6 0x40; EvInb 0x3f6 0x40;
                       EvInb 0x3f6 0x40; EvInb 0x1f4 0; EvInb 0x1f5 0 ])
      by (rewrite <- Hs; vm_compute; reflexivity).
    rewrite Ht in Hlog. inversion Hlog. split; reflexivity.
Defined.

Lemma ata_read_write_reject_invalid_witness :
  255 < 256
  /\ ata_read 1 (Some 1%nat) 0 0 (Some (repeat 0 256)) 256 (sim_state sim_boot)
     = (Ret ((-1)%Z, Some (repeat 0 256)), sim_state sim_boot)
  /\ ata_write 1 (Some 1%nat) 0 0 (Some (repeat 0 256)) 256
       (sim_state sim_boot)
     = (Ret (-1)%Z, sim_state sim_boot).
Proof.
  split; [reflexivity|].
  apply (ata_read_write_reject_invalid 1 (Some 1%nat) 0 0
           (Some (repeat 0 256)) 256 (sim_state sim_boot)).
  right. right. reflexivity.
Defined.

Lemma ata_irq_needs_registered_device_witness :
  devices (boot_state sim_boot) = NULL
  /\ ata_irq (boot_state sim_boot) = (Fault, boot_state sim_boot).
Proof.
  split; [reflexivity|].
  apply (ata_irq_needs_registered_device (boot_state sim_boot)).
  reflexivity.
Defined.

Lemma ata_read_write_zero_sectors_witness :
  heap (sim_state sim_boot) !! 1%nat = Some primary_device
  /\ spinlock primary_device = 0%Z
  /\ exists s',
       ata_write 0 (Some 1%nat) 1 5 (Some []) 0 (sim_state sim_boot)
       = (Ret 0%Z, s')
       /\ heap s' = heap (sim_state sim_boot)
       /\ trace s' = trace (sim_state sim_boot) ++
            [ EvLock 1%nat;
              EvOutb (u16 (bus primary_device + ATA_REG_DRIVE))
                (N.lor (if truthy 1 then 0xe0 else 0xf0)
                       (N.land (N.shiftr 5 24) 0xf));
              EvOutb (u16 (bus primary_device + ATA_REG_SECTOR_COUNT)) 0;
              EvOutb (u16 (bus primary_device + ATA_REG_SECTOR_NUMBER)) (u8 5);
              EvOutb (u16 (bus primary_device + ATA_REG_CYLINDER_LOW))
                (u8 (N.shiftr 5 8));
              EvOutb (u16 (bus primary_device + ATA_REG_CYLINDER_HIGH))
                (u8 (N.shiftr 5 16));
              EvOutb (u16 (bus primary_device + ATA_REG_COMMAND))
                ATA_CMD_WRITE_SECTORS;
              EvOutb (u16 (bus primary_device + ATA_REG_COMMAND))
                ATA_CMD_CACHE_FLUSH;
              EvUnlock 1%nat ].
Proof.
  split; [reflexivity|]. split; [reflexivity|].
  apply (ata_read_write_zero_sectors 0 1%nat primary_device 1 5 []
           (sim_state sim_boot)); reflexivity.
Defined.

Lemma ata_setup_sequence_order_witness :
  heap (sim_state sim_boot) !! 1%nat = Some primary_device
  /\ spinlock primary_device = 0%Z
  /\ 1 <= 255
  /\ exists rest,
       trace (snd (ata_read 1 (Some 1%nat) 0 0x1234567 (Some (repeat 0 256)) 1
                     (sim_state sim_boot)))
       = [] ++
         [ EvLock 1%nat; EvOutb 0x1f6 0xf1; EvOutb 0x1f2 1; EvOutb 0x1f3 0x67;
           EvOutb 0x1f4 0x45; EvOutb 0x1f5 0x23; EvOutb 0x1f7 0x20 ] ++ rest.
Proof.
  split; [reflexivity|]. split; [reflexivity|]. split; [discriminate|].
  apply (proj1 (ata_setup_sequence_order 1 1%nat primary_device 0 0x1234567
                  (repeat 0 256) 1 (sim_state sim_boot)
                  eq_refl eq_refl ltac:(discriminate))
           _ _ (run_eta _ _)).
Defined.

(** Two sectors are asked for and the second one is bad: the call fails
    after the 256 words of the first. *)
Lemma ata_transfer_aborts_on_error_witness :
  heap (sim_state sim_bad_sector) !! 1%nat = Some primary_device
  /\ spinlock primary_device = 0%Z
  /\ 2 <= 255 /\ 1 < 2
  /\ exists bufk s',
       ata_read 1 (Some 1%nat) 0 0 (Some (repeat 7 512)) 2
         (sim_state sim_bad_sector)
       = (Ret ((-1)%Z, Some bufk), s')
       /\ data_transfers (trace s') = 256%nat
       /\ last (trace s') = Some (EvUnlock 1%nat).
Proof.
  split; [reflexivity|]. split; [reflexivity|].
  split; [discriminate|]. split; [reflexivity|].
  pose proof (proj1 (ata_transfer_aborts_on_error 1 1%nat primary_device 0 0
                       (repeat 7 512) 2 1 (sim_state sim_bad_sector)
                       eq_refl eq_refl ltac:(discriminate) eq_refl)) as Hread.
  match eval vm_compute in
    (read_sectors ata_wait 1 (N.to_nat 1) 0 1 (Some 1%nat) (repeat 7 512) 0
       (after_setup 1%nat primary_device 0 0 2 ATA_CMD_READ_SECTORS
          (sim_state sim_bad_sector)))
  with
  | (Ret (None, ?bufk), ?sk) =>
      match eval vm_compute in
        ((ata_wait_ready 1 (Some 1%nat) ;;; ata_has_err (Some 1%nat)) sk)
      with
      | (Ret ?e, ?se) =>
          destruct (Hread bufk sk e se) as (s' & d' & Hrun & Ht & _ & _ & Hc);
            [vm_compute; reflexivity | vm_compute; reflexivity | discriminate|];
          exists bufk, s'; split; [exact Hrun|]; split;
            [rewrite Hc; reflexivity | rewrite Ht; apply last_snoc]
      end
  end.
Defined.

(** The interrupt hook clears the flag and the waiter is the one that sets
    it: the two roles are the other way round from "set by the interrupt
    path, cleared by the waiter". *)
Lemma wait_irq_set_by_waiter_cleared_by_irq :
  trace (snd (ata_irq (sim_state sim_boot))) = [EvFlag 1%nat 0]
  /\ trace (snd (ata_wait_ready 0 (Some 1%nat) (sim_state sim_boot)))
     = [EvFlag 1%nat 1; EvInb 0x1f7 0x40; EvFlag 1%nat 0].
Proof. split; vm_compute; reflexivity. Qed.

Lemma wait_irq_store_discipline_witness :
  guard_shape 1%nat
    (trace (sim_state sim_boot))
    (trace (snd (ata_write 1 (Some 1%nat) 0 0 (Some (repeat 7 256)) 1
                   (sim_state sim_boot)))).
Proof.
  destruct (@wait_irq_store_discipline sim _)
    as (_ & _ & _ & _ & _ & _ & _ & _ & Hwrite).
  apply (Hwrite 1%nat 1%nat 0%Z 0 (Some (repeat 7 256)) 1 (sim_state sim_boot)
           _ _ (run_eta _ _)).
Defined.

(** Registration on an empty port range. *)
Lemma ata_init_device_failure_witness :
  devices_cache (pool_state sim_absent) = Some [1; 2; 3]%nat
  /\ heap (pool_state sim_absent) !! 1%nat = None
  /\ plat_inb (u16 (u16 ATA_PRIMARY_BUS + ATA_REG_STATUS))
       (hw (pool_state sim_absent)) = (0xff, sim_absent)
  /\ exists s',
       ata_init_device 1 ATA_PRIMARY_BUS ATA_PRIMARY_CTRL
         (pool_state sim_absent) = (Ret NULL, s')
       /\ heap s' = heap (pool_state sim_absent)
       /\ devices s' = devices (pool_state sim_absent)
       /\ devices_cache s' = devices_cache (pool_state sim_absent).
Proof.
  split; [reflexivity|]. split; [reflexivity|]. split; [reflexivity|].
  destruct (@ata_init_device_failure sim sim_platform 1 ATA_PRIMARY_BUS
              ATA_PRIMARY_CTRL 1%nat [2; 3]%nat 0xff sim_absent
              (pool_state sim_absent)
              eq_refl eq_refl eq_refl (or_introl eq_refl))
    as (s' & evs & Hrun & Hh & Hd & Hc & _).
  exists s'. auto.
Defined.

(** A floating bus, a failed identify and an exhausted pool all give the
    caller the same result; only the log tells them apart. *)
Lemma ata_init_device_failures_return_the_same :
  ata_init_device 1 ATA_PRIMARY_BUS ATA_PRIMARY_CTRL (pool_state sim_absent)
  = (Ret NULL,
     mk_state ∅ NULL (Some [1; 2; 3]%nat) sim_absent
       [ EvAlloc 1%nat; EvInb 0x1f7 0xff;
         EvPrintf ("ATA floating bus detected" +:+ nl) []; EvFree 1%nat ])
  /\ fst (ata_init_device 1 ATA_PRIMARY_BUS ATA_PRIMARY_CTRL
            (pool_state sim_packet_dev)) = Ret NULL
  /\ last (removelast (trace (snd (ata_init_device 1 ATA_PRIMARY_BUS
                                     ATA_PRIMARY_CTRL
                                     (pool_state sim_packet_dev)))))
     = Some (EvPrintf ("ATA identify failed" +:+ nl) [])
  /\ ata_init_device 1 ATA_PRIMARY_BUS ATA_PRIMARY_CTRL
       (mk_state ∅ NULL (Some []) sim_boot [])
     = (Ret NULL, mk_state ∅ NULL (Some []) sim_boot []).
Proof. repeat split; vm_compute; reflexivity. Qed.

(** Registration fails on an empty port range; the interrupt hook then
    stores through the null list head. *)
Lemma ata_irq_after_failed_init :
  devices (snd (ata_init 1 (boot_state sim_absent))) = NULL
  /\ fst (ata_irq (snd (ata_init 1 (boot_state sim_absent)))) = Fault.
Proof. split; vm_compute; reflexivity. Qed.

(** Sector 5 and sector [2^28 + 5] are the same sector. *)
Lemma ata_lba_wraps_at_28_bits_witness :
  5 mod 2 ^ 28 = 268435461 mod 2 ^ 28
  /\ ata_read 0 (Some 1%nat) 0 5 (Some (repeat 0 256)) 1 (sim_state sim_boot)
     = ata_read 0 (Some 1%nat) 0 268435461 (Some (repeat 0 256)) 1
         (sim_state sim_boot)
  /\ ata_write 0 (Some 1%nat) 0 5 (Some (repeat 7 256)) 1 (sim_state sim_boot)
     = ata_write 0 (Some 1%nat) 0 268435461 (Some (repeat 7 256)) 1
         (sim_state sim_boot).
Proof.
  split; [reflexivity|]. split.
  - apply (@ata_lba_wraps_at_28_bits sim sim_platform 0 (Some 1%nat) 0 5
             268435461 (Some (repeat 0 256)) 1 (sim_state sim_boot) eq_refl).
  - apply (@ata_lba_wraps_at_28_bits sim sim_platform 0 (Some 1%nat) 0 5
             268435461 (Some (repeat 7 256)) 1 (sim_state sim_boot) eq_refl).
Defined.

(** The reset of the primary device goes to port 0xf6, not 0x3f6. *)
Lemma ata_reset_pulses_low_byte_port_witness :
  heap (sim_state sim_boot) !! 1%nat = Some primary_device
  /\ exists v1 v2 s',
       ata_reset (Some 1%nat) (sim_state sim_boot) = (Ret tt, s')
       /\ trace s' = [ EvInb 0xf6 v1; EvOutb 0xf6 (N.lor v1 4);
                       EvInb 0xf6 v2; EvOutb 0xf6 (N.ldiff v2 4) ]
       /\ 0xf6 <> ATA_PRIMARY_CTRL.
Proof.
  split; [reflexivity|].
  destruct (proj2 (@ata_reset_pulses_low_byte_port sim sim_platform 1%nat
                     primary_device (sim_state sim_boot) eq_refl))
    as (v1 & v2 & s' & Hrun & _ & _ & _ & _ & Ht & Hport).
  exists v1, v2, s'. split; [exact Hrun|]. split; [exact Ht|].
  apply Hport. discriminate.
Defined.

(** The list of one idle device: the pass visits it and changes nothing. *)
Lemma ata_err_check_walks_the_list_witness :
  linked (heap (sim_state sim_boot)) (devices (sim_state sim_boot)) [1%nat]
  /\ (length [1%nat] <= 1)%nat
  /\ ata_err_check 1 (sim_state sim_boot) = (Ret tt, sim_state sim_boot).
Proof.
  assert (H1 : linked (heap (sim_state sim_boot))
                 (devices (sim_state sim_boot)) [1%nat]).
  { split; [reflexivity|]. exists primary_device.
    split; reflexivity. }
  assert (H2 : (length [1%nat] <= 1)%nat) by (cbn; lia).
  split; [exact H1|]. split; [exact H2|].
  destruct (@ata_err_check_walks_the_list sim sim_platform 1 [1%nat]
              (sim_state sim_boot) H1 H2)
    as (s' & Hrun & _ & _ & _ & Hidle).
  rewrite Hrun. f_equal. apply Hidle.
  intros b d Hb Hd. apply list_elem_of_singleton in Hb. subst b.
  vm_compute in Hd. inversion Hd. reflexivity.
Defined.

(** The empty disk answers the identify command with 256 words. *)
Lemma ata_identify_result_witness :
  exists data s',
    ata_identify 0 ATA_PRIMARY_BUS 0 (boot_state sim_boot)
    = (Ret (1%Z, data), s')
    /\ length data = 256%nat
    /\ words_in (trace s') = data.
Proof.
  match eval vm_compute in
    (ata_identify 0 ATA_PRIMARY_BUS 0 (boot_state sim_boot))
  with
  | (Ret (?r, ?data), ?s') =>
      assert (Hrun : ata_identify 0 ATA_PRIMARY_BUS 0 (boot_state sim_boot)
                     = (Ret (r, data), s'))
        by (vm_compute; reflexivity);
      destruct (@ata_identify_result sim sim_platform 0 ATA_PRIMARY_BUS 0
                  (boot_state sim_boot) s' r data Hrun)
        as (_ & _ & _ & _ & Hin & _ & [(_ & Hlen & _) | (H0 & _)]);
        [exists data, s'; split; [exact Hrun|]; split; [exact Hlen|exact Hin]
        |discriminate H0]
  end.
Defined.

(** A packet device that stays busy: sixteen polls on, [ata_identify] is
    still in its loop. *)
Lemma ata_identify_polls_without_bound_witness :
  (forall h, h = setup_identify_hw ATA_PRIMARY_BUS 0 sim_hung ->
     snd (plat_inb (u16 (ATA_PRIMARY_BUS + ATA_REG_STATUS)) h)
     = setup_identify_hw ATA_PRIMARY_BUS 0 sim_hung
     /\ N.land (u8 (fst (plat_inb (u16 (ATA_PRIMARY_BUS + ATA_REG_STATUS))
                           h)))
          ATA_STATUS_BSY <> 0)
  /\ fst (ata_identify 16 ATA_PRIMARY_BUS 0 (boot_state sim_hung)) = Spin.
Proof.
  assert (H1 : forall h, h = setup_identify_hw ATA_PRIMARY_BUS 0 sim_hung ->
            snd (plat_inb (u16 (ATA_PRIMARY_BUS + ATA_REG_STATUS)) h)
            = setup_identify_hw ATA_PRIMARY_BUS 0 sim_hung
            /\ N.land (u8 (fst (plat_inb
                                  (u16 (ATA_PRIMARY_BUS + ATA_REG_STATUS))
                                  h)))
                 ATA_STATUS_BSY <> 0).
  { intros h ->. split; [vm_compute; reflexivity|vm_compute; discriminate]. }
  split; [exact H1|].
  destruct (@ata_identify_polls_without_bound sim sim_platform
              (fun h => h = setup_identify_hw ATA_PRIMARY_BUS 0 sim_hung)
              16 ATA_PRIMARY_BUS 0 (boot_state sim_hung) H1 eq_refl)
    as (s' & io & Hrun & _).
  rewrite Hrun. reflexivity.
Defined.

(** Bring-up of a disk of [2^23 + 5] sectors: the size printed is what
    is left of it in 32 bits, 2560 bytes. *)
Lemma ata_init_device_registers_witness :
  devices_cache (pool_state sim_large) = Some [1; 2; 3]%nat
  /\ plat_inb (u16 (u16 ATA_PRIMARY_BUS + ATA_REG_STATUS))
       (hw (pool_state sim_large)) = (0x40, sim_large)
  /\ u8 0x40 <> 0xff
  /\ exists s',
       ata_init_device 0 ATA_PRIMARY_BUS ATA_PRIMARY_CTRL
         (pool_state sim_large) = (Ret (Some 1%nat), s')
       /\ heap s' !! 1%nat = Some primary_device
       /\ devices s' = NULL
       /\ last (removelast (trace s'))
          = Some (EvPrintf ("ATA disk size: %u bytes" +:+ nl) [2560]).
Proof.
  split; [reflexivity|]. split; [reflexivity|]. split; [discriminate|].
  match eval vm_compute in
    (ata_identify 0 (u16 ATA_PRIMARY_BUS) 0 (set_hw sim_large
                                               (pool_state sim_large)))
  with
  | (Ret (_, ?data), ?s2) =>
      destruct (@ata_init_device_registers sim sim_platform 0 ATA_PRIMARY_BUS
                  ATA_PRIMARY_CTRL 1%nat [2; 3]%nat 0x40 sim_large data
                  (pool_state sim_large) s2 eq_refl eq_refl
                  ltac:(discriminate) ltac:(vm_compute; reflexivity))
        as (s' & io & Hrun & Hh & Hd & _ & _ & Hio & Ht & _);
      exists s'; split; [exact Hrun|]; split;
        [rewrite Hh; reflexivity|]; split; [exact Hd|];
      change (trace (pool_state sim_large) ++ io) with io in Hio;
      rewrite Ht, <- Hio; vm_compute; reflexivity
  end.
Defined.

(** [ata_init] on the empty disk registers the one device. *)
Lemma ata_init_result_witness :
  exists s',
    ata_init 0 (boot_state sim_boot) = (Ret tt, s')
    /\ devices s' = Some 1%nat
    /\ heap s' = <[1%nat := primary_device]> ∅.
Proof.
  match eval vm_compute in (ata_init 0 (boot_state sim_boot)) with
  | (Ret tt, ?s') =>
      assert (Hrun : ata_init 0 (boot_state sim_boot) = (Ret tt, s'))
        by (vm_compute; reflexivity);
      destruct (proj2 (@ata_init_result sim sim_platform 0
                         (boot_state sim_boot) s' Hrun)
                  [1; 2; 3]%nat eq_refl)
        as [(Hnull & _) | (a & rest & Hsl & Hd & _ & Hh & _)];
        [discriminate Hnull|];
      exists s'; split; [exact Hrun|]; inversion Hsl; subst a rest;
      split; [exact Hd|exact Hh]
  end.
Defined.

(** An idle disk is ready at the first look. *)
Lemma ata_wait_ready_ready_at_once_witness :
  heap (sim_state sim_boot) !! 1%nat = Some primary_device
  /\ plat_inb (u16 (bus primary_device + ATA_REG_STATUS))
       (hw (sim_state sim_boot)) = (0x40, sim_boot)
  /\ N.land (u8 0x40) ATA_STATUS_RDY <> 0
  /\ trace (snd (ata_wait_ready 0 (Some 1%nat) (sim_state sim_boot)))
     = [EvFlag 1%nat 1; EvInb 0x1f7 0x40; EvFlag 1%nat 0].
Proof.
  split; [reflexivity|]. split; [reflexivity|]. split; [discriminate|].
  refine (eq_trans
            (f_equal (fun r => trace (snd r))
               (@ata_wait_ready_ready_at_once sim sim_platform 0 1%nat
                  primary_device 0x40 sim_boot (sim_state sim_boot)
                  eq_refl eq_refl ltac:(discriminate))) _).
  reflexivity.
Defined.

(** The disk is busy for three more ticks, yet the wait is over after
    one: an interrupt was delivered meanwhile. *)
Lemma ata_wait_ready_ends_at_interrupt_witness :
  heap (sim_state sim_spurious) !! 1%nat = Some primary_device
  /\ devices (sim_state sim_spurious) = Some 1%nat
  /\ plat_inb (u16 (bus primary_device + ATA_REG_STATUS))
       (hw (sim_state sim_spurious)) = (0x80, sim_spurious)
  /\ N.land (u8 0x80) ATA_STATUS_RDY = 0
  /\ plat_wait sim_spurious = ([IrqHook], sim_set_time 2 [] sim_spurious)
  /\ exists s',
       ata_wait_ready 1 (Some 1%nat) (sim_state sim_spurious) = (Ret tt, s')
       /\ sim_busy (hw s') = 2
       /\ trace s' = [ EvFlag 1%nat 1; EvInb 0x1f7 0x80; EvYield;
                       EvFlag 1%nat 0; EvFlag 1%nat 0 ].
Proof.
  split; [reflexivity|]. split; [reflexivity|]. split; [reflexivity|].
  split; [reflexivity|]. split; [reflexivity|].
  eexists. split.
  - apply (@ata_wait_ready_ends_at_interrupt sim sim_platform 0 1%nat
             primary_device 0x80 sim_spurious (sim_set_time 2 [] sim_spurious)
             (sim_state sim_spurious) eq_refl eq_refl eq_refl eq_refl eq_refl).
  - split; reflexivity.
Defined.

(** One sector read from the empty disk into a buffer of 300 words: the
    256 words that came in, then the last 44 words of the buffer. *)
Lemma ata_read_fills_buffer_in_order_witness :
  exists out' s' ws,
    ata_read 0 (Some 1%nat) 0 0 (Some (repeat 7 300)) 1 (sim_state sim_boot)
    = (Ret (0%Z, Some out'), s')
    /\ length ws = 256%nat
    /\ words_in (trace s') = ws
    /\ out' = ws ++ repeat 7 44.
Proof.
  match eval vm_compute in
    (ata_read 0 (Some 1%nat) 0 0 (Some (repeat 7 300)) 1 (sim_state sim_boot))
  with
  | (Ret (?r, Some ?out'), ?s') =>
      assert (Hrun : ata_read 0 (Some 1%nat) 0 0 (Some (repeat 7 300)) 1
                       (sim_state sim_boot)
                     = (Ret (r, Some out'), s'))
        by (vm_compute; reflexivity);
      destruct (@ata_read_fills_buffer_in_order sim sim_platform 0 1%nat 0 0
                  (repeat 7 300) 1 (sim_state sim_boot) s' r out' Hrun)
        as (j & ws & Hlen & Hin & _ & Hout & _ & [[_ Hj] | [H1 _]]);
        [|discriminate H1];
      assert (j = 1%nat) by lia; subst j;
      exists out', s', ws; split; [exact Hrun|]; split; [exact Hlen|];
      split; [exact Hin|exact Hout]
  end.
Defined.

(** One sector written: the 256 words of the buffer went out in order. *)
Lemma ata_write_sends_buffer_in_order_witness :
  exists s',
    ata_write 0 (Some 1%nat) 0 0 (Some (N.of_nat <$> seq 0 300)) 1
      (sim_state sim_boot) = (Ret 0%Z, s')
    /\ words_out (trace s') = N.of_nat <$> seq 0 256.
Proof.
  match eval vm_compute in
    (ata_write 0 (Some 1%nat) 0 0 (Some (N.of_nat <$> seq 0 300)) 1
       (sim_state sim_boot))
  with
  | (Ret ?r, ?s') =>
      assert (Hrun : ata_write 0 (Some 1%nat) 0 0
                       (Some (N.of_nat <$> seq 0 300)) 1 (sim_state sim_boot)
                     = (Ret r, s'))
        by (vm_compute; reflexivity);
      destruct (@ata_write_sends_buffer_in_order sim sim_platform 0 1%nat 0 0
                  (N.of_nat <$> seq 0 300) 1 (sim_state sim_boot) s' r Hrun)
        as (j & Hout & _ & _ & [[_ Hj] | [H1 _]]);
        [|discriminate H1];
      assert (j = 1%nat) by lia; subst j;
      exists s'; split; [exact Hrun|];
      rewrite Hout; vm_compute; reflexivity
  end.
Defined.

(** From power-up to a sector read back, on the controller that is busy
    for three ticks per sector and raises its interrupt. *)
Lemma ata_init_then_round_trip_witness :
  sim_present (hw (boot_state sim_slow)) = true
  /\ sim_packet (hw (boot_state sim_slow)) = false
  /\ sim_slots (hw (boot_state sim_slow)) = Some [1; 2; 3]%nat
  /\ (N.to_nat (sim_latency (hw (boot_state sim_slow))) <= 3)%nat
  /\ exists s0 s1 s2,
       ata_init 3 (boot_state sim_slow) = (Ret tt, s0)
       /\ devices s0 = Some 1%nat
       /\ ata_write 3 (devices s0) 0 9 (Some (N.of_nat <$> seq 0 256)) 1 s0
          = (Ret 0%Z, s1)
       /\ ata_read 3 (devices s0) 0 9 (Some (repeat 0 256)) 1 s1
          = (Ret (0%Z, Some (N.of_nat <$> seq 0 256)), s2).
Proof.
  assert (H6 : (N.to_nat (sim_latency (hw (boot_state sim_slow))) <= 3)%nat)
    by (vm_compute; lia).
  split; [reflexivity|]. split; [reflexivity|]. split; [reflexivity|].
  split; [exact H6|].
  assert (H9 : length (N.of_nat <$> seq 0 256) = (256 * N.to_nat 1)%nat)
    by (vm_compute; reflexivity).
  assert (H10 : length (repeat 0 256) = length (N.of_nat <$> seq 0 256))
    by (vm_compute; reflexivity).
  assert (H11 : Forall (fun w => w < 65536) (N.of_nat <$> seq 0 256)).
  { apply Forall_forall. intros w Hw. apply list_elem_of_fmap in Hw.
    destruct Hw as (k & -> & Hk). apply elem_of_seq in Hk. lia. }
  destruct (ata_init_then_round_trip 3 1%nat [2; 3]%nat 0 9 1
              (N.of_nat <$> seq 0 256) (repeat 0 256) (boot_state sim_slow)
              eq_refl eq_refl eq_refl eq_refl eq_refl H6 eq_refl
              ltac:(discriminate) H9 H10 H11)
    as (s0 & s1 & s2 & Hinit & Hdev & _ & Ew & Er).
  exists s0, s1, s2. auto.
Defined.

(** On the port range that reads as zero a transfer never gets past its
    first wait. *)
Lemma ata_transfer_waits_without_bound_witness :
  heap silent_state !! 1%nat = Some primary_device
  /\ spinlock primary_device = 0%Z
  /\ fst (@ata_read unit silent_platform 8 (Some 1%nat) 0 0
            (Some (repeat 0 256)) 1 silent_state) = Spin
  /\ fst (@ata_write unit silent_platform 8 (Some 1%nat) 0 0
            (Some (repeat 0 256)) 1 silent_state) = Spin.
Proof.
  split; [reflexivity|]. split; [reflexivity|].
  destruct (@ata_transfer_waits_without_bound unit silent_platform
              (fun _ => True) 8 1%nat primary_device 0 0 (repeat 0 256) 1
              silent_state eq_refl eq_refl eq_refl ltac:(discriminate)
              (fun h _ => conj I eq_refl) (fun h _ => conj eq_refl I)
              (fun _ => I))
    as (sr & sw & Er & Ew & _).
  split.
  - refine (eq_trans (f_equal fst Er) _). reflexivity.
  - refine (eq_trans (f_equal fst Ew) _). reflexivity.
Defined.
